(** * Print-session controller and page-geometry reconciliation

    A shallow embedding of
    [chromium_src/chrome/renderer/printing/print_web_view_helper.cc]
    and the properties of its geometry functions and of the
    [PrintWebViewHelper] print session.

    Conventions of the embedding.
    - A C++ [int] is a [Z].  Signed overflow is undefined behaviour in the
      source; the theorems speak of executions in which no arithmetic
      overflows, and integer division truncates towards zero ([Z.quot]).
    - A C++ [double] is a binary64 primitive float, so that the floating
      point arithmetic of [FitPrintParamsToPage] evaluates bit for bit.
    - A failed [CHECK] (and a call through a null pointer) ends the renderer
      process; it is the outcome [CheckFailure] / [Aborted].
    - The preprocessor symbols that select code in the file ([OS_MACOSX],
      [OS_CHROMEOS], [OS_ANDROID]) are fields of a [Platform]. *)

From Stdlib Require Import ZArith NArith Lia List Bool String Sorted.
From Stdlib Require Import Floats.PrimFloat Floats.SpecFloat Floats.FloatOps.
From Stdlib Require Import Numbers.Cyclic.Int63.Uint63.
Import ListNotations.
Open Scope Z_scope.

(** ** Numbers *)

Definition double : Set := PrimFloat.float.

Module Double.

(** [static_cast<double>(int)]: exact for every 32-bit integer. *)
Definition of_int (z : Z) : double :=
  match z with
  | Z0 => PrimFloat.zero
  | Zpos _ => PrimFloat.of_uint63 (Uint63.of_Z z)
  | Zneg p => PrimFloat.opp (PrimFloat.of_uint63 (Uint63.of_Z (Zpos p)))
  end.

(** [static_cast<int>(double)]: truncation towards zero.  The source leaves
    the conversion of an infinity or a NaN undefined; the model gives 0. *)
Definition to_int (d : double) : Z :=
  match Prim2SF d with
  | S754_finite s m e =>
      let v := if 0 <=? e then Zpos m * 2 ^ e else Zpos m / 2 ^ (- e) in
      if s then - v else v
  | _ => 0
  end.

(** A [double] used as a condition: true unless it compares equal to zero. *)
Definition to_bool (d : double) : bool := negb (PrimFloat.eqb d PrimFloat.zero).

Definition one : double := PrimFloat.one.
Definition two : double := PrimFloat.two.

End Double.

(** A C++ [int] used as a condition. *)
Definition int_to_bool (z : Z) : bool := negb (z =? 0).

(** ** Collaborating types

    The declarations of these types are not part of the file; each is given
    by the members the file uses. *)

(** [gfx::Size]: both dimensions are kept non-negative by the class (the
    constructor and [SetSize] store 0 for a negative argument), which the
    representation by [N] records in the type. *)
Module gfx.

Record Size := { size_width : N; size_height : N }.

Definition width (s : Size) : Z := Z.of_N (size_width s).
Definition height (s : Size) : Z := Z.of_N (size_height s).

(** [gfx::Size(width, height)]. *)
Definition mkSize (w h : Z) : Size :=
  {| size_width := Z.to_N w; size_height := Z.to_N h |}.

(** [size.SetSize(width, height)]. *)
Definition SetSize (_ : Size) (w h : Z) : Size := mkSize w h.

Definition IsEmpty (s : Size) : bool := (width s =? 0) || (height s =? 0).

Definition Size_eqb (a b : Size) : bool :=
  (size_width a =? size_width b)%N && (size_height a =? size_height b)%N.

(** [gfx::Rect]: an origin and a size. *)
Record Rect := { rect_x : Z; rect_y : Z; rect_size : Size }.

Definition mkRect (x y w h : Z) : Rect :=
  {| rect_x := x; rect_y := y; rect_size := mkSize w h |}.

Definition rect_width (r : Rect) : Z := width (rect_size r).
Definition rect_height (r : Rect) : Z := height (rect_size r).

(** [rect.set_size(size)]. *)
Definition set_size (r : Rect) (s : Size) : Rect :=
  {| rect_x := rect_x r; rect_y := rect_y r; rect_size := s |}.

Definition Rect_IsEmpty (r : Rect) : bool := IsEmpty (rect_size r).

End gfx.

(** [blink::WebSize]: a plain pair of [int]s. *)
Record WebSize := { ws_width : Z; ws_height : Z }.

Definition WebSize_eqb (a b : WebSize) : bool :=
  (ws_width a =? ws_width b) && (ws_height a =? ws_height b).

(** [blink::WebPrintScalingOption], the two values the file names. *)
Inductive WebPrintScalingOption :=
| WebPrintScalingOptionSourceSize
| WebPrintScalingOptionFitToPrintableArea.

Definition WebPrintScalingOption_eqb (a b : WebPrintScalingOption) : bool :=
  match a, b with
  | WebPrintScalingOptionSourceSize, WebPrintScalingOptionSourceSize => true
  | WebPrintScalingOptionFitToPrintableArea,
    WebPrintScalingOptionFitToPrintableArea => true
  | _, _ => false
  end.

(** [PrintMsg_Print_Params], with the members this file reads or writes. *)
Record PrintMsg_Print_Params := {
  page_size : gfx.Size;
  content_size : gfx.Size;
  printable_area : gfx.Rect;
  margin_top : Z;
  margin_left : Z;
  dpi : double;
  min_shrink : double;
  max_shrink : double;
  desired_dpi : Z;
  document_cookie : Z;
  selection_only : bool;
  print_scaling_option : WebPrintScalingOption;
  should_print_backgrounds : bool
}.

(** Assignments to single members. *)
Definition set_page_size (p : PrintMsg_Print_Params) (v : gfx.Size) :=
  {| page_size := v; content_size := content_size p;
     printable_area := printable_area p; margin_top := margin_top p;
     margin_left := margin_left p; dpi := dpi p; min_shrink := min_shrink p;
     max_shrink := max_shrink p; desired_dpi := desired_dpi p;
     document_cookie := document_cookie p; selection_only := selection_only p;
     print_scaling_option := print_scaling_option p;
     should_print_backgrounds := should_print_backgrounds p |}.

Definition set_content_size (p : PrintMsg_Print_Params) (v : gfx.Size) :=
  {| page_size := page_size p; content_size := v;
     printable_area := printable_area p; margin_top := margin_top p;
     margin_left := margin_left p; dpi := dpi p; min_shrink := min_shrink p;
     max_shrink := max_shrink p; desired_dpi := desired_dpi p;
     document_cookie := document_cookie p; selection_only := selection_only p;
     print_scaling_option := print_scaling_option p;
     should_print_backgrounds := should_print_backgrounds p |}.

Definition set_printable_area (p : PrintMsg_Print_Params) (v : gfx.Rect) :=
  {| page_size := page_size p; content_size := content_size p;
     printable_area := v; margin_top := margin_top p;
     margin_left := margin_left p; dpi := dpi p; min_shrink := min_shrink p;
     max_shrink := max_shrink p; desired_dpi := desired_dpi p;
     document_cookie := document_cookie p; selection_only := selection_only p;
     print_scaling_option := print_scaling_option p;
     should_print_backgrounds := should_print_backgrounds p |}.

Definition set_margin_top (p : PrintMsg_Print_Params) (v : Z) :=
  {| page_size := page_size p; content_size := content_size p;
     printable_area := printable_area p; margin_top := v;
     margin_left := margin_left p; dpi := dpi p; min_shrink := min_shrink p;
     max_shrink := max_shrink p; desired_dpi := desired_dpi p;
     document_cookie := document_cookie p; selection_only := selection_only p;
     print_scaling_option := print_scaling_option p;
     should_print_backgrounds := should_print_backgrounds p |}.

Definition set_margin_left (p : PrintMsg_Print_Params) (v : Z) :=
  {| page_size := page_size p; content_size := content_size p;
     printable_area := printable_area p; margin_top := margin_top p;
     margin_left := v; dpi := dpi p; min_shrink := min_shrink p;
     max_shrink := max_shrink p; desired_dpi := desired_dpi p;
     document_cookie := document_cookie p; selection_only := selection_only p;
     print_scaling_option := print_scaling_option p;
     should_print_backgrounds := should_print_backgrounds p |}.

Definition set_print_scaling_option (p : PrintMsg_Print_Params)
    (v : WebPrintScalingOption) :=
  {| page_size := page_size p; content_size := content_size p;
     printable_area := printable_area p; margin_top := margin_top p;
     margin_left := margin_left p; dpi := dpi p; min_shrink := min_shrink p;
     max_shrink := max_shrink p; desired_dpi := desired_dpi p;
     document_cookie := document_cookie p; selection_only := selection_only p;
     print_scaling_option := v;
     should_print_backgrounds := should_print_backgrounds p |}.

Definition set_should_print_backgrounds (p : PrintMsg_Print_Params)
    (v : bool) :=
  {| page_size := page_size p; content_size := content_size p;
     printable_area := printable_area p; margin_top := margin_top p;
     margin_left := margin_left p; dpi := dpi p; min_shrink := min_shrink p;
     max_shrink := max_shrink p; desired_dpi := desired_dpi p;
     document_cookie := document_cookie p; selection_only := selection_only p;
     print_scaling_option := print_scaling_option p;
     should_print_backgrounds := v |}.

(** [printing::PageSizeMargins]: the layout of a page in points.  Every member
    is assigned the [int] that [ConvertUnit] returns. *)
Record PageSizeMargins := {
  content_width : Z;
  content_height : Z;
  layout_margin_top : Z;
  layout_margin_right : Z;
  layout_margin_bottom : Z;
  layout_margin_left : Z
}.

(** What [WebFrame::pageSizeAndMarginsInPixels] reads and overwrites: the page
    size and the four margins, in CSS pixels. *)
Record PageSizeAndMarginsInPixels := {
  px_page_size : WebSize;
  px_margin_top : Z;
  px_margin_right : Z;
  px_margin_bottom : Z;
  px_margin_left : Z
}.

(** The part of [blink::WebFrame] that the geometry functions consult: the
    page size and margins that the document's style declares for a page. *)
Record WebFrame := {
  pageSizeAndMarginsInPixels :
    Z -> PageSizeAndMarginsInPixels -> PageSizeAndMarginsInPixels
}.

(** The build target. *)
Record Platform := {
  OS_MACOSX : bool;
  OS_CHROMEOS : bool;
  OS_ANDROID : bool
}.

(** The outcome of a function that contains a [CHECK]. *)
Inductive checked (A : Type) : Type :=
| Done (a : A)
| CheckFailure.
Arguments Done {A} a.
Arguments CheckFailure {A}.

(** ** Units (printing/units.h) *)

Definition kPixelsPerInch : Z := 96.
Definition kPointsPerInch : Z := 72.

(** Modelled from the spec: [ConvertUnit] of printing/units.h is not part of
    the file.  Section 4.1: a conversion is the linear scaling
    [value * targetUnitsPerInch / sourceUnitsPerInch], rounded to the nearest
    integer at each conversion.  A tie is rounded away from zero, by adding
    half of the divisor to a non-negative dividend and subtracting it from a
    negative one before the truncating division. *)
Definition ConvertUnit (value old_unit new_unit : Z) : Z :=
  if 0 <=? value
  then Z.quot (value * new_unit + Z.quot old_unit 2) old_unit
  else Z.quot (value * new_unit - Z.quot old_unit 2) old_unit.

Definition kMinDpi : double := Double.one.

(** ** The geometry functions *)

Section Geometry.

Variable platform : Platform.

Definition GetDPI (print_params : PrintMsg_Print_Params) : Z :=
  if OS_MACOSX platform
  then kPointsPerInch
  else Double.to_int (dpi print_params).

Definition PrintMsg_Print_Params_IsValid (params : PrintMsg_Print_Params)
    : bool :=
  negb (gfx.IsEmpty (content_size params)) &&
  negb (gfx.IsEmpty (page_size params)) &&
  negb (gfx.Rect_IsEmpty (printable_area params)) &&
  int_to_bool (document_cookie params) &&
  int_to_bool (desired_dpi params) &&
  Double.to_bool (max_shrink params) &&
  Double.to_bool (min_shrink params) &&
  Double.to_bool (dpi params) &&
  (0 <=? margin_top params) && (0 <=? margin_left params) &&
  PrimFloat.ltb kMinDpi (dpi params) &&
  negb (document_cookie params =? 0).

(** The recursion of [GetCssPrintParams] is on [fuel]; the function calls
    itself only with a null frame and only after the [CHECK] that its own
    frame is not null, so two units of fuel are always enough
    ([GetCssPrintParams_fuel_enough]). *)
Fixpoint GetCssPrintParams_fuel (fuel : nat) (frame : option WebFrame)
    (page_index : Z) (page_params : PrintMsg_Print_Params)
    : option (checked PrintMsg_Print_Params) :=
  match fuel with
  | O => None
  | S fuel' =>
    let page_css_params := page_params in
    let dpi := GetDPI page_params in
    let page_size_in_pixels :=
      {| ws_width :=
           ConvertUnit (gfx.width (page_size page_params)) dpi kPixelsPerInch;
         ws_height :=
           ConvertUnit (gfx.height (page_size page_params)) dpi
                       kPixelsPerInch |} in
    let margin_top_in_pixels :=
      ConvertUnit (margin_top page_params) dpi kPixelsPerInch in
    let margin_right_in_pixels :=
      ConvertUnit (gfx.width (page_size page_params) -
                   gfx.width (content_size page_params) -
                   margin_left page_params) dpi kPixelsPerInch in
    let margin_bottom_in_pixels :=
      ConvertUnit (gfx.height (page_size page_params) -
                   gfx.height (content_size page_params) -
                   margin_top page_params) dpi kPixelsPerInch in
    let margin_left_in_pixels :=
      ConvertUnit (margin_left page_params) dpi kPixelsPerInch in
    let original_page_size_in_pixels := page_size_in_pixels in
    let in_pixels :=
      {| px_page_size := page_size_in_pixels;
         px_margin_top := margin_top_in_pixels;
         px_margin_right := margin_right_in_pixels;
         px_margin_bottom := margin_bottom_in_pixels;
         px_margin_left := margin_left_in_pixels |} in
    let in_pixels :=
      match frame with
      | Some f => pageSizeAndMarginsInPixels f page_index in_pixels
      | None => in_pixels
      end in
    let page_size_in_pixels := px_page_size in_pixels in
    let new_content_width :=
      ws_width page_size_in_pixels -
      px_margin_left in_pixels - px_margin_right in_pixels in
    let new_content_height :=
      ws_height page_size_in_pixels -
      px_margin_top in_pixels - px_margin_bottom in_pixels in
    if (new_content_width <? 1) || (new_content_height <? 1)
    then
      match frame with
      | None => Some CheckFailure
      | Some _ => GetCssPrintParams_fuel fuel' None page_index page_params
      end
    else
      let page_css_params :=
        set_content_size page_css_params
          (gfx.mkSize (ConvertUnit new_content_width kPixelsPerInch dpi)
                      (ConvertUnit new_content_height kPixelsPerInch dpi)) in
      let page_css_params :=
        if negb (WebSize_eqb original_page_size_in_pixels
                             page_size_in_pixels)
        then
          set_page_size page_css_params
            (gfx.mkSize
               (ConvertUnit (ws_width page_size_in_pixels)
                            kPixelsPerInch dpi)
               (ConvertUnit (ws_height page_size_in_pixels)
                            kPixelsPerInch dpi))
        else set_page_size page_css_params (page_size page_params) in
      let page_css_params :=
        set_margin_top page_css_params
          (ConvertUnit (px_margin_top in_pixels) kPixelsPerInch dpi) in
      let page_css_params :=
        set_margin_left page_css_params
          (ConvertUnit (px_margin_left in_pixels) kPixelsPerInch dpi) in
      Some (Done page_css_params)
  end.

Definition GetCssPrintParams (frame : option WebFrame) (page_index : Z)
    (page_params : PrintMsg_Print_Params)
    : option (checked PrintMsg_Print_Params) :=
  GetCssPrintParams_fuel 2 frame page_index page_params.

(** The function updates [params_to_fit] in place and returns the scale
    factor; the model returns both. *)
Definition FitPrintParamsToPage (page_params params_to_fit : PrintMsg_Print_Params)
    : double * PrintMsg_Print_Params :=
  let content_width := Double.of_int (gfx.width (content_size params_to_fit)) in
  let content_height :=
    Double.of_int (gfx.height (content_size params_to_fit)) in
  let default_page_size_height := gfx.height (page_size page_params) in
  let default_page_size_width := gfx.width (page_size page_params) in
  let css_page_size_height := gfx.height (page_size params_to_fit) in
  let css_page_size_width := gfx.width (page_size params_to_fit) in
  let scale_factor := Double.one in
  if gfx.Size_eqb (page_size page_params) (page_size params_to_fit)
  then (scale_factor, params_to_fit)
  else
    let '(scale_factor, content_width, content_height) :=
      if (default_page_size_width <? css_page_size_width) ||
         (default_page_size_height <? css_page_size_height)
      then
        let ratio_width :=
          PrimFloat.div (Double.of_int default_page_size_width)
                        (Double.of_int css_page_size_width) in
        let ratio_height :=
          PrimFloat.div (Double.of_int default_page_size_height)
                        (Double.of_int css_page_size_height) in
        let scale_factor :=
          if PrimFloat.ltb ratio_width ratio_height
          then ratio_width else ratio_height in
        (scale_factor,
         PrimFloat.mul content_width scale_factor,
         PrimFloat.mul content_height scale_factor)
      else (scale_factor, content_width, content_height) in
    let new_margin_top :=
      Double.to_int
        (PrimFloat.add
           (PrimFloat.div
              (PrimFloat.sub
                 (Double.of_int default_page_size_height)
                 (PrimFloat.mul (Double.of_int css_page_size_height)
                                scale_factor))
              Double.two)
           (PrimFloat.mul (Double.of_int (margin_top params_to_fit))
                          scale_factor)) in
    let params_to_fit := set_margin_top params_to_fit new_margin_top in
    let new_margin_left :=
      Double.to_int
        (PrimFloat.add
           (PrimFloat.div
              (PrimFloat.sub
                 (Double.of_int default_page_size_width)
                 (PrimFloat.mul (Double.of_int css_page_size_width)
                                scale_factor))
              Double.two)
           (PrimFloat.mul (Double.of_int (margin_left params_to_fit))
                          scale_factor)) in
    let params_to_fit := set_margin_left params_to_fit new_margin_left in
    let params_to_fit :=
      set_content_size params_to_fit
        (gfx.mkSize (Double.to_int content_width)
                    (Double.to_int content_height)) in
    let params_to_fit := set_page_size params_to_fit (page_size page_params) in
    (scale_factor, params_to_fit).

Definition CalculatePageLayoutFromPrintParams (params : PrintMsg_Print_Params)
    : PageSizeMargins :=
  let dpi := GetDPI params in
  let content_width := gfx.width (content_size params) in
  let content_height := gfx.height (content_size params) in
  let margin_bottom :=
    gfx.height (page_size params) - content_height - margin_top params in
  let margin_right :=
    gfx.width (page_size params) - content_width - margin_left params in
  {| content_width := ConvertUnit content_width dpi kPointsPerInch;
     content_height := ConvertUnit content_height dpi kPointsPerInch;
     layout_margin_top := ConvertUnit (margin_top params) dpi kPointsPerInch;
     layout_margin_right := ConvertUnit margin_right dpi kPointsPerInch;
     layout_margin_bottom := ConvertUnit margin_bottom dpi kPointsPerInch;
     layout_margin_left :=
       ConvertUnit (margin_left params) dpi kPointsPerInch |}.

(** The function updates [page_params] in place; the model returns it. *)
Definition EnsureOrientationMatches (css_params page_params : PrintMsg_Print_Params)
    : PrintMsg_Print_Params :=
  if Bool.eqb
       (gfx.width (page_size page_params) >? gfx.height (page_size page_params))
       (gfx.width (page_size css_params) >? gfx.height (page_size css_params))
  then page_params
  else
    (* Swap the |width| and |height| values. *)
    let page_params :=
      set_page_size page_params
        (gfx.SetSize (page_size page_params)
                     (gfx.height (page_size page_params))
                     (gfx.width (page_size page_params))) in
    let page_params :=
      set_content_size page_params
        (gfx.SetSize (content_size page_params)
                     (gfx.height (content_size page_params))
                     (gfx.width (content_size page_params))) in
    set_printable_area page_params
      (gfx.set_size (printable_area page_params)
         (gfx.mkSize (gfx.rect_height (printable_area page_params))
                     (gfx.rect_width (printable_area page_params)))).

(** [scale_factor] is an out-parameter that the callers may leave null; the
    model returns [Some factor] where the source stores through it. *)
Definition CalculatePrintParamsForCss (frame : option WebFrame)
    (page_index : Z) (page_params : PrintMsg_Print_Params)
    (ignore_css_margins fit_to_page : bool)
    : option (checked (PrintMsg_Print_Params * option double)) :=
  match GetCssPrintParams frame page_index page_params with
  | None => None
  | Some CheckFailure => Some CheckFailure
  | Some (Done css_params) =>
    let params := page_params in
    let params := EnsureOrientationMatches css_params params in
    if ignore_css_margins && fit_to_page
    then Some (Done (params, None))
    else
      let result_params := css_params in
      let result_params :=
        if ignore_css_margins
        then
          let result_params :=
            set_margin_top result_params (margin_top params) in
          let result_params :=
            set_margin_left result_params (margin_left params) in
          (* Since we are ignoring the margins, the css page size is no
             longer valid. *)
          let default_margin_right :=
            gfx.width (page_size params) - gfx.width (content_size params) -
            margin_left params in
          let default_margin_bottom :=
            gfx.height (page_size params) -
            gfx.height (content_size params) - margin_top params in
          set_content_size result_params
            (gfx.mkSize
               (gfx.width (page_size result_params) -
                margin_left result_params - default_margin_right)
               (gfx.height (page_size result_params) -
                margin_top result_params - default_margin_bottom))
        else result_params in
      if fit_to_page
      then
        let '(factor, result_params) :=
          FitPrintParamsToPage params result_params in
        Some (Done (result_params, Some factor))
      else Some (Done (result_params, None))
  end.

End Geometry.

(** ** The print session

    The controller [PrintWebViewHelper] and the surface-preparation object
    [PrepareFrameAndViewForPrint] run on one thread and talk to two
    collaborators: the host (browser) process, through IPC messages, and the
    rendering engine, through calls on frames and views.  Every call that has
    an effect on a collaborator is recorded, in order, as an [Event]; what a
    collaborator answers is a function of the events so far, so that two
    calls at different moments are free to answer differently. *)

(** Frames and views are identified by handles. *)
Definition WebLocalFrame : Set := nat.
Definition WebView : Set := nat.

(** [blink::WebNode]: the null node or a node of a document. *)
Inductive WebNode :=
| NullNode
| Node (id : nat).

Definition isNull (node : WebNode) : bool :=
  match node with NullNode => true | Node _ => false end.

(** [blink::WebRect]. *)
Record WebRect := { wr_x : Z; wr_y : Z; wr_width : Z; wr_height : Z }.

(** [blink::WebPrintParams]. *)
Record WebPrintParams := {
  printContentArea : WebRect;
  printableArea : WebRect;
  paperSize : WebSize;
  printerDPI : Z;
  printScalingOption : WebPrintScalingOption
}.

(** A default-constructed [blink::WebPrintParams]. *)
Definition WebPrintParams_default : WebPrintParams :=
  {| printContentArea := {| wr_x := 0; wr_y := 0; wr_width := 0; wr_height := 0 |};
     printableArea := {| wr_x := 0; wr_y := 0; wr_width := 0; wr_height := 0 |};
     paperSize := {| ws_width := 0; ws_height := 0 |};
     printerDPI := 72;
     printScalingOption := WebPrintScalingOptionFitToPrintableArea |}.

Inductive MarginType :=
| DEFAULT_MARGINS
| NO_MARGINS
| PRINTABLE_AREA_MARGINS.

Record PrintMsg_PrintPages_Params := {
  params : PrintMsg_Print_Params;
  pages : list Z
}.

Record PrintMsg_PrintPage_Params := {
  page_params : PrintMsg_Print_Params;
  page_number : Z
}.

Record PrintHostMsg_ScriptedPrint_Params := {
  cookie : Z;
  has_selection : bool;
  expected_pages_count : Z;
  margin_type : MarginType
}.

Inductive PrintingResult :=
| OK
| FAIL_PRINT_INIT
| FAIL_PRINT.

(** The messages the file sends to the host. *)
Inductive Message :=
| PrintHostMsg_GetDefaultPrintSettings
| PrintHostMsg_ShowInvalidPrinterSettingsError
| PrintHostMsg_ScriptedPrint (p : PrintHostMsg_ScriptedPrint_Params)
| PrintHostMsg_DidGetPrintedPagesCount (cookie : Z) (page_count : Z)
| PrintHostMsg_PrintingFailed (cookie : Z).

(** The calls on the collaborators, by the name of the function called.
    [PrintPageInternal], which renders one page, is defined in the platform
    files and is recorded as a call; [DidFinishPrinting_entered] records the
    result with which the controller enters [DidFinishPrinting], so that the
    history tells how a session ended. *)
Inductive Event :=
| Send (m : Message)
| printBegin (frame : WebLocalFrame) (p : WebPrintParams) (node : WebNode)
| printEnd (frame : WebLocalFrame)
| resize (view : WebView) (size : gfx.Size)
| setScrollOffset (view : WebView) (offset : gfx.Size)
| setShouldPrintBackgrounds (view : WebView) (b : bool)
| WebView_create (view : WebView) (javascript_enabled java_enabled : bool)
| setMainFrame (view : WebView) (frame : WebLocalFrame)
| WebView_close (view : WebView)
| loadRequest (frame : WebLocalFrame) (url : string)
| PrintPageInternal (p : PrintMsg_PrintPage_Params)
                    (frame : option WebLocalFrame)
| DidFinishPrinting_entered (result : PrintingResult).

Definition History := list Event.

(** The answers of the collaborators, each for the history at the moment of
    the call.  A frame has a view ([frame_view]); whether that view still has
    the frame among its frames is [view_has_frame]. *)
Record Environment := {
  (* the host process *)
  reply_GetDefaultPrintSettings : History -> PrintMsg_Print_Params;
  reply_ScriptedPrint :
    History -> PrintHostMsg_ScriptedPrint_Params -> PrintMsg_PrintPages_Params;
  (* the rendering engine *)
  frame_view : History -> WebLocalFrame -> WebView;
  view_has_frame : History -> WebView -> WebLocalFrame -> bool;
  view_has_mainFrame : History -> WebView -> bool;
  view_size : History -> WebView -> gfx.Size;
  view_scrollOffset : History -> WebView -> gfx.Size;
  frame_pageSizeAndMarginsInPixels :
    History -> WebLocalFrame -> Z ->
    PageSizeAndMarginsInPixels -> PageSizeAndMarginsInPixels;
  frame_printBegin : History -> WebLocalFrame -> WebPrintParams -> WebNode -> Z;
  frame_hasSelection : History -> WebLocalFrame -> bool;
  frame_selectionAsMarkup : History -> WebLocalFrame -> string;
  EscapeQueryParamValue : string -> string;
  plugin_supportsPaginatedPrint : History -> WebLocalFrame -> bool;
  frame_isPrintScalingDisabledForPlugin :
    History -> WebLocalFrame -> WebNode -> bool;
  new_WebView : History -> WebView;
  new_WebLocalFrame : History -> WebLocalFrame
}.

(** [base::Closure]: the one callback the file binds. *)
Inductive Closure :=
| Bind_OnFramePreparedForPrintPages.

Record FrameReference := {
  view_ : option WebView;
  frame_ : option WebLocalFrame
}.

Record PrepareFrameAndViewForPrint := {
  prep_frame_ : FrameReference;
  node_to_print_ : WebNode;
  owns_web_view_ : bool;
  web_print_params_ : WebPrintParams;
  prev_view_size_ : gfx.Size;
  prev_scroll_offset_ : gfx.Size;
  expected_pages_count_ : Z;
  on_ready_ : option Closure;
  should_print_backgrounds_ : bool;
  should_print_selection_only_ : bool;
  is_printing_started_ : bool
}.

Record PrintWebViewHelper := {
  prep_frame_view_ : option PrepareFrameAndViewForPrint;
  print_pages_params_ : option PrintMsg_PrintPages_Params;
  reset_prep_frame_view_ : bool;
  is_print_ready_metafile_sent_ : bool;
  ignore_css_margins_ : bool;
  is_scripted_printing_blocked_ : bool;
  notify_browser_of_print_failure_ : bool;
  print_for_preview_ : bool;
  print_node_in_progress_ : bool;
  is_loading_ : bool;
  is_scripted_preview_delayed_ : bool
}.

(** The controller as its constructor leaves it. *)
Definition PrintWebViewHelper_new : PrintWebViewHelper :=
  {| prep_frame_view_ := None;
     print_pages_params_ := None;
     reset_prep_frame_view_ := false;
     is_print_ready_metafile_sent_ := false;
     ignore_css_margins_ := false;
     is_scripted_printing_blocked_ := false;
     notify_browser_of_print_failure_ := true;
     print_for_preview_ := false;
     print_node_in_progress_ := false;
     is_loading_ := false;
     is_scripted_preview_delayed_ := false |}.

Definition set_prep_frame_view_ (h : PrintWebViewHelper)
    (v : option PrepareFrameAndViewForPrint) :=
  {| prep_frame_view_ := v;
     print_pages_params_ := print_pages_params_ h;
     reset_prep_frame_view_ := reset_prep_frame_view_ h;
     is_print_ready_metafile_sent_ := is_print_ready_metafile_sent_ h;
     ignore_css_margins_ := ignore_css_margins_ h;
     is_scripted_printing_blocked_ := is_scripted_printing_blocked_ h;
     notify_browser_of_print_failure_ := notify_browser_of_print_failure_ h;
     print_for_preview_ := print_for_preview_ h;
     print_node_in_progress_ := print_node_in_progress_ h;
     is_loading_ := is_loading_ h;
     is_scripted_preview_delayed_ := is_scripted_preview_delayed_ h |}.

Definition set_print_pages_params_ (h : PrintWebViewHelper)
    (v : option PrintMsg_PrintPages_Params) :=
  {| prep_frame_view_ := prep_frame_view_ h;
     print_pages_params_ := v;
     reset_prep_frame_view_ := reset_prep_frame_view_ h;
     is_print_ready_metafile_sent_ := is_print_ready_metafile_sent_ h;
     ignore_css_margins_ := ignore_css_margins_ h;
     is_scripted_printing_blocked_ := is_scripted_printing_blocked_ h;
     notify_browser_of_print_failure_ := notify_browser_of_print_failure_ h;
     print_for_preview_ := print_for_preview_ h;
     print_node_in_progress_ := print_node_in_progress_ h;
     is_loading_ := is_loading_ h;
     is_scripted_preview_delayed_ := is_scripted_preview_delayed_ h |}.

Definition set_ignore_css_margins_ (h : PrintWebViewHelper) (v : bool) :=
  {| prep_frame_view_ := prep_frame_view_ h;
     print_pages_params_ := print_pages_params_ h;
     reset_prep_frame_view_ := reset_prep_frame_view_ h;
     is_print_ready_metafile_sent_ := is_print_ready_metafile_sent_ h;
     ignore_css_margins_ := v;
     is_scripted_printing_blocked_ := is_scripted_printing_blocked_ h;
     notify_browser_of_print_failure_ := notify_browser_of_print_failure_ h;
     print_for_preview_ := print_for_preview_ h;
     print_node_in_progress_ := print_node_in_progress_ h;
     is_loading_ := is_loading_ h;
     is_scripted_preview_delayed_ := is_scripted_preview_delayed_ h |}.

Definition set_notify_browser_of_print_failure_ (h : PrintWebViewHelper)
    (v : bool) :=
  {| prep_frame_view_ := prep_frame_view_ h;
     print_pages_params_ := print_pages_params_ h;
     reset_prep_frame_view_ := reset_prep_frame_view_ h;
     is_print_ready_metafile_sent_ := is_print_ready_metafile_sent_ h;
     ignore_css_margins_ := ignore_css_margins_ h;
     is_scripted_printing_blocked_ := is_scripted_printing_blocked_ h;
     notify_browser_of_print_failure_ := v;
     print_for_preview_ := print_for_preview_ h;
     print_node_in_progress_ := print_node_in_progress_ h;
     is_loading_ := is_loading_ h;
     is_scripted_preview_delayed_ := is_scripted_preview_delayed_ h |}.

(** *** The monad of the session: the controller, the history, and abort *)

Record State := {
  self : PrintWebViewHelper;
  history : History
}.

Inductive Outcome (A : Type) : Type :=
| Returned (a : A) (s : State)
| Aborted (s : State).
Arguments Returned {A} a s.
Arguments Aborted {A} s.

Definition M (A : Type) : Type := State -> Outcome A.

Definition ret {A} (a : A) : M A := fun s => Returned a s.

Definition bind {A B} (m : M A) (k : A -> M B) : M B :=
  fun s => match m s with
           | Returned a s' => k a s'
           | Aborted s' => Aborted s'
           end.

Declare Scope session_scope.
Delimit Scope session_scope with session.
Notation "x <- m ;; k" := (bind m (fun x => k))
  (at level 100, m at next level, right associativity) : session_scope.
Notation "m ;; k" := (bind m (fun _ => k))
  (at level 100, right associativity) : session_scope.
Open Scope session_scope.

Definition abort {A} : M A := fun s => Aborted s.

Definition get : M PrintWebViewHelper := fun s => Returned (self s) s.

Definition modify (f : PrintWebViewHelper -> PrintWebViewHelper) : M unit :=
  fun s => Returned tt {| self := f (self s); history := history s |}.

Definition past : M History := fun s => Returned (history s) s.

Definition emit (e : Event) : M unit :=
  fun s => Returned tt {| self := self s; history := history s ++ [e] |}.

(** Dereferencing a pointer that may be null. *)
Definition deref {A} (p : option A) : M A :=
  match p with Some a => ret a | None => abort end.

(** A function with a [CHECK] inside a session. *)
Definition lift_checked {A} (c : option (checked A)) : M A :=
  match c with Some (Done a) => ret a | _ => abort end.

Section Session.

Variable platform : Platform.
Variable env : Environment.

(** [PrintPagesNative] of the builds other than [OS_MACOSX], which is
    defined in the platform files. *)
Variable PrintPagesNative_other : option WebLocalFrame -> Z -> M bool.

(** *** FrameReference *)

Definition FrameReference_Reset (frame : option WebLocalFrame)
    : M FrameReference :=
  match frame with
  | Some f =>
      h <- past ;;
      ret {| view_ := Some (frame_view env h f); frame_ := Some f |}
  | None => ret {| view_ := None; frame_ := None |}
  end.

Definition FrameReference_GetFrame (r : FrameReference)
    : M (option WebLocalFrame) :=
  match view_ r, frame_ r with
  | Some v, Some f =>
      h <- past ;;
      ret (if view_has_frame env h v f then Some f else None)
  | _, _ => ret None
  end.

(** *** Helpers of the anonymous namespace that consult a frame *)

Definition ComputeWebKitPrintParamsInDesiredDpi
    (print_params : PrintMsg_Print_Params)
    (webkit_print_params : WebPrintParams) : WebPrintParams :=
  let dpi := GetDPI platform print_params in
  let to_desired v := ConvertUnit v dpi (desired_dpi print_params) in
  {| printerDPI := dpi;
     printScalingOption := print_scaling_option print_params;
     printContentArea :=
       {| wr_x := wr_x (printContentArea webkit_print_params);
          wr_y := wr_y (printContentArea webkit_print_params);
          wr_width := to_desired (gfx.width (content_size print_params));
          wr_height := to_desired (gfx.height (content_size print_params)) |};
     printableArea :=
       {| wr_x := to_desired (gfx.rect_x (printable_area print_params));
          wr_y := to_desired (gfx.rect_y (printable_area print_params));
          wr_width :=
            to_desired (gfx.rect_width (printable_area print_params));
          wr_height :=
            to_desired (gfx.rect_height (printable_area print_params)) |};
     paperSize :=
       {| ws_width := to_desired (gfx.width (page_size print_params));
          ws_height := to_desired (gfx.height (page_size print_params)) |} |}.

Definition PrintingNodeOrPdfFrame (frame : WebLocalFrame) (node : WebNode)
    : M bool :=
  if negb (isNull node) then ret true
  else h <- past ;; ret (plugin_supportsPaginatedPrint env h frame).

Definition GetMarginsForPdf (frame : WebLocalFrame) (node : WebNode)
    : M MarginType :=
  h <- past ;;
  if frame_isPrintScalingDisabledForPlugin env h frame node
  then ret NO_MARGINS
  else ret PRINTABLE_AREA_MARGINS.

(** *** PrepareFrameAndViewForPrint *)

Definition set_prep_frame_ (p : PrepareFrameAndViewForPrint)
    (v : FrameReference) :=
  {| prep_frame_ := v; node_to_print_ := node_to_print_ p;
     owns_web_view_ := owns_web_view_ p;
     web_print_params_ := web_print_params_ p;
     prev_view_size_ := prev_view_size_ p;
     prev_scroll_offset_ := prev_scroll_offset_ p;
     expected_pages_count_ := expected_pages_count_ p;
     on_ready_ := on_ready_ p;
     should_print_backgrounds_ := should_print_backgrounds_ p;
     should_print_selection_only_ := should_print_selection_only_ p;
     is_printing_started_ := is_printing_started_ p |}.

Definition set_node_to_print_ (p : PrepareFrameAndViewForPrint)
    (v : WebNode) :=
  {| prep_frame_ := prep_frame_ p; node_to_print_ := v;
     owns_web_view_ := owns_web_view_ p;
     web_print_params_ := web_print_params_ p;
     prev_view_size_ := prev_view_size_ p;
     prev_scroll_offset_ := prev_scroll_offset_ p;
     expected_pages_count_ := expected_pages_count_ p;
     on_ready_ := on_ready_ p;
     should_print_backgrounds_ := should_print_backgrounds_ p;
     should_print_selection_only_ := should_print_selection_only_ p;
     is_printing_started_ := is_printing_started_ p |}.

Definition set_owns_web_view_ (p : PrepareFrameAndViewForPrint) (v : bool) :=
  {| prep_frame_ := prep_frame_ p; node_to_print_ := node_to_print_ p;
     owns_web_view_ := v;
     web_print_params_ := web_print_params_ p;
     prev_view_size_ := prev_view_size_ p;
     prev_scroll_offset_ := prev_scroll_offset_ p;
     expected_pages_count_ := expected_pages_count_ p;
     on_ready_ := on_ready_ p;
     should_print_backgrounds_ := should_print_backgrounds_ p;
     should_print_selection_only_ := should_print_selection_only_ p;
     is_printing_started_ := is_printing_started_ p |}.

Definition set_prev (p : PrepareFrameAndViewForPrint)
    (size offset : gfx.Size) :=
  {| prep_frame_ := prep_frame_ p; node_to_print_ := node_to_print_ p;
     owns_web_view_ := owns_web_view_ p;
     web_print_params_ := web_print_params_ p;
     prev_view_size_ := size;
     prev_scroll_offset_ := offset;
     expected_pages_count_ := expected_pages_count_ p;
     on_ready_ := on_ready_ p;
     should_print_backgrounds_ := should_print_backgrounds_ p;
     should_print_selection_only_ := should_print_selection_only_ p;
     is_printing_started_ := is_printing_started_ p |}.

Definition set_started (p : PrepareFrameAndViewForPrint)
    (count : Z) (started : bool) :=
  {| prep_frame_ := prep_frame_ p; node_to_print_ := node_to_print_ p;
     owns_web_view_ := owns_web_view_ p;
     web_print_params_ := web_print_params_ p;
     prev_view_size_ := prev_view_size_ p;
     prev_scroll_offset_ := prev_scroll_offset_ p;
     expected_pages_count_ := count;
     on_ready_ := on_ready_ p;
     should_print_backgrounds_ := should_print_backgrounds_ p;
     should_print_selection_only_ := should_print_selection_only_ p;
     is_printing_started_ := started |}.

Definition set_on_ready_ (p : PrepareFrameAndViewForPrint)
    (v : option Closure) :=
  {| prep_frame_ := prep_frame_ p; node_to_print_ := node_to_print_ p;
     owns_web_view_ := owns_web_view_ p;
     web_print_params_ := web_print_params_ p;
     prev_view_size_ := prev_view_size_ p;
     prev_scroll_offset_ := prev_scroll_offset_ p;
     expected_pages_count_ := expected_pages_count_ p;
     on_ready_ := v;
     should_print_backgrounds_ := should_print_backgrounds_ p;
     should_print_selection_only_ := should_print_selection_only_ p;
     is_printing_started_ := is_printing_started_ p |}.

(** The constructor. *)
Definition PrepareFrameAndViewForPrint_new (params : PrintMsg_Print_Params)
    (frame : WebLocalFrame) (node : WebNode) (ignore_css_margins : bool)
    : M PrepareFrameAndViewForPrint :=
  frame_ref <- FrameReference_Reset (Some frame) ;;
  let should_print_selection_only := selection_only params in
  let print_params := params in
  let web_print_params := WebPrintParams_default in
  skip_css <-
    (if negb should_print_selection_only then ret false
     else PrintingNodeOrPdfFrame frame node) ;;
  r <-
    (if negb skip_css then
       let fit_to_page :=
         ignore_css_margins &&
         WebPrintScalingOption_eqb (print_scaling_option print_params)
           WebPrintScalingOptionFitToPrintableArea in
       let web_print_params :=
         ComputeWebKitPrintParamsInDesiredDpi params web_print_params in
       emit (printBegin frame web_print_params node) ;;
       h <- past ;;
       r <- lift_checked
              (CalculatePrintParamsForCss platform
                 (Some {| pageSizeAndMarginsInPixels :=
                            frame_pageSizeAndMarginsInPixels env h frame |})
                 0 print_params ignore_css_margins fit_to_page) ;;
       emit (printEnd frame) ;;
       ret (fst r, web_print_params)
     else ret (print_params, web_print_params)) ;;
  let '(print_params, web_print_params) := r in
  ret {| prep_frame_ := frame_ref;
         node_to_print_ := node;
         owns_web_view_ := false;
         web_print_params_ :=
           ComputeWebKitPrintParamsInDesiredDpi print_params web_print_params;
         prev_view_size_ := gfx.mkSize 0 0;
         prev_scroll_offset_ := gfx.mkSize 0 0;
         expected_pages_count_ := 0;
         on_ready_ := None;
         should_print_backgrounds_ := should_print_backgrounds params;
         should_print_selection_only_ := should_print_selection_only;
         is_printing_started_ := false |}.

Definition Prepare_frame (p : PrepareFrameAndViewForPrint)
    : M (option WebLocalFrame) :=
  FrameReference_GetFrame (prep_frame_ p).

Definition GetExpectedPageCount (p : PrepareFrameAndViewForPrint) : Z :=
  expected_pages_count_ p.

Definition ResizeForPrinting (p : PrepareFrameAndViewForPrint)
    : M PrepareFrameAndViewForPrint :=
  let print_layout_size :=
    gfx.mkSize (wr_width (printContentArea (web_print_params_ p)))
               (wr_height (printContentArea (web_print_params_ p))) in
  let print_layout_size :=
    gfx.mkSize (gfx.width print_layout_size)
      (Double.to_int
         (PrimFloat.mul (Double.of_int (gfx.height print_layout_size))
                        1.25%float)) in
  f <- Prepare_frame p ;;
  match f with
  | None => ret p
  | Some _ =>
      web_view <- deref (view_ (prep_frame_ p)) ;;
      h <- past ;;
      (* Backup size and offset. *)
      let offset :=
        if view_has_mainFrame env h web_view
        then view_scrollOffset env h web_view
        else prev_scroll_offset_ p in
      let p := set_prev p (view_size env h web_view) offset in
      emit (resize web_view print_layout_size) ;;
      ret p
  end.

Definition RestoreSize (p : PrepareFrameAndViewForPrint) : M unit :=
  f <- Prepare_frame p ;;
  match f with
  | None => ret tt
  | Some frame =>
      h <- past ;;
      let web_view := frame_view env h frame in
      emit (resize web_view (prev_view_size_ p)) ;;
      h <- past ;;
      if view_has_mainFrame env h web_view
      then emit (setScrollOffset web_view (prev_scroll_offset_ p))
      else ret tt
  end.

Definition StartPrinting (p : PrepareFrameAndViewForPrint)
    : M PrepareFrameAndViewForPrint :=
  p <- ResizeForPrinting p ;;
  web_view <- deref (view_ (prep_frame_ p)) ;;
  emit (setShouldPrintBackgrounds web_view (should_print_backgrounds_ p)) ;;
  f <- Prepare_frame p ;;
  frame <- deref f ;;
  h <- past ;;
  let count :=
    frame_printBegin env h frame (web_print_params_ p) (node_to_print_ p) in
  emit (printBegin frame (web_print_params_ p) (node_to_print_ p)) ;;
  ret (set_started p count true).

Definition FinishPrinting (p : PrepareFrameAndViewForPrint)
    : M PrepareFrameAndViewForPrint :=
  f <- FrameReference_GetFrame (prep_frame_ p) ;;
  p <-
    match f with
    | None => ret p
    | Some frame =>
        h <- past ;;
        let web_view := frame_view env h frame in
        p <-
          (if is_printing_started_ p then
             let p := set_started p (expected_pages_count_ p) false in
             emit (printEnd frame) ;;
             (if negb (owns_web_view_ p) then
                emit (setShouldPrintBackgrounds web_view false) ;;
                RestoreSize p
              else ret tt) ;;
             ret p
           else ret p) ;;
        if owns_web_view_ p then
          let p := set_owns_web_view_ p false in
          emit (WebView_close web_view) ;;
          ret p
        else ret p
    end ;;
  frame_ref <- FrameReference_Reset None ;;
  ret (set_on_ready_ (set_prep_frame_ p frame_ref) None).

(** The destructor. *)
Definition PrepareFrameAndViewForPrint_delete
    (p : PrepareFrameAndViewForPrint) : M unit :=
  FinishPrinting p ;; ret tt.

Definition CopySelection (p : PrepareFrameAndViewForPrint)
    : M PrepareFrameAndViewForPrint :=
  p <- ResizeForPrinting p ;;
  f <- Prepare_frame p ;;
  frame <- deref f ;;
  h <- past ;;
  let url_str :=
    String.append "data:text/html;charset=utf-8,"
      (EscapeQueryParamValue env (frame_selectionAsMarkup env h frame)) in
  RestoreSize p ;;
  (* Create a new WebView with the same settings as the current display
     one, except that javascript is disabled. *)
  h <- past ;;
  let web_view := new_WebView env h in
  emit (WebView_create web_view false false) ;;
  let p := set_owns_web_view_ p true in
  h <- past ;;
  let main_frame := new_WebLocalFrame env h in
  emit (setMainFrame web_view main_frame) ;;
  frame_ref <- FrameReference_Reset (Some main_frame) ;;
  let p := set_prep_frame_ p frame_ref in
  let p := set_node_to_print_ p NullNode in
  (* When loading is done this will call didStopLoading() and that will do
     the actual printing. *)
  f <- Prepare_frame p ;;
  frame <- deref f ;;
  emit (loadRequest frame url_str) ;;
  ret p.

(** *** PrintWebViewHelper *)

Definition SetPrintPagesParams (settings : PrintMsg_PrintPages_Params)
    : M unit :=
  modify (fun h => set_print_pages_params_ h (Some settings)).

(** [prep_frame_view_.reset()]: the object, if any, is destroyed. *)
Definition reset_prep_frame_view : M unit :=
  h <- get ;;
  modify (fun h => set_prep_frame_view_ h None) ;;
  match prep_frame_view_ h with
  | Some p => PrepareFrameAndViewForPrint_delete p
  | None => ret tt
  end.

(** The [DCHECK] of the case [FAIL_PRINT_INIT] is compiled out of a release
    build and is not modelled. *)
Definition DidFinishPrinting (result : PrintingResult) : M unit :=
  emit (DidFinishPrinting_entered result) ;;
  match result with
  | OK => ret tt
  | FAIL_PRINT_INIT => ret tt
  | FAIL_PRINT =>
      h <- get ;;
      match notify_browser_of_print_failure_ h, print_pages_params_ h with
      | true, Some pp =>
          let cookie := document_cookie (params pp) in
          emit (Send (PrintHostMsg_PrintingFailed cookie))
      | _, _ => ret tt
      end
  end ;;
  reset_prep_frame_view ;;
  modify (fun h => set_print_pages_params_ h None) ;;
  modify (fun h => set_notify_browser_of_print_failure_ h true).

Definition OnPrintingDone (success : bool) : M unit :=
  modify (fun h => set_notify_browser_of_print_failure_ h false) ;;
  DidFinishPrinting (if success then OK else FAIL_PRINT).

(** The loop over all pages: [for (int i = 0; i < page_count; ++i)], with
    [n] the number of iterations that remain. *)
Fixpoint print_all_pages (n : nat) (i : Z)
    (print_params : PrintMsg_Print_Params) (frame : option WebLocalFrame)
    : M unit :=
  match n with
  | O => ret tt
  | S n' =>
      emit (PrintPageInternal
              {| page_params := print_params; page_number := i |} frame) ;;
      print_all_pages n' (i + 1) print_params frame
  end.

(** The loop over the requested pages, from [params.pages[i]] on. *)
Fixpoint print_requested_pages (pages : list Z) (page_count : Z)
    (print_params : PrintMsg_Print_Params) (frame : option WebLocalFrame)
    : M unit :=
  match pages with
  | [] => ret tt
  | page :: rest =>
      if page >=? page_count then ret tt (* break *)
      else
        emit (PrintPageInternal
                {| page_params := print_params; page_number := page |}
                frame) ;;
        print_requested_pages rest page_count print_params frame
  end.

(** [PrintPagesNative] as the file defines it, under [OS_MACOSX]. *)
Definition PrintPagesNative_mac (frame : option WebLocalFrame)
    (page_count : Z) : M bool :=
  h <- get ;;
  pp <- deref (print_pages_params_ h) ;;
  let print_params := params pp in
  (match pages pp with
   | [] => print_all_pages (Z.to_nat page_count) 0 print_params frame
   | _ => print_requested_pages (pages pp) page_count print_params frame
   end) ;;
  ret true.

Definition PrintPagesNative (frame : option WebLocalFrame) (page_count : Z)
    : M bool :=
  if OS_MACOSX platform
  then PrintPagesNative_mac frame page_count
  else PrintPagesNative_other frame page_count.

Definition PrintPages : M unit :=
  h <- get ;;
  match prep_frame_view_ h with
  | None => ret tt (* Printing is already canceled or failed. *)
  | Some p =>
      p <- StartPrinting p ;;
      modify (fun h => set_prep_frame_view_ h (Some p)) ;;
      let page_count := GetExpectedPageCount p in
      if negb (int_to_bool page_count) then DidFinishPrinting FAIL_PRINT
      else
        h <- get ;;
        pp <- deref (print_pages_params_ h) ;;
        let print_params := params pp in
        (if negb (OS_CHROMEOS platform) && negb (OS_ANDROID platform)
         then emit (Send (PrintHostMsg_DidGetPrintedPagesCount
                            (document_cookie print_params) page_count))
         else ret tt) ;;
        frame <- Prepare_frame p ;;
        ok <- PrintPagesNative frame page_count ;;
        if negb ok then DidFinishPrinting FAIL_PRINT else ret tt
  end.

Definition FinishFramePrinting : M unit := reset_prep_frame_view.

Definition OnFramePreparedForPrintPages : M unit :=
  PrintPages ;;
  FinishFramePrinting.

Definition Closure_Run (c : Closure) : M unit :=
  match c with
  | Bind_OnFramePreparedForPrintPages => OnFramePreparedForPrintPages
  end.

(** [PrepareFrameAndViewForPrint::CallOnReady] and
    [PrepareFrameAndViewForPrint::CopySelectionIfNeeded], on the object that
    [prep_frame_view_] owns: the callback can delete that object. *)
Definition CallOnReady : M unit :=
  h <- get ;;
  p <- deref (prep_frame_view_ h) ;;
  c <- deref (on_ready_ p) ;;
  Closure_Run c.

Definition CopySelectionIfNeeded (on_ready : Closure) : M unit :=
  h <- get ;;
  p <- deref (prep_frame_view_ h) ;;
  let p := set_on_ready_ p (Some on_ready) in
  modify (fun h => set_prep_frame_view_ h (Some p)) ;;
  if should_print_selection_only_ p then
    p <- CopySelection p ;;
    modify (fun h => set_prep_frame_view_ h (Some p))
  else
    (* Call immediately, async call crashes scripting printing. *)
    CallOnReady.


Definition InitPrintSettings (fit_to_paper_size : bool) : M bool :=
  emit (Send PrintHostMsg_GetDefaultPrintSettings) ;;
  h <- past ;;
  let settings_params := reply_GetDefaultPrintSettings env h in
  (* Check if the printer returned any settings. *)
  let result := PrintMsg_Print_Params_IsValid settings_params in
  (* Reset to default values. *)
  modify (fun h => set_ignore_css_margins_ h false) ;;
  let settings_pages : list Z := [] in
  let settings_params :=
    set_print_scaling_option settings_params
      (if fit_to_paper_size
       then WebPrintScalingOptionFitToPrintableArea
       else WebPrintScalingOptionSourceSize) in
  SetPrintPagesParams
    {| params := settings_params; pages := settings_pages |} ;;
  ret result.

(** [number_of_pages] is an out-parameter; the model returns [Some n] for
    [true] with [*number_of_pages = n], and [None] for [false]. *)
Definition CalculateNumberOfPages (frame : WebLocalFrame) (node : WebNode)
    : M (option Z) :=
  printing_node_or_pdf <- PrintingNodeOrPdfFrame frame node ;;
  let fit_to_paper_size := negb printing_node_or_pdf in
  ok <- InitPrintSettings fit_to_paper_size ;;
  if negb ok then
    modify (fun h => set_notify_browser_of_print_failure_ h false) ;;
    emit (Send PrintHostMsg_ShowInvalidPrinterSettingsError) ;;
    ret None
  else
    h <- get ;;
    pp <- deref (print_pages_params_ h) ;;
    prepare <- PrepareFrameAndViewForPrint_new
                 (params pp) frame node (ignore_css_margins_ h) ;;
    prepare <- StartPrinting prepare ;;
    let number_of_pages := GetExpectedPageCount prepare in
    PrepareFrameAndViewForPrint_delete prepare ;;
    ret (Some number_of_pages).

Definition GetPrintSettingsFromUser (frame : option WebLocalFrame)
    (node : WebNode) (expected_pages_count : Z) : M bool :=
  h <- get ;;
  pp <- deref (print_pages_params_ h) ;;
  f <- deref frame ;;
  hist <- past ;;
  let has_selection := frame_hasSelection env hist f in
  printing_node_or_pdf <- PrintingNodeOrPdfFrame f node ;;
  margin_type <-
    (if printing_node_or_pdf then GetMarginsForPdf f node
     else ret DEFAULT_MARGINS) ;;
  let sp :=
    {| cookie := document_cookie (params pp);
       has_selection := has_selection;
       expected_pages_count := expected_pages_count;
       margin_type := margin_type |} in
  (* PrintHostMsg_ScriptedPrint will reset print_scaling_option, so we save
     the value before and restore it afterwards. *)
  let scaling_option := print_scaling_option (params pp) in
  modify (fun h => set_print_pages_params_ h None) ;;
  emit (Send (PrintHostMsg_ScriptedPrint sp)) ;;
  hist <- past ;;
  let print_settings := reply_ScriptedPrint env hist sp in
  let print_settings :=
    {| params :=
         set_print_scaling_option (params print_settings)
                                  scaling_option;
       pages := pages print_settings |} in
  SetPrintPagesParams print_settings ;;
  ret (Double.to_bool (dpi (params print_settings)) &&
       int_to_bool (document_cookie (params print_settings))).

Definition RenderPagesForPrint (frame : option WebLocalFrame)
    (node : WebNode) : M bool :=
  h <- get ;;
  match frame, prep_frame_view_ h with
  | Some f, None =>
      pp <- deref (print_pages_params_ h) ;;
      p <- PrepareFrameAndViewForPrint_new
             (params pp) f node (ignore_css_margins_ h) ;;
      modify (fun h => set_prep_frame_view_ h (Some p)) ;;
      CopySelectionIfNeeded Bind_OnFramePreparedForPrintPages ;;
      ret true
  | _, _ => ret false
  end.

Definition Print (frame : WebLocalFrame) (node : WebNode)
    (silent print_background : bool) : M unit :=
  h <- get ;;
  (* If still not finished with earlier print request simply ignore. *)
  match prep_frame_view_ h with
  | Some _ => ret tt
  | None =>
      frame_ref <- FrameReference_Reset (Some frame) ;;
      n <- CalculateNumberOfPages frame node ;;
      match n with
      | None =>
          (* Failed to init print page settings. *)
          DidFinishPrinting FAIL_PRINT_INIT
      | Some expected_page_count =>
          (* Some full screen plugins can say they don't want to print. *)
          if negb (int_to_bool expected_page_count)
          then DidFinishPrinting FAIL_PRINT
          else
            (* Ask the browser to show UI to retrieve the final print
               settings. *)
            proceed <-
              (if negb silent then
                 f <- FrameReference_GetFrame frame_ref ;;
                 GetPrintSettingsFromUser f node expected_page_count
               else ret true) ;;
            if negb proceed
            then DidFinishPrinting OK (* Release resources and fail silently. *)
            else
              h <- get ;;
              pp <- deref (print_pages_params_ h) ;;
              SetPrintPagesParams
                {| params :=
                     set_should_print_backgrounds (params pp)
                                                  print_background;
                   pages := pages pp |} ;;
              (* Render Pages for printing. *)
              f <- FrameReference_GetFrame frame_ref ;;
              ok <- RenderPagesForPrint f node ;;
              if negb ok then DidFinishPrinting FAIL_PRINT else ret tt
      end
  end.

End Session.

(** *** Static functions of PrintWebViewHelper *)

(** [page_size] and [content_area] are out-parameters; the model returns
    both. *)
Definition GetPageSizeAndContentAreaFromPageLayout
    (page_layout_in_points : PageSizeMargins) : gfx.Size * gfx.Rect :=
  (gfx.mkSize
     (content_width page_layout_in_points +
      layout_margin_right page_layout_in_points +
      layout_margin_left page_layout_in_points)
     (content_height page_layout_in_points +
      layout_margin_top page_layout_in_points +
      layout_margin_bottom page_layout_in_points),
   gfx.mkRect (layout_margin_left page_layout_in_points)
              (layout_margin_top page_layout_in_points)
              (content_width page_layout_in_points)
              (content_height page_layout_in_points)).

(** [page_layout_in_points] is an out-parameter, and so is [scale_factor],
    as in [CalculatePrintParamsForCss]; the model returns both. *)
Definition ComputePageLayoutInPointsForCss (platform : Platform)
    (frame : option WebFrame) (page_index : Z)
    (page_params : PrintMsg_Print_Params) (ignore_css_margins : bool)
    : option (checked (PageSizeMargins * option double)) :=
  match CalculatePrintParamsForCss platform frame page_index page_params
          ignore_css_margins
          (WebPrintScalingOption_eqb (print_scaling_option page_params)
             WebPrintScalingOptionFitToPrintableArea) with
  | Some (Done (params, scale_factor)) =>
      Some (Done (CalculatePageLayoutFromPrintParams platform params,
                  scale_factor))
  | Some CheckFailure => Some CheckFailure
  | None => None
  end.

(** ** Notions of the statements *)

(** The page size and margins in pixels that [GetCssPrintParams] works with:
    those of [page_params], as the frame, if any, overrides them. *)
Definition css_in_pixels (platform : Platform) (frame : option WebFrame)
    (page_index : Z) (page_params : PrintMsg_Print_Params)
    : PageSizeAndMarginsInPixels :=
  let dpi := GetDPI platform page_params in
  let in_pixels :=
    {| px_page_size :=
         {| ws_width :=
              ConvertUnit (gfx.width (page_size page_params)) dpi kPixelsPerInch;
            ws_height :=
              ConvertUnit (gfx.height (page_size page_params)) dpi
                          kPixelsPerInch |};
       px_margin_top := ConvertUnit (margin_top page_params) dpi kPixelsPerInch;
       px_margin_right :=
         ConvertUnit (gfx.width (page_size page_params) -
                      gfx.width (content_size page_params) -
                      margin_left page_params) dpi kPixelsPerInch;
       px_margin_bottom :=
         ConvertUnit (gfx.height (page_size page_params) -
                      gfx.height (content_size page_params) -
                      margin_top page_params) dpi kPixelsPerInch;
       px_margin_left :=
         ConvertUnit (margin_left page_params) dpi kPixelsPerInch |} in
  match frame with
  | Some f => pageSizeAndMarginsInPixels f page_index in_pixels
  | None => in_pixels
  end.

Definition new_content_width (p : PageSizeAndMarginsInPixels) : Z :=
  ws_width (px_page_size p) - px_margin_left p - px_margin_right p.

Definition new_content_height (p : PageSizeAndMarginsInPixels) : Z :=
  ws_height (px_page_size p) - px_margin_top p - px_margin_bottom p.

(** The layout that [GetCssPrintParams] rejects. *)
Definition degenerate (p : PageSizeAndMarginsInPixels) : bool :=
  (new_content_width p <? 1) || (new_content_height p <? 1).

(** The parameters that [GetCssPrintParams] returns for a layout in pixels
    that it accepts. *)
Definition css_params_of_pixels (platform : Platform)
    (page_params : PrintMsg_Print_Params) (p : PageSizeAndMarginsInPixels)
    : PrintMsg_Print_Params :=
  let d := GetDPI platform page_params in
  {| page_size :=
       if WebSize_eqb
            {| ws_width :=
                 ConvertUnit (gfx.width (page_size page_params)) d
                             kPixelsPerInch;
               ws_height :=
                 ConvertUnit (gfx.height (page_size page_params)) d
                             kPixelsPerInch |}
            (px_page_size p)
       then page_size page_params
       else gfx.mkSize
              (ConvertUnit (ws_width (px_page_size p)) kPixelsPerInch d)
              (ConvertUnit (ws_height (px_page_size p)) kPixelsPerInch d);
     content_size :=
       gfx.mkSize (ConvertUnit (new_content_width p) kPixelsPerInch d)
                  (ConvertUnit (new_content_height p) kPixelsPerInch d);
     printable_area := printable_area page_params;
     margin_top := ConvertUnit (px_margin_top p) kPixelsPerInch d;
     margin_left := ConvertUnit (px_margin_left p) kPixelsPerInch d;
     dpi := dpi page_params;
     min_shrink := min_shrink page_params;
     max_shrink := max_shrink page_params;
     desired_dpi := desired_dpi page_params;
     document_cookie := document_cookie page_params;
     selection_only := selection_only page_params;
     print_scaling_option := print_scaling_option page_params;
     should_print_backgrounds := should_print_backgrounds page_params |}.

(** A size with its width and height exchanged. *)
Definition flipped (s : gfx.Size) : gfx.Size :=
  gfx.mkSize (gfx.height s) (gfx.width s).

(** Parameters with the width and height of the page, of the content and of
    the printable area exchanged. *)
Definition swapped (p : PrintMsg_Print_Params) : PrintMsg_Print_Params :=
  {| page_size := flipped (page_size p);
     content_size := flipped (content_size p);
     printable_area :=
       {| gfx.rect_x := gfx.rect_x (printable_area p);
          gfx.rect_y := gfx.rect_y (printable_area p);
          gfx.rect_size := flipped (gfx.rect_size (printable_area p)) |};
     margin_top := margin_top p;
     margin_left := margin_left p;
     dpi := dpi p;
     min_shrink := min_shrink p;
     max_shrink := max_shrink p;
     desired_dpi := desired_dpi p;
     document_cookie := document_cookie p;
     selection_only := selection_only p;
     print_scaling_option := print_scaling_option p;
     should_print_backgrounds := should_print_backgrounds p |}.

Definition landscape (p : PrintMsg_Print_Params) : bool :=
  gfx.width (page_size p) >? gfx.height (page_size p).

(** The two ratios of section 4.1: the page of [pageParams] over the page of
    the target, in width and in height, and the smaller of the two. *)
Definition ratio_width (pageParams target : PrintMsg_Print_Params) : double :=
  PrimFloat.div (Double.of_int (gfx.width (page_size pageParams)))
                (Double.of_int (gfx.width (page_size target))).
Definition ratio_height (pageParams target : PrintMsg_Print_Params) : double :=
  PrimFloat.div (Double.of_int (gfx.height (page_size pageParams)))
                (Double.of_int (gfx.height (page_size target))).
Definition min_ratio (pageParams target : PrintMsg_Print_Params) : double :=
  if PrimFloat.ltb (ratio_width pageParams target) (ratio_height pageParams target)
  then ratio_width pageParams target else ratio_height pageParams target.

(** A margin recentred: half of what the page of [pageParams] exceeds the
    scaled page of the target by, plus the scaled margin. *)
Definition recentred (page css margin : Z) (factor : double) : Z :=
  Double.to_int
    (PrimFloat.add
       (PrimFloat.div
          (PrimFloat.sub (Double.of_int page)
                         (PrimFloat.mul (Double.of_int css) factor))
          Double.two)
       (PrimFloat.mul (Double.of_int margin) factor)).

(** The target with its content set to [content], its margins recentred for
    [factor], and the page of [pageParams]. *)
Definition fitted (factor : double) (content : gfx.Size)
    (pageParams target : PrintMsg_Print_Params) : PrintMsg_Print_Params :=
  {| page_size := page_size pageParams;
     content_size := content;
     printable_area := printable_area target;
     margin_top :=
       recentred (gfx.height (page_size pageParams))
                 (gfx.height (page_size target)) (margin_top target) factor;
     margin_left :=
       recentred (gfx.width (page_size pageParams))
                 (gfx.width (page_size target)) (margin_left target) factor;
     dpi := dpi target; min_shrink := min_shrink target;
     max_shrink := max_shrink target; desired_dpi := desired_dpi target;
     document_cookie := document_cookie target;
     selection_only := selection_only target;
     print_scaling_option := print_scaling_option target;
     should_print_backgrounds := should_print_backgrounds target |}.

Definition scaled (factor : double) (s : gfx.Size) : gfx.Size :=
  gfx.mkSize
    (Double.to_int (PrimFloat.mul (Double.of_int (gfx.width s)) factor))
    (Double.to_int (PrimFloat.mul (Double.of_int (gfx.height s)) factor)).

Definition unscaled (s : gfx.Size) : gfx.Size :=
  gfx.mkSize (Double.to_int (Double.of_int (gfx.width s)))
             (Double.to_int (Double.of_int (gfx.height s))).

(** [FitToPage] in the words of section 4.1. *)
Definition FitToPage_spec (pageParams target : PrintMsg_Print_Params)
    : double * PrintMsg_Print_Params :=
  if gfx.Size_eqb (page_size pageParams) (page_size target)
  then (Double.one, target)
  else
    let factor := min_ratio pageParams target in
    (factor, fitted factor (scaled factor (content_size target)) pageParams target).

(** The longest prefix of [l] on which [f] holds. *)
Fixpoint take_while {A} (f : A -> bool) (l : list A) : list A :=
  match l with
  | [] => []
  | x :: l' => if f x then x :: take_while f l' else []
  end.

(** The pages handed to [PrintPageInternal], in the order of the calls. *)
Fixpoint rendered_pages (h : History) : list Z :=
  match h with
  | [] => []
  | PrintPageInternal p _ :: h' => page_number p :: rendered_pages h'
  | _ :: h' => rendered_pages h'
  end.

Definition render_events (print_params : PrintMsg_Print_Params)
    (frame : option WebLocalFrame) (l : list Z) : History :=
  map (fun n => PrintPageInternal
                  {| page_params := print_params; page_number := n |} frame) l.

(** The events of preparing a surface and of asking for settings: every
    event but a page handed to the renderer, a page-count notice, a failure
    notice and an entry into [DidFinishPrinting]. *)
Definition is_rendering (e : Event) : bool :=
  match e with PrintPageInternal _ _ => true | _ => false end.
Definition is_page_count_notice (e : Event) : bool :=
  match e with
  | Send (PrintHostMsg_DidGetPrintedPagesCount _ _) => true
  | _ => false
  end.
Definition is_failure_notice (e : Event) : bool :=
  match e with Send (PrintHostMsg_PrintingFailed _) => true | _ => false end.
Definition is_finish (e : Event) : bool :=
  match e with DidFinishPrinting_entered _ => true | _ => false end.
Definition preparatory (e : Event) : bool :=
  negb (is_rendering e) && negb (is_page_count_notice e) &&
  negb (is_failure_notice e) && negb (is_finish e).

Definition is_FAIL_PRINT (r : PrintingResult) : bool :=
  match r with FAIL_PRINT => true | _ => false end.

(** The controller with no session: what [DidFinishPrinting] leaves. *)
Definition idle (h : PrintWebViewHelper) : PrintWebViewHelper :=
  set_notify_browser_of_print_failure_
    (set_print_pages_params_ (set_prep_frame_view_ h None) None) true.

(** The request for the user's settings that [GetPrintSettingsFromUser]
    sends for [frame] and [node] when the history is [h] and the settings of
    the session are [pp]. *)
Definition ScriptedPrint_request (env : Environment) (frame : WebLocalFrame)
    (node : WebNode) (expected_pages_count : Z) (h : History)
    (pp : PrintMsg_PrintPages_Params) : PrintHostMsg_ScriptedPrint_Params :=
  {| cookie := document_cookie (params pp);
     has_selection := frame_hasSelection env h frame;
     expected_pages_count := expected_pages_count;
     margin_type :=
       if negb (isNull node) || plugin_supportsPaginatedPrint env h frame
       then if frame_isPrintScalingDisabledForPlugin env h frame node
            then NO_MARGINS else PRINTABLE_AREA_MARGINS
       else DEFAULT_MARGINS |}.

(** The host's answer to that request. *)
Definition ScriptedPrint_reply (env : Environment) (frame : WebLocalFrame)
    (node : WebNode) (expected_pages_count : Z) (h : History)
    (pp : PrintMsg_PrintPages_Params) : PrintMsg_PrintPages_Params :=
  let sp := ScriptedPrint_request env frame node expected_pages_count h pp in
  reply_ScriptedPrint env (h ++ [Send (PrintHostMsg_ScriptedPrint sp)]) sp.

(** How a session that meets a page count of zero ends: in
    [DidFinishPrinting(FAIL_PRINT)], with the controller idle, no page handed
    to the renderer and no page-count notice. *)
Definition ends_in_FAIL_PRINT (s : State) (o : Outcome unit) : Prop :=
  exists s' evs,
    o = Returned tt s' /\
    prep_frame_view_ (self s') = None /\
    print_pages_params_ (self s') = None /\
    history s' = history s ++ evs /\
    In (DidFinishPrinting_entered FAIL_PRINT) evs /\
    (forall r, In (DidFinishPrinting_entered r) evs -> r = FAIL_PRINT) /\
    forallb (fun e => negb (is_rendering e) && negb (is_page_count_notice e))
            evs = true.

(** [s'] continues [s] with events that all satisfy [P]. *)
Definition continues (P : Event -> bool) (s s' : State) : Prop :=
  exists evs, history s' = history s ++ evs /\ forallb P evs = true.

(** What a method of the surface-preparation object does to the session:
    the controller is as it was, and the events are preparatory. *)
Definition prepares (s s' : State) : Prop :=
  self s' = self s /\ continues preparatory s s'.

(** However [m] ends, by returning or by aborting, the states are related. *)
Definition always {A} (R : State -> State -> Prop) (m : M A) : Prop :=
  forall s, match m s with
            | Returned _ s' => R s s'
            | Aborted s' => R s s'
            end.

(** [m] returns, and the states are related. *)
Definition returns {A} (R : State -> State -> Prop) (m : M A) : Prop :=
  forall s, exists a s', m s = Returned a s' /\ R s s'.

(** The right and bottom margins of parameters, which the file derives from
    the page, the content and the left and top margins. *)
Definition margin_right (p : PrintMsg_Print_Params) : Z :=
  gfx.width (page_size p) - gfx.width (content_size p) - margin_left p.

Definition margin_bottom (p : PrintMsg_Print_Params) : Z :=
  gfx.height (page_size p) - gfx.height (content_size p) - margin_top p.

(** A frame, or none, whose document has no style for the page: the page
    size and margins come back as they are passed. *)
Definition no_page_style (frame : option WebFrame) (page_index : Z) : Prop :=
  match frame with
  | Some f => forall p, pageSizeAndMarginsInPixels f page_index p = p
  | None => True
  end.

(** The members of the parameters that are no geometry. *)
Definition same_settings (p q : PrintMsg_Print_Params) : Prop :=
  dpi p = dpi q /\ min_shrink p = min_shrink q /\
  max_shrink p = max_shrink q /\ desired_dpi p = desired_dpi q /\
  document_cookie p = document_cookie q /\
  selection_only p = selection_only q /\
  print_scaling_option p = print_scaling_option q /\
  should_print_backgrounds p = should_print_backgrounds q.

(** The failure notice that [DidFinishPrinting] sends for [result] when the
    controller is [h]: one, with the document of the session, for
    [FAIL_PRINT] while the notice is armed and the session has settings. *)
Definition failure_notice (result : PrintingResult) (h : PrintWebViewHelper)
    : History :=
  match result, notify_browser_of_print_failure_ h, print_pages_params_ h with
  | FAIL_PRINT, true, Some pp =>
      [Send (PrintHostMsg_PrintingFailed (document_cookie (params pp)))]
  | _, _, _ => []
  end.

(** The page numbers from [i] on, [n] of them. *)
Fixpoint pages_from (n : nat) (i : Z) : list Z :=
  match n with
  | O => []
  | S n' => i :: pages_from n' (i + 1)
  end.

(** The pages that [PrintPagesNative] renders for a page count and the
    settings of a session: all of them for an empty list of pages, else the
    requested ones up to the first that is not below the page count. *)
Definition pages_to_render (page_count : Z) (pp : PrintMsg_PrintPages_Params)
    : list Z :=
  match pages pp with
  | [] => pages_from (Z.to_nat page_count) 0
  | requested => take_while (fun n => n <? page_count) requested
  end.

(** The members of the controller that the file only initialises. *)
Definition same_flags (h h' : PrintWebViewHelper) : Prop :=
  reset_prep_frame_view_ h' = reset_prep_frame_view_ h /\
  is_print_ready_metafile_sent_ h' = is_print_ready_metafile_sent_ h /\
  is_scripted_printing_blocked_ h' = is_scripted_printing_blocked_ h /\
  print_for_preview_ h' = print_for_preview_ h /\
  print_node_in_progress_ h' = print_node_in_progress_ h /\
  is_loading_ h' = is_loading_ h /\
  is_scripted_preview_delayed_ h' = is_scripted_preview_delayed_ h.

Definition keeps_flags (s s' : State) : Prop := same_flags (self s) (self s').

(** A surface-preparation object that holds the copy of a selection: it
    belongs to a selection-only session and owns its view. *)
Definition holds_selection_copy (p : PrepareFrameAndViewForPrint) : Prop :=
  should_print_selection_only_ p = true /\ owns_web_view_ p = true.

(** The controller has no surface-preparation object, or one that holds
    the copy of a selection. *)
Definition no_surface_but_a_copy (h : PrintWebViewHelper) : Prop :=
  match prep_frame_view_ h with
  | None => True
  | Some p => holds_selection_copy p
  end.

(** ** Inputs of the examples *)

Definition mac_platform : Platform :=
  {| OS_MACOSX := true; OS_CHROMEOS := false; OS_ANDROID := false |}.

Definition other_platform : Platform :=
  {| OS_MACOSX := false; OS_CHROMEOS := false; OS_ANDROID := false |}.

(** A frame whose document declares no page size and no margins. *)
Definition plain_frame : WebFrame :=
  {| pageSizeAndMarginsInPixels := fun _ in_pixels => in_pixels |}.

(** Letter paper at 72 dpi, with margins of a quarter of an inch. *)
Definition letter_portrait : PrintMsg_Print_Params :=
  {| page_size := gfx.mkSize 612 792;
     content_size := gfx.mkSize 576 756;
     printable_area := gfx.mkRect 0 0 612 792;
     margin_top := 18;
     margin_left := 18;
     dpi := 72%float;
     min_shrink := 1.25%float;
     max_shrink := 2%float;
     desired_dpi := 72;
     document_cookie := 1;
     selection_only := false;
     print_scaling_option := WebPrintScalingOptionSourceSize;
     should_print_backgrounds := false |}.

Definition letter_landscape : PrintMsg_Print_Params :=
  set_page_size letter_portrait (gfx.mkSize 792 612).

(** A page of half the size of Letter, and one of twice the size. *)
Definition half_letter : PrintMsg_Print_Params :=
  set_content_size (set_page_size letter_portrait (gfx.mkSize 306 396))
                   (gfx.mkSize 270 360).

Definition double_letter : PrintMsg_Print_Params :=
  set_margin_left
    (set_margin_top
       (set_content_size (set_page_size letter_portrait (gfx.mkSize 1224 1584))
                         (gfx.mkSize 1152 1512))
       36)
    36.

(** A4 paper at 300 dpi. *)
Definition a4_300dpi : PrintMsg_Print_Params :=
  {| page_size := gfx.mkSize 2480 3508;
     content_size := gfx.mkSize 2300 3300;
     printable_area := gfx.mkRect 0 0 2480 3508;
     margin_top := 90;
     margin_left := 104;
     dpi := 300%float;
     min_shrink := 1.25%float;
     max_shrink := 2%float;
     desired_dpi := 72;
     document_cookie := 1;
     selection_only := false;
     print_scaling_option := WebPrintScalingOptionSourceSize;
     should_print_backgrounds := false |}.

(** Letter paper at 600 dpi with a content area of 3 by 3 device units, less
    than half a pixel each way. *)
Definition tiny_content_600dpi : PrintMsg_Print_Params :=
  {| page_size := gfx.mkSize 5100 6600;
     content_size := gfx.mkSize 3 3;
     printable_area := gfx.mkRect 0 0 5100 6600;
     margin_top := 0;
     margin_left := 0;
     dpi := 600%float;
     min_shrink := 1.25%float;
     max_shrink := 2%float;
     desired_dpi := 72;
     document_cookie := 1;
     selection_only := false;
     print_scaling_option := WebPrintScalingOptionSourceSize;
     should_print_backgrounds := false |}.

(** What the host answers when the user cancels: default-constructed
    settings, with no resolution and no document. *)
Definition cancelled_settings : PrintMsg_PrintPages_Params :=
  {| params :=
       {| page_size := gfx.mkSize 0 0;
          content_size := gfx.mkSize 0 0;
          printable_area := gfx.mkRect 0 0 0 0;
          margin_top := 0;
          margin_left := 0;
          dpi := 0%float;
          min_shrink := 0%float;
          max_shrink := 0%float;
          desired_dpi := 0;
          document_cookie := 0;
          selection_only := false;
          print_scaling_option := WebPrintScalingOptionSourceSize;
          should_print_backgrounds := false |};
     pages := [] |}.

(** Collaborators that answer the same at every moment: the host with
    [default_settings] and [user_settings], the engine with [page_count]
    pages for a frame that stays attached to view 0 and has no style for
    pages. *)
Definition steady_env (default_settings : PrintMsg_Print_Params)
    (user_settings : PrintMsg_PrintPages_Params) (page_count : Z)
    : Environment :=
  {| reply_GetDefaultPrintSettings := fun _ => default_settings;
     reply_ScriptedPrint := fun _ _ => user_settings;
     frame_view := fun _ _ => 0%nat;
     view_has_frame := fun _ _ _ => true;
     view_has_mainFrame := fun _ _ => true;
     view_size := fun _ _ => gfx.mkSize 1024 768;
     view_scrollOffset := fun _ _ => gfx.mkSize 0 0;
     frame_pageSizeAndMarginsInPixels := fun _ _ _ in_pixels => in_pixels;
     frame_printBegin := fun _ _ _ _ => page_count;
     frame_hasSelection := fun _ _ => false;
     frame_selectionAsMarkup := fun _ _ => EmptyString;
     EscapeQueryParamValue := fun markup => markup;
     plugin_supportsPaginatedPrint := fun _ _ => false;
     frame_isPrintScalingDisabledForPlugin := fun _ _ _ => false;
     new_WebView := fun _ => 1%nat;
     new_WebLocalFrame := fun _ => 1%nat |}.

Definition no_other_PrintPagesNative : option WebLocalFrame -> Z -> M bool :=
  fun _ _ => ret true.

(** The controller before any request. *)
Definition fresh : State :=
  {| self := PrintWebViewHelper_new; history := [] |}.

(** A surface-preparation object for frame 0 of view 0. *)
Definition a_prepare : PrepareFrameAndViewForPrint :=
  {| prep_frame_ := {| view_ := Some 0%nat; frame_ := Some 0%nat |};
     node_to_print_ := NullNode;
     owns_web_view_ := false;
     web_print_params_ := WebPrintParams_default;
     prev_view_size_ := gfx.mkSize 0 0;
     prev_scroll_offset_ := gfx.mkSize 0 0;
     expected_pages_count_ := 0;
     on_ready_ := Some Bind_OnFramePreparedForPrintPages;
     should_print_backgrounds_ := false;
     should_print_selection_only_ := false;
     is_printing_started_ := false |}.

(** A session with settings [pp] whose surface is being prepared. *)
Definition preparing (pp : PrintMsg_PrintPages_Params) : State :=
  {| self :=
       set_print_pages_params_
         (set_prep_frame_view_ PrintWebViewHelper_new (Some a_prepare))
         (Some pp);
     history := [] |}.

(** A session with settings [pp] and no surface. *)
Definition with_settings (pp : PrintMsg_PrintPages_Params) : State :=
  {| self := set_print_pages_params_ PrintWebViewHelper_new (Some pp);
     history := [] |}.

(** Collaborators like those of [steady_env], but for the frame, which
    leaves its view once ten events have happened: after the page count has
    been computed. *)
Definition detaching_env (default_settings : PrintMsg_Print_Params)
    (page_count : Z) : Environment :=
  {| reply_GetDefaultPrintSettings := fun _ => default_settings;
     reply_ScriptedPrint := fun _ _ => cancelled_settings;
     frame_view := fun _ _ => 0%nat;
     view_has_frame := fun h _ _ => Nat.ltb (List.length h) 10;
     view_has_mainFrame := fun _ _ => true;
     view_size := fun _ _ => gfx.mkSize 1024 768;
     view_scrollOffset := fun _ _ => gfx.mkSize 0 0;
     frame_pageSizeAndMarginsInPixels := fun _ _ _ in_pixels => in_pixels;
     frame_printBegin := fun _ _ _ _ => page_count;
     frame_hasSelection := fun _ _ => false;
     frame_selectionAsMarkup := fun _ _ => EmptyString;
     EscapeQueryParamValue := fun markup => markup;
     plugin_supportsPaginatedPrint := fun _ _ => false;
     frame_isPrintScalingDisabledForPlugin := fun _ _ _ => false;
     new_WebView := fun _ => 1%nat;
     new_WebLocalFrame := fun _ => 1%nat |}.

(** ** The geometry functions: facts *)

Lemma flipped_flipped s : flipped (flipped s) = s.
Proof.
  destruct s as [w h]. unfold flipped, gfx.mkSize, gfx.height, gfx.width; cbn.
  now rewrite !N2Z.id.
Qed.

Lemma flipped_square s : gfx.width s = gfx.height s -> flipped s = s.
Proof.
  destruct s as [w h]. unfold flipped, gfx.mkSize, gfx.height, gfx.width; cbn.
  intros E. apply N2Z.inj in E. subst. now rewrite !N2Z.id.
Qed.

Lemma width_flipped s : gfx.width (flipped s) = gfx.height s.
Proof. unfold flipped, gfx.width, gfx.height, gfx.mkSize; cbn. lia. Qed.

Lemma height_flipped s : gfx.height (flipped s) = gfx.width s.
Proof. unfold flipped, gfx.width, gfx.height, gfx.mkSize; cbn. lia. Qed.

Lemma swapped_swapped p : swapped (swapped p) = p.
Proof.
  destruct p as [ps cs [x y sz] mt ml d mi ma dd dc so pso spb].
  unfold swapped; cbn. now rewrite !flipped_flipped.
Qed.

Lemma EnsureOrientationMatches_swaps css p :
  EnsureOrientationMatches css p =
  if Bool.eqb (landscape p) (landscape css) then p else swapped p.
Proof.
  unfold EnsureOrientationMatches, landscape.
  destruct (Bool.eqb _ _); [reflexivity|].
  destruct p as [ps cs [x y sz] mt ml d mi ma dd dc so pso spb]. reflexivity.
Qed.

Lemma landscape_swapped p :
  gfx.width (page_size p) <> gfx.height (page_size p) ->
  landscape (swapped p) = negb (landscape p).
Proof.
  unfold landscape. cbn [swapped page_size].
  rewrite width_flipped, height_flipped. lia.
Qed.

Lemma double_neq (a b : double) : Prim2SF a <> Prim2SF b -> a <> b.
Proof. intros H E. apply H. now rewrite E. Qed.

(** *** Orientation *)

(** C5, as the claim states it, fails: a portrait page under a landscape
    style is swapped by the first call and already has the orientation of the
    style at the second, which leaves it swapped. *)
Lemma EnsureOrientationMatches_not_involutive :
  EnsureOrientationMatches letter_landscape
    (EnsureOrientationMatches letter_landscape letter_portrait)
  <> letter_portrait.
Proof. vm_compute. discriminate. Qed.

(** C5, amended: a second call of [EnsureOrientationMatches] with the same
    style parameters changes nothing more, so that two calls are one call;
    they give back the original parameters only where the first call changed
    nothing or the page is square. *)
Theorem EnsureOrientationMatches_twice css p :
  EnsureOrientationMatches css (EnsureOrientationMatches css p) =
  if gfx.width (page_size p) =? gfx.height (page_size p)
  then p else EnsureOrientationMatches css p.
Proof.
  rewrite !EnsureOrientationMatches_swaps.
  destruct (Bool.eqb (landscape p) (landscape css)) eqn:E.
  - (* the orientations agree: nothing is swapped, either time *)
    rewrite E. now destruct (_ =? _).
  - (* the orientations differ: the first call swaps *)
    destruct (Z.eqb_spec (gfx.width (page_size p)) (gfx.height (page_size p)))
      as [Q|Q].
    + (* a square page stays square, and the second call swaps back *)
      replace (landscape (swapped p)) with (landscape p).
      * rewrite E. apply swapped_swapped.
      * unfold landscape. cbn [swapped page_size].
        now rewrite (flipped_square _ Q).
    + (* otherwise the swapped page has the orientation of the style *)
      rewrite (landscape_swapped p Q).
      destruct (landscape p), (landscape css); try discriminate; reflexivity.
Qed.

(** C9: [EnsureOrientationMatches] changes at most the page size, the content
    size and the size of the printable area; the margins, the origin of the
    printable area and every other member are as they were. *)
Theorem EnsureOrientationMatches_frame css p :
  let r := EnsureOrientationMatches css p in
  margin_top r = margin_top p /\ margin_left r = margin_left p /\
  gfx.rect_x (printable_area r) = gfx.rect_x (printable_area p) /\
  gfx.rect_y (printable_area r) = gfx.rect_y (printable_area p) /\
  dpi r = dpi p /\ min_shrink r = min_shrink p /\ max_shrink r = max_shrink p /\
  desired_dpi r = desired_dpi p /\ document_cookie r = document_cookie p /\
  selection_only r = selection_only p /\
  print_scaling_option r = print_scaling_option p /\
  should_print_backgrounds r = should_print_backgrounds p.
Proof.
  cbv zeta. rewrite EnsureOrientationMatches_swaps.
  destruct (Bool.eqb _ _); repeat split; reflexivity.
Qed.

(** *** Fit to page *)

(** The scenario of section 8: a style page of twice Letter on a Letter page
    is scaled by one half, and the margins are recentred. *)
Example FitPrintParamsToPage_double_letter :
  FitPrintParamsToPage letter_portrait double_letter
  = (0.5%float, letter_portrait).
Proof. vm_compute. reflexivity. Qed.

(** C2, as the claim states it, fails: for a style page of half the size of
    Letter the two ratios are 2, and the function returns 1 and leaves the
    content as it is. *)
Lemma FitPrintParamsToPage_no_enlargement :
  gfx.Size_eqb (page_size letter_portrait) (page_size half_letter) = false /\
  min_ratio letter_portrait half_letter = 2%float /\
  fst (FitPrintParamsToPage letter_portrait half_letter)
    <> min_ratio letter_portrait half_letter /\
  content_size (snd (FitPrintParamsToPage letter_portrait half_letter))
    = content_size half_letter.
Proof.
  repeat split; try (vm_compute; reflexivity).
  apply double_neq. vm_compute. discriminate.
Qed.

(** C2, amended: where the page sizes differ and the page of [pageParams] is
    smaller than the page of the target in width or in height, the function is
    [FitToPage_spec]: it returns the smaller ratio, scales the content by
    it, recentres the margins and takes the page of [pageParams].  Where that
    page is at least as large both ways, the factor is 1 and the content is
    not scaled; the margins are recentred and the page is taken all the
    same. *)
Theorem FitPrintParamsToPage_shrinks_only pageParams target :
  gfx.Size_eqb (page_size pageParams) (page_size target) = false ->
  FitPrintParamsToPage pageParams target =
  if (gfx.width (page_size pageParams) <? gfx.width (page_size target)) ||
     (gfx.height (page_size pageParams) <? gfx.height (page_size target))
  then FitToPage_spec pageParams target
  else (Double.one,
        fitted Double.one (unscaled (content_size target)) pageParams target).
Proof.
  intros D. unfold FitPrintParamsToPage, FitToPage_spec. rewrite D.
  destruct (_ || _); reflexivity.
Qed.

Lemma FitPrintParamsToPage_shrinks_only_witness :
  gfx.Size_eqb (page_size letter_portrait) (page_size double_letter) = false /\
  FitPrintParamsToPage letter_portrait double_letter =
  if (gfx.width (page_size letter_portrait)
        <? gfx.width (page_size double_letter)) ||
     (gfx.height (page_size letter_portrait)
        <? gfx.height (page_size double_letter))
  then FitToPage_spec letter_portrait double_letter
  else (Double.one,
        fitted Double.one (unscaled (content_size double_letter))
               letter_portrait double_letter).
Proof.
  split; [reflexivity|].
  apply (FitPrintParamsToPage_shrinks_only letter_portrait double_letter).
  reflexivity.
Defined.

(** *** The layout of the style, and the layout in points *)

Section GeometryFacts.
Variable platform : Platform.

Lemma ConvertUnit_same v u : 0 < u -> ConvertUnit v u u = v.
Proof.
  intros Hu. unfold ConvertUnit.
  assert (Hh : 0 <= Z.quot u 2 < u).
  { rewrite Z.quot_div_nonneg by lia.
    split; [apply Z.div_pos; lia|apply Z.div_lt; lia]. }
  destruct (0 <=? v) eqn:S.
  - apply Z.leb_le in S. rewrite Z.quot_div_nonneg by nia.
    symmetry. apply Z.div_unique with (r := Z.quot u 2); nia.
  - apply Z.leb_gt in S.
    replace (v * u - Z.quot u 2) with (- ((- v) * u + Z.quot u 2)) by ring.
    rewrite Z.quot_opp_l by lia. rewrite Z.quot_div_nonneg by nia.
    assert ((- v * u + Z.quot u 2) / u = - v); [|lia].
    symmetry. apply Z.div_unique with (r := Z.quot u 2); nia.
Qed.

(** What is left of a page, in pixels, between the margins. *)
Lemma content_in_pixels_positive c m p :
  1 <= c -> 0 <= m -> 0 <= p ->
  1 <= ConvertUnit p kPointsPerInch kPixelsPerInch
       - ConvertUnit m kPointsPerInch kPixelsPerInch
       - ConvertUnit (p - c - m) kPointsPerInch kPixelsPerInch.
Proof.
  intros. unfold ConvertUnit, kPointsPerInch, kPixelsPerInch.
  repeat match goal with |- context [0 <=? ?x] => destruct (Z.leb_spec 0 x) end;
    change (Z.quot 72 2) with 36; Z.to_euclidean_division_equations; lia.
Qed.

Lemma IsValid_geometry pp :
  PrintMsg_Print_Params_IsValid pp = true ->
  1 <= gfx.width (content_size pp) /\ 1 <= gfx.height (content_size pp) /\
  1 <= gfx.width (page_size pp) /\ 1 <= gfx.height (page_size pp) /\
  0 <= margin_top pp /\ 0 <= margin_left pp.
Proof.
  unfold PrintMsg_Print_Params_IsValid, gfx.IsEmpty.
  rewrite !andb_true_iff, !negb_true_iff, !orb_false_iff, !Z.eqb_neq, !Z.leb_le.
  unfold gfx.width, gfx.height. lia.
Qed.

(** One unfolding of the recursion. *)
Lemma GetCssPrintParams_fuel_S n frame page_index pp :
  GetCssPrintParams_fuel platform (S n) frame page_index pp =
  if degenerate (css_in_pixels platform frame page_index pp)
  then match frame with
       | None => Some CheckFailure
       | Some _ => GetCssPrintParams_fuel platform n None page_index pp
       end
  else Some (Done (css_params_of_pixels platform pp
                     (css_in_pixels platform frame page_index pp))).
Proof.
  cbn [GetCssPrintParams_fuel]. cbv zeta.
  unfold degenerate, new_content_width, new_content_height, css_in_pixels,
    css_params_of_pixels.
  destruct (_ || _); [reflexivity|].
  destruct (WebSize_eqb _ _); reflexivity.
Qed.



Lemma GetCssPrintParams_dpi frame page_index pp r :
  GetCssPrintParams platform frame page_index pp = Some (Done r) ->
  dpi r = dpi pp.
Proof.
  unfold GetCssPrintParams. rewrite GetCssPrintParams_fuel_S.
  destruct (degenerate _).
  - destruct frame; [|discriminate].
    rewrite GetCssPrintParams_fuel_S.
    destruct (degenerate _); [discriminate|]. now intros [= <-].
  - now intros [= <-].
Qed.

(** At the resolution of points a valid layout is never degenerate without
    a frame. *)
Lemma no_frame_not_degenerate page_index pp :
  PrintMsg_Print_Params_IsValid pp = true ->
  GetDPI platform pp = kPointsPerInch ->
  degenerate (css_in_pixels platform None page_index pp) = false.
Proof.
  intros V D. apply IsValid_geometry in V.
  unfold degenerate, css_in_pixels, new_content_width, new_content_height.
  rewrite D. cbn [px_page_size px_margin_left px_margin_right px_margin_top
                  px_margin_bottom ws_width ws_height].
  pose proof (content_in_pixels_positive (gfx.width (content_size pp))
                (margin_left pp) (gfx.width (page_size pp))).
  pose proof (content_in_pixels_positive (gfx.height (content_size pp))
                (margin_top pp) (gfx.height (page_size pp))).
  apply orb_false_iff. rewrite !Z.ltb_ge. lia.
Qed.

Lemma GetCssPrintParams_at_points frame page_index pp :
  PrintMsg_Print_Params_IsValid pp = true ->
  GetDPI platform pp = kPointsPerInch ->
  exists r, GetCssPrintParams platform frame page_index pp = Some (Done r).
Proof.
  intros V D. unfold GetCssPrintParams. rewrite GetCssPrintParams_fuel_S.
  destruct (degenerate _) eqn:E; [|eauto].
  destruct frame.
  - rewrite GetCssPrintParams_fuel_S, no_frame_not_degenerate by assumption.
    eauto.
  - rewrite no_frame_not_degenerate in E by assumption. discriminate.
Qed.

Lemma EnsureOrientationMatches_dpi css p :
  dpi (EnsureOrientationMatches css p) = dpi p.
Proof. unfold EnsureOrientationMatches. now destruct (Bool.eqb _ _). Qed.

Lemma FitPrintParamsToPage_dpi p t :
  dpi (snd (FitPrintParamsToPage p t)) = dpi t.
Proof.
  unfold FitPrintParamsToPage.
  destruct (gfx.Size_eqb _ _); [reflexivity|].
  now destruct (_ || _).
Qed.

Lemma GetDPI_ext p q : dpi p = dpi q -> GetDPI platform p = GetDPI platform q.
Proof. unfold GetDPI. now intros ->. Qed.

Lemma CalculatePrintParamsForCss_dpi frame page_index pp icm ftp r sf :
  CalculatePrintParamsForCss platform frame page_index pp icm ftp
    = Some (Done (r, sf)) ->
  dpi r = dpi pp.
Proof.
  unfold CalculatePrintParamsForCss.
  destruct (GetCssPrintParams _ _ _ _) as [[css|]|] eqn:G; try discriminate.
  apply GetCssPrintParams_dpi in G.
  destruct (icm && ftp).
  - intros [= <- _]. apply EnsureOrientationMatches_dpi.
  - destruct ftp.
    + destruct (FitPrintParamsToPage _ _) as [f t] eqn:F.
      intros [= <- _].
      change t with (snd (f, t)). rewrite <- F, FitPrintParamsToPage_dpi.
      now destruct icm.
    + intros [= <- _]. now destruct icm.
Qed.

(** At the resolution of points the layout in points is the layout, and
    the margins that [CalculatePageLayoutFromPrintParams] derives close the
    page. *)
Lemma layout_closes_at_points r :
  GetDPI platform r = kPointsPerInch ->
  let l := CalculatePageLayoutFromPrintParams platform r in
  content_width l + layout_margin_left l + layout_margin_right l
    = gfx.width (page_size r) /\
  content_height l + layout_margin_top l + layout_margin_bottom l
    = gfx.height (page_size r).
Proof.
  intros D. unfold CalculatePageLayoutFromPrintParams.
  cbn [content_width content_height layout_margin_left layout_margin_right
       layout_margin_top layout_margin_bottom].
  rewrite D, !ConvertUnit_same by (unfold kPointsPerInch; lia). lia.
Qed.

(** C3, amended: for valid parameters whose resolution is that of points (as
    [GetDPI] makes it for every parameter under [OS_MACOSX]),
    [CalculatePrintParamsForCss] returns, and the layout in points of what it
    returns closes the page in both dimensions. *)
Theorem layout_closure_at_points frame page_index pp icm ftp :
  PrintMsg_Print_Params_IsValid pp = true ->
  GetDPI platform pp = kPointsPerInch ->
  exists r sf,
    CalculatePrintParamsForCss platform frame page_index pp icm ftp
      = Some (Done (r, sf)) /\
    let l := CalculatePageLayoutFromPrintParams platform r in
    content_width l + layout_margin_left l + layout_margin_right l
      = ConvertUnit (gfx.width (page_size r)) (GetDPI platform r)
                    kPointsPerInch /\
    content_height l + layout_margin_top l + layout_margin_bottom l
      = ConvertUnit (gfx.height (page_size r)) (GetDPI platform r)
                    kPointsPerInch.
Proof.
  intros V D.
  assert (exists r sf,
    CalculatePrintParamsForCss platform frame page_index pp icm ftp
      = Some (Done (r, sf))) as (r & sf & E).
  { unfold CalculatePrintParamsForCss.
    destruct (GetCssPrintParams_at_points frame page_index pp V D) as [c ->].
    destruct (icm && ftp); [eauto|].
    destruct ftp; [|eauto].
    destruct (FitPrintParamsToPage _ _); eauto. }
  exists r, sf. split; [exact E|].
  assert (Dr : GetDPI platform r = kPointsPerInch).
  { rewrite <- D. apply GetDPI_ext.
    eapply CalculatePrintParamsForCss_dpi; eassumption. }
  cbv zeta. rewrite Dr, !ConvertUnit_same by (unfold kPointsPerInch; lia).
  apply (layout_closes_at_points r Dr).
Qed.

End GeometryFacts.

(** C3, as the claim states it, fails at 300 dpi: the three conversions to
    points of the content width and the two margins add up to 596, the
    conversion of the page width is 595. *)
Lemma layout_closure_open_at_300dpi :
  PrintMsg_Print_Params_IsValid a4_300dpi = true /\
  exists r,
    CalculatePrintParamsForCss other_platform (Some plain_frame) 0 a4_300dpi
      false false = Some (Done (r, None)) /\
    let l := CalculatePageLayoutFromPrintParams other_platform r in
    content_width l + layout_margin_left l + layout_margin_right l
    <> ConvertUnit (gfx.width (page_size r)) (GetDPI other_platform r)
                   kPointsPerInch.
Proof.
  split; [vm_compute; reflexivity|].
  eexists. split; [vm_compute; reflexivity|].
  vm_compute. discriminate.
Qed.

Lemma layout_closure_at_points_witness :
  PrintMsg_Print_Params_IsValid letter_portrait = true /\
  GetDPI mac_platform letter_portrait = kPointsPerInch /\
  exists r sf,
    CalculatePrintParamsForCss mac_platform (Some plain_frame) 0
      letter_portrait false true = Some (Done (r, sf)) /\
    let l := CalculatePageLayoutFromPrintParams mac_platform r in
    content_width l + layout_margin_left l + layout_margin_right l
      = ConvertUnit (gfx.width (page_size r)) (GetDPI mac_platform r)
                    kPointsPerInch /\
    content_height l + layout_margin_top l + layout_margin_bottom l
      = ConvertUnit (gfx.height (page_size r)) (GetDPI mac_platform r)
                    kPointsPerInch.
Proof.
  split; [reflexivity|]. split; [reflexivity|].
  apply (layout_closure_at_points mac_platform (Some plain_frame) 0
           letter_portrait false true); reflexivity.
Defined.

(** The scenario of section 8: with no style for pages, no margins ignored
    and no fitting, Letter at 72 dpi comes back as it is. *)
Example CalculatePrintParamsForCss_letter :
  CalculatePrintParamsForCss other_platform (Some plain_frame) 0
    letter_portrait false false = Some (Done (letter_portrait, None)).
Proof. vm_compute. reflexivity. Qed.

(** C4: the call without a frame that [GetCssPrintParams] falls back to can
    itself find the layout degenerate.  The parameters are valid; their
    content area is less than half a pixel wide, the page and the right margin
    round to the same number of pixels, and the [CHECK] fails. *)
Theorem GetCssPrintParams_fallback_fails :
  PrintMsg_Print_Params_IsValid tiny_content_600dpi = true /\
  degenerate (css_in_pixels other_platform None 0 tiny_content_600dpi) = true /\
  GetCssPrintParams other_platform (Some plain_frame) 0 tiny_content_600dpi
    = Some CheckFailure.
Proof. repeat split; vm_compute; reflexivity. Qed.

(** Default settings like these, sent by the host, end the renderer at the
    first [Print]. *)
Example Print_aborts_on_tiny_content :
  exists s',
    Print other_platform
          (steady_env tiny_content_600dpi cancelled_settings 3)
          no_other_PrintPagesNative 0%nat NullNode true false fresh
      = Aborted s'.
Proof. eexists. vm_compute. reflexivity. Qed.

(** ** The print session: facts *)

Lemma rendered_pages_render_events pp frame l :
  rendered_pages (render_events pp frame l) = l.
Proof. induction l as [|n l IH]; cbn; [reflexivity|f_equal; exact IH]. Qed.

Lemma print_requested_pages_run pages page_count pp frame s :
  print_requested_pages pages page_count pp frame s =
  Returned tt
    {| self := self s;
       history := history s ++
         render_events pp frame (take_while (fun n => n <? page_count) pages) |}.
Proof.
  revert s. induction pages as [|page rest IH]; intros s; cbn.
  - unfold ret. rewrite app_nil_r. now destruct s.
  - rewrite Z.geb_leb, Z.ltb_antisym.
    destruct (page_count <=? page); cbn.
    + unfold ret. rewrite app_nil_r. now destruct s.
    + unfold bind, emit. rewrite IH. cbn. now rewrite <- app_assoc.
Qed.

Lemma take_while_sorted page_count pages :
  Sorted Z.le pages ->
  take_while (fun n => n <? page_count) pages
    = filter (fun n => n <? page_count) pages.
Proof.
  intros S. apply Sorted_StronglySorted in S; [|intros x y z; lia].
  induction S as [|x l S IH F]; cbn; [reflexivity|].
  destruct (Z.ltb_spec x page_count); [now rewrite IH|].
  clear IH S. induction l as [|y l IH]; cbn; [reflexivity|].
  inversion F; subst.
  destruct (Z.ltb_spec y page_count); [lia|auto].
Qed.

(** C8, as the claim states it, fails: with pages 5 and 0 requested of a
    document of 3 pages, the loop stops at page 5 and page 0 is not
    rendered. *)
Lemma PrintPagesNative_mac_stops_at_first_page_out_of_range :
  let s := with_settings {| params := letter_portrait; pages := [5; 0] |} in
  exists s',
    PrintPagesNative_mac (Some 0%nat) 3 s = Returned true s' /\
    rendered_pages (history s') = [] /\
    filter (fun n => n <? 3) [5; 0] = [0].
Proof.
  eexists. split; [vm_compute; reflexivity|].
  vm_compute. split; reflexivity.
Qed.

(** C8, amended: for an explicit list of pages [PrintPagesNative] renders, in
    the order given, the pages before the first one that is not below the
    page count; for an ascending list these are the requested pages below the
    page count. *)
Theorem PrintPagesNative_mac_requested frame page_count s pp :
  print_pages_params_ (self s) = Some pp ->
  pages pp <> [] ->
  exists evs,
    PrintPagesNative_mac frame page_count s
      = Returned true {| self := self s; history := history s ++ evs |} /\
    rendered_pages evs
      = take_while (fun n => n <? page_count) (pages pp) /\
    (Sorted Z.le (pages pp) ->
     rendered_pages evs = filter (fun n => n <? page_count) (pages pp)).
Proof.
  intros P NE.
  exists (render_events (params pp) frame
            (take_while (fun n => n <? page_count) (pages pp))).
  rewrite rendered_pages_render_events.
  split; [|split; [reflexivity|apply take_while_sorted]].
  unfold PrintPagesNative_mac, bind, get. rewrite P. cbn [deref ret].
  destruct (pages pp) as [|page rest] eqn:E; [contradiction|].
  rewrite print_requested_pages_run. reflexivity.
Qed.

Lemma PrintPagesNative_mac_requested_witness :
  let s := with_settings {| params := letter_portrait; pages := [0; 2; 7] |} in
  print_pages_params_ (self s)
    = Some {| params := letter_portrait; pages := [0; 2; 7] |} /\
  [0; 2; 7] <> [] /\
  exists evs,
    PrintPagesNative_mac (Some 0%nat) 3 s
      = Returned true {| self := self s; history := history s ++ evs |} /\
    rendered_pages evs = take_while (fun n => n <? 3) [0; 2; 7] /\
    (Sorted Z.le [0; 2; 7] ->
     rendered_pages evs = filter (fun n => n <? 3) [0; 2; 7]).
Proof.
  split; [reflexivity|]. split; [discriminate|].
  apply (PrintPagesNative_mac_requested (Some 0%nat) 3
           (with_settings {| params := letter_portrait; pages := [0; 2; 7] |})
           {| params := letter_portrait; pages := [0; 2; 7] |});
    [reflexivity|discriminate].
Defined.

Section Relations.

Lemma continues_refl P s : continues P s s.
Proof. exists []. now rewrite app_nil_r. Qed.

Lemma continues_trans P s1 s2 s3 :
  continues P s1 s2 -> continues P s2 s3 -> continues P s1 s3.
Proof.
  intros (e1 & H1 & F1) (e2 & H2 & F2). exists (e1 ++ e2).
  rewrite H2, H1, app_assoc, forallb_app, F1, F2. auto.
Qed.

Lemma prepares_refl s : prepares s s.
Proof. split; [reflexivity|apply continues_refl]. Qed.

Lemma prepares_trans s1 s2 s3 : prepares s1 s2 -> prepares s2 s3 -> prepares s1 s3.
Proof.
  intros [E1 C1] [E2 C2]. split; [congruence|eapply continues_trans; eauto].
Qed.

Variable R : State -> State -> Prop.
Hypothesis R_refl : forall s, R s s.
Hypothesis R_trans : forall s1 s2 s3, R s1 s2 -> R s2 s3 -> R s1 s3.

Lemma always_ret {A} (a : A) : always R (ret a).
Proof. intros s. apply R_refl. Qed.

Lemma always_abort {A} : always R (@abort A).
Proof. intros s. apply R_refl. Qed.

Lemma always_get : always R get.
Proof. intros s. apply R_refl. Qed.

Lemma always_past : always R past.
Proof. intros s. apply R_refl. Qed.

Lemma always_deref {A} (p : option A) : always R (deref p).
Proof. destruct p; [apply always_ret|apply always_abort]. Qed.

Lemma always_lift_checked {A} (c : option (checked A)) :
  always R (lift_checked c).
Proof.
  destruct c as [[a|]|]; [apply always_ret|apply always_abort..].
Qed.

Lemma always_bind {A B} (m : M A) (k : A -> M B) :
  always R m -> (forall a, always R (k a)) -> always R (bind m k).
Proof.
  intros Hm Hk s. unfold bind. specialize (Hm s).
  destruct (m s) as [a s'|s']; [|exact Hm].
  specialize (Hk a s'). destruct (k a s'); eauto.
Qed.

Lemma returns_ret {A} (a : A) : returns R (ret a).
Proof. intros s. exists a, s. auto. Qed.

Lemma returns_get : returns R get.
Proof. intros s. exists (self s), s. auto. Qed.

Lemma returns_past : returns R past.
Proof. intros s. exists (history s), s. auto. Qed.

Lemma returns_bind {A B} (m : M A) (k : A -> M B) :
  returns R m -> (forall a, returns R (k a)) -> returns R (bind m k).
Proof.
  intros Hm Hk s. unfold bind.
  destruct (Hm s) as (a & s' & -> & H1).
  destruct (Hk a s') as (b & s'' & -> & H2). eauto.
Qed.

Lemma returns_always {A} (m : M A) : returns R m -> always R m.
Proof. intros H s. destruct (H s) as (a & s' & -> & H1). exact H1. Qed.

End Relations.

Lemma bind_run {A B} (m : M A) (k : A -> M B) s a s1 :
  m s = Returned a s1 -> bind m k s = k a s1.
Proof. unfold bind. now intros ->. Qed.

Lemma bind_Returned {A B} (m : M A) (k : A -> M B) s b s2 :
  bind m k s = Returned b s2 ->
  exists a s1, m s = Returned a s1 /\ k a s1 = Returned b s2.
Proof. unfold bind. destruct (m s); [eauto|discriminate]. Qed.

Lemma prepares_emit e : preparatory e = true -> forall s,
  prepares s {| self := self s; history := history s ++ [e] |}.
Proof.
  intros P s. split; [reflexivity|]. exists [e]. cbn. now rewrite P.
Qed.

Lemma always_emit e : preparatory e = true -> always prepares (emit e).
Proof. intros P s. now apply prepares_emit. Qed.

Lemma returns_emit e : preparatory e = true -> returns prepares (emit e).
Proof. intros P s. eexists _, _. split; [reflexivity|now apply prepares_emit]. Qed.

(** Stepping through a method. *)
Ltac step_always :=
  repeat first
    [ apply always_ret; [apply prepares_refl]
    | apply always_abort; [apply prepares_refl]
    | apply always_get; [apply prepares_refl]
    | apply always_past; [apply prepares_refl]
    | apply always_deref; [apply prepares_refl]
    | apply always_lift_checked; [apply prepares_refl]
    | apply always_emit; [reflexivity]
    | apply always_bind; [apply prepares_trans| |intros]
    | match goal with
      | |- always _ (if ?b then _ else _) => destruct b
      | |- always _ (match ?x with _ => _ end) => destruct x
      | |- always _ (let '(_, _) := ?x in _) => destruct x
      end ].

Ltac step_returns :=
  repeat first
    [ apply returns_ret; [apply prepares_refl]
    | apply returns_get; [apply prepares_refl]
    | apply returns_past; [apply prepares_refl]
    | apply returns_emit; [reflexivity]
    | apply returns_bind; [apply prepares_trans| |intros]
    | match goal with
      | |- returns _ (if ?b then _ else _) => destruct b
      | |- returns _ (match ?x with _ => _ end) => destruct x
      end ].

Section SessionFacts.

Variable platform : Platform.
Variable env : Environment.
Variable PrintPagesNative_other : option WebLocalFrame -> Z -> M bool.

Lemma FrameReference_Reset_returns frame :
  returns prepares (FrameReference_Reset env frame).
Proof. unfold FrameReference_Reset. step_returns. Qed.

Lemma FrameReference_GetFrame_returns r :
  returns prepares (FrameReference_GetFrame env r).
Proof. unfold FrameReference_GetFrame. step_returns. Qed.

Lemma PrintingNodeOrPdfFrame_returns frame node :
  returns prepares (PrintingNodeOrPdfFrame env frame node).
Proof. unfold PrintingNodeOrPdfFrame. step_returns. Qed.

Lemma RestoreSize_returns p : returns prepares (RestoreSize env p).
Proof.
  unfold RestoreSize, Prepare_frame.
  apply returns_bind; [apply prepares_trans|apply FrameReference_GetFrame_returns|intros].
  step_returns.
Qed.

Lemma FinishPrinting_returns p : returns prepares (FinishPrinting env p).
Proof.
  unfold FinishPrinting.
  apply returns_bind; [apply prepares_trans|apply FrameReference_GetFrame_returns|intros].
  apply returns_bind; [apply prepares_trans| |intros].
  - destruct a; [|step_returns].
    apply returns_bind; [apply prepares_trans|step_returns|intros].
    cbv zeta.
    apply returns_bind; [apply prepares_trans| |intros; step_returns].
    destruct (is_printing_started_ p); [|step_returns].
    cbv zeta.
    apply returns_bind; [apply prepares_trans|step_returns|intros].
    apply returns_bind; [apply prepares_trans| |intros; step_returns].
    destruct (negb _); [|step_returns].
    apply returns_bind; [apply prepares_trans|step_returns|intros].
    apply RestoreSize_returns.
  - apply returns_bind; [apply prepares_trans|apply FrameReference_Reset_returns|intros].
    step_returns.
Qed.

Lemma ResizeForPrinting_always p : always prepares (ResizeForPrinting env p).
Proof.
  unfold ResizeForPrinting, Prepare_frame. cbv zeta.
  apply always_bind; [apply prepares_trans|apply returns_always, FrameReference_GetFrame_returns|intros].
  step_always.
Qed.

Lemma StartPrinting_always p : always prepares (StartPrinting env p).
Proof.
  unfold StartPrinting, Prepare_frame.
  apply always_bind; [apply prepares_trans|apply ResizeForPrinting_always|intros].
  apply always_bind; [apply prepares_trans|step_always|intros].
  apply always_bind; [apply prepares_trans|step_always|intros].
  apply always_bind; [apply prepares_trans|apply returns_always, FrameReference_GetFrame_returns|intros].
  step_always.
Qed.

Lemma PrepareFrameAndViewForPrint_new_always pp frame node icm :
  always prepares (PrepareFrameAndViewForPrint_new platform env pp frame node icm).
Proof.
  unfold PrepareFrameAndViewForPrint_new. cbv zeta.
  apply always_bind; [apply prepares_trans|apply returns_always, FrameReference_Reset_returns|intros].
  apply always_bind; [apply prepares_trans| |intros].
  - destruct (negb _); [step_always|apply returns_always, PrintingNodeOrPdfFrame_returns].
  - step_always.
Qed.

Lemma PrepareFrameAndViewForPrint_delete_returns p :
  returns prepares (PrepareFrameAndViewForPrint_delete env p).
Proof.
  unfold PrepareFrameAndViewForPrint_delete.
  apply returns_bind; [apply prepares_trans|apply FinishPrinting_returns|intros].
  step_returns.
Qed.

(** [DidFinishPrinting] always returns, and leaves the controller idle. *)
Lemma DidFinishPrinting_idle result s :
  exists s' evs,
    DidFinishPrinting env result s = Returned tt s' /\
    self s' = idle (self s) /\
    history s' = history s ++ DidFinishPrinting_entered result :: evs /\
    forallb (fun e => preparatory e ||
                      (is_failure_notice e && is_FAIL_PRINT result)) evs = true.
Proof.
  unfold DidFinishPrinting, reset_prep_frame_view.
  set (s0 := {| self := self s;
                history := history s ++ [DidFinishPrinting_entered result] |}).
  assert (N : exists s1 evs,
    (match result with
     | FAIL_PRINT =>
         h <- get ;;
         match notify_browser_of_print_failure_ h, print_pages_params_ h with
         | true, Some pp =>
             emit (Send (PrintHostMsg_PrintingFailed (document_cookie (params pp))))
         | _, _ => ret tt
         end
     | _ => ret tt
     end) s0 = Returned tt s1 /\ self s1 = self s /\
    history s1 = history s0 ++ evs /\
    forallb (fun e => is_failure_notice e && is_FAIL_PRINT result) evs = true).
  { assert (Q : exists s1 evs, ret tt s0 = Returned tt s1 /\ self s1 = self s /\
               history s1 = history s0 ++ evs /\
               forallb (fun e => is_failure_notice e && is_FAIL_PRINT result)
                       evs = true).
    { exists s0, []. rewrite app_nil_r. repeat split. }
    destruct result; try exact Q.
    unfold bind, get.
    destruct (notify_browser_of_print_failure_ (self s0));
      [destruct (print_pages_params_ (self s0))|]; try exact Q.
    eexists _, [_]. repeat split. }
  destruct N as (s1 & ev1 & E1 & S1 & H1 & F1).
  destruct (prep_frame_view_ (self s)) as [p|] eqn:P.
  - destruct (PrepareFrameAndViewForPrint_delete_returns p
                {| self := set_prep_frame_view_ (self s1) None;
                   history := history s1 |})
      as ([] & s2 & E2 & S2 & ev2 & H2 & F2).
    exists {| self := idle (self s); history := history s2 |}, (ev1 ++ ev2).
    split; [|split; [reflexivity|split]].
    + rewrite (bind_run _ _ s tt s0) by reflexivity.
      rewrite (bind_run _ _ s0 tt s1 E1).
      rewrite (bind_run _ _ s1 tt s2).
      * cbn. rewrite S2. cbn. rewrite S1. reflexivity.
      * rewrite (bind_run _ _ s1 (self s1) s1) by reflexivity.
        rewrite (bind_run _ _ s1 tt
                   {| self := set_prep_frame_view_ (self s1) None;
                      history := history s1 |}) by reflexivity.
        rewrite S1, P. rewrite S1 in E2. exact E2.
    + cbn. rewrite H2. cbn. rewrite H1. subst s0. cbn.
      now rewrite <- !app_assoc.
    + rewrite forallb_app. apply andb_true_iff. split.
      * rewrite forallb_forall in *. intros e I. rewrite (F1 e I).
        apply orb_true_r.
      * rewrite forallb_forall in *. intros e I. now rewrite (F2 e I).
  - exists {| self := idle (self s); history := history s1 |}, ev1.
    split; [|split; [reflexivity|split]].
    + rewrite (bind_run _ _ s tt s0) by reflexivity.
      rewrite (bind_run _ _ s0 tt s1 E1).
      rewrite (bind_run _ _ s1 tt
                 {| self := set_prep_frame_view_ (self s1) None;
                    history := history s1 |}).
      * cbn. now rewrite S1.
      * rewrite (bind_run _ _ s1 (self s1) s1) by reflexivity.
        rewrite (bind_run _ _ s1 tt
                   {| self := set_prep_frame_view_ (self s1) None;
                      history := history s1 |}) by reflexivity.
        now rewrite S1, P.
    + cbn. rewrite H1. subst s0. cbn. now rewrite <- !app_assoc.
    + rewrite forallb_forall in *. intros e I. rewrite (F1 e I).
      apply orb_true_r.
Qed.

(** The settings that [InitPrintSettings] installs for a reply of the
    host. *)
Lemma InitPrintSettings_run fit s :
  let reply :=
    reply_GetDefaultPrintSettings env
      (history s ++ [Send PrintHostMsg_GetDefaultPrintSettings]) in
  InitPrintSettings env fit s =
  Returned (PrintMsg_Print_Params_IsValid reply)
    {| self :=
         set_print_pages_params_ (set_ignore_css_margins_ (self s) false)
           (Some {| params :=
                      set_print_scaling_option reply
                        (if fit then WebPrintScalingOptionFitToPrintableArea
                         else WebPrintScalingOptionSourceSize);
                    pages := [] |});
       history := history s ++ [Send PrintHostMsg_GetDefaultPrintSettings] |}.
Proof. reflexivity. Qed.

Lemma CalculateNumberOfPages_returned frame node s n s1 :
  CalculateNumberOfPages platform env frame node s = Returned (Some n) s1 ->
  prep_frame_view_ (self s1) = prep_frame_view_ (self s) /\
  (exists pp, print_pages_params_ (self s1) = Some pp) /\
  continues preparatory s s1.
Proof.
  unfold CalculateNumberOfPages. intros H.
  apply bind_Returned in H as (b & sa & Ha & H).
  destruct (PrintingNodeOrPdfFrame_returns frame node s)
    as (b' & sa' & Ea & Sa & Ca).
  rewrite Ea in Ha. injection Ha as -> ->.
  apply bind_Returned in H as (ok & sb & Hb & H).
  rewrite InitPrintSettings_run in Hb. injection Hb as <- <-.
  destruct (negb _); [discriminate|].
  apply bind_Returned in H as (h & sc & Hc & H). injection Hc as <- <-.
  cbn [self print_pages_params_ set_print_pages_params_] in H.
  apply bind_Returned in H as (pp & sc & Hc & H). injection Hc as <- <-.
  apply bind_Returned in H as (p1 & sd & Hd & H).
  apply bind_Returned in H as (p2 & se & He & H).
  apply bind_Returned in H as ([] & sf & Hf & H).
  injection H as _ <-.
  match type of Hd with
  | PrepareFrameAndViewForPrint_new _ _ ?a ?b ?c ?d ?st = _ =>
      pose proof (PrepareFrameAndViewForPrint_new_always a b c d st) as Pd
  end.
  rewrite Hd in Pd.
  pose proof (StartPrinting_always p1 sd) as Pe. rewrite He in Pe.
  destruct (PrepareFrameAndViewForPrint_delete_returns p2 se)
    as ([] & sf' & Ef & Pf).
  rewrite Ef in Hf. injection Hf as ->.
  pose proof (prepares_trans _ _ _ (prepares_trans _ _ _ Pd Pe) Pf) as [S C].
  cbn [self history] in S, C.
  rewrite S. cbn. rewrite Sa. split; [reflexivity|split; [eauto|]].
  eapply continues_trans; [exact Ca|].
  eapply continues_trans; [|exact C].
  exists [Send PrintHostMsg_GetDefaultPrintSettings]. auto.
Qed.

Lemma GetPrintSettingsFromUser_run frame node n s pp :
  print_pages_params_ (self s) = Some pp ->
  let sp := ScriptedPrint_request env frame node n (history s) pp in
  let reply := ScriptedPrint_reply env frame node n (history s) pp in
  GetPrintSettingsFromUser env (Some frame) node n s =
  Returned (Double.to_bool (dpi (params reply)) &&
            int_to_bool (document_cookie (params reply)))
    {| self :=
         set_print_pages_params_ (set_print_pages_params_ (self s) None)
           (Some {| params :=
                      set_print_scaling_option (params reply)
                        (print_scaling_option (params pp));
                    pages := pages reply |});
       history := history s ++ [Send (PrintHostMsg_ScriptedPrint sp)] |}.
Proof.
  intros P. unfold GetPrintSettingsFromUser, ScriptedPrint_reply,
    ScriptedPrint_request, PrintingNodeOrPdfFrame, GetMarginsForPdf, bind, get,
    past, modify, emit, SetPrintPagesParams.
  rewrite P. cbn.
  destruct (isNull node); cbn;
    [destruct (plugin_supportsPaginatedPrint env (history s) frame); cbn|];
    try destruct (frame_isPrintScalingDisabledForPlugin env (history s) frame
                    node); reflexivity.
Qed.

Lemma forallb_weaken {A} (P Q : A -> bool) l :
  (forall x, P x = true -> Q x = true) ->
  forallb P l = true -> forallb Q l = true.
Proof. rewrite !forallb_forall. auto. Qed.

(** C1: while a surface-preparation object exists, [Print] returns at once
    and changes neither the controller nor the history. *)
Theorem Print_while_preparing frame node silent print_background s p :
  prep_frame_view_ (self s) = Some p ->
  Print platform env PrintPagesNative_other frame node silent print_background s
    = Returned tt s.
Proof.
  intros P. unfold Print. rewrite (bind_run _ _ s (self s) s) by reflexivity.
  now rewrite P.
Qed.

Lemma DidFinishPrinting_FAIL_PRINT s0 s :
  continues preparatory s0 s ->
  ends_in_FAIL_PRINT s0 (DidFinishPrinting env FAIL_PRINT s).
Proof.
  intros (ev0 & H0 & F0).
  destruct (DidFinishPrinting_idle FAIL_PRINT s) as (s' & evs & E & S & H & F).
  exists s', (ev0 ++ DidFinishPrinting_entered FAIL_PRINT :: evs).
  split; [exact E|]. rewrite S.
  split; [reflexivity|split; [reflexivity|]].
  split; [now rewrite H, H0, <- app_assoc|].
  split; [apply in_or_app; right; now left|].
  split.
  - intros r I. apply in_app_or in I as [I|[I|I]].
    + rewrite forallb_forall in F0. apply F0 in I. discriminate.
    + now injection I.
    + rewrite forallb_forall in F. apply F in I. discriminate.
  - rewrite forallb_app. apply andb_true_iff. split.
    + revert F0. apply forallb_weaken.
      intros e. unfold preparatory. destruct (is_rendering e), (is_page_count_notice e); now cbn.
    + cbn. revert F. apply forallb_weaken.
      intros e. unfold preparatory.
      destruct e as [[]| | | | | | | | | | |]; now cbn.
Qed.

(** C6: a page count of zero, found by [Print] when it computes the number
    of pages or by [PrintPages] when it starts printing, ends the session in
    [DidFinishPrinting(FAIL_PRINT)]: no page is handed to the renderer and no
    page-count notice is sent. *)
Theorem zero_page_count_fails :
  (forall frame node silent print_background s s1,
     prep_frame_view_ (self s) = None ->
     CalculateNumberOfPages platform env frame node s = Returned (Some 0) s1 ->
     ends_in_FAIL_PRINT s
       (Print platform env PrintPagesNative_other frame node silent
              print_background s)) /\
  (forall s p p' s1,
     prep_frame_view_ (self s) = Some p ->
     StartPrinting env p s = Returned p' s1 ->
     GetExpectedPageCount p' = 0 ->
     ends_in_FAIL_PRINT s (PrintPages platform env PrintPagesNative_other s)).
Proof.
  split.
  - intros frame node silent bg s s1 P C.
    unfold Print. rewrite (bind_run _ _ s (self s) s) by reflexivity.
    rewrite P.
    destruct (FrameReference_Reset_returns (Some frame) s)
      as (r & s' & E & Ss & (evs & Hs & _)).
    assert (s' = s) as ->.
    { unfold FrameReference_Reset, bind, past, ret in E. now injection E. }
    rewrite (bind_run _ _ _ _ _ E), (bind_run _ _ _ _ _ C).
    cbn [int_to_bool Z.eqb negb].
    apply DidFinishPrinting_FAIL_PRINT.
    now apply CalculateNumberOfPages_returned in C.
  - intros s p p' s1 P S Z.
    unfold PrintPages. rewrite (bind_run _ _ s (self s) s) by reflexivity.
    rewrite P, (bind_run _ _ _ _ _ S).
    rewrite (bind_run _ _ s1 tt
               {| self := set_prep_frame_view_ (self s1) (Some p');
                  history := history s1 |}) by reflexivity.
    rewrite Z. cbn [int_to_bool Z.eqb negb].
    apply DidFinishPrinting_FAIL_PRINT.
    pose proof (StartPrinting_always p s) as A. rewrite S in A.
    destruct A as [_ A]. exact A.
Qed.

(** C7: in a print that is not silent, settings from the host with a zero
    resolution or a zero document identifier end the session in
    [DidFinishPrinting(OK)]: the surface-preparation object and the settings
    are cleared and no failure notice is sent. *)
Theorem rejected_settings_end_silently frame node print_background s n s1 pp :
  prep_frame_view_ (self s) = None ->
  CalculateNumberOfPages platform env frame node s = Returned (Some n) s1 ->
  n <> 0 ->
  print_pages_params_ (self s1) = Some pp ->
  view_has_frame env (history s1) (frame_view env (history s) frame) frame
    = true ->
  (let reply := params (ScriptedPrint_reply env frame node n (history s1) pp) in
   Double.to_bool (dpi reply) = false \/ document_cookie reply = 0) ->
  exists s' evs,
    Print platform env PrintPagesNative_other frame node false
          print_background s = Returned tt s' /\
    prep_frame_view_ (self s') = None /\
    print_pages_params_ (self s') = None /\
    history s' = history s ++ evs /\
    In (DidFinishPrinting_entered OK) evs /\
    (forall r, In (DidFinishPrinting_entered r) evs -> r = OK) /\
    forallb (fun e => negb (is_failure_notice e)) evs = true.
Proof.
  intros P C N PP A Rj.
  pose proof (CalculateNumberOfPages_returned _ _ _ _ _ C)
    as (P1 & _ & (ev0 & H0 & F0)).
  set (sp := ScriptedPrint_request env frame node n (history s1) pp).
  pose proof (GetPrintSettingsFromUser_run frame node n s1 pp PP) as G.
  cbv zeta in G.
  match type of G with _ = Returned ?b ?st => set (s2 := st) in G;
    assert (B : b = false) end.
  { cbv zeta in Rj. destruct Rj as [-> | ->]; [reflexivity|apply andb_false_r]. }
  rewrite B in G.
  destruct (DidFinishPrinting_idle OK s2) as (s' & evs & E & S & H & F).
  exists s', (ev0 ++ Send (PrintHostMsg_ScriptedPrint sp)
                :: DidFinishPrinting_entered OK :: evs).
  split.
  - unfold Print. rewrite (bind_run _ _ s (self s) s) by reflexivity.
    rewrite P.
    rewrite (bind_run _ _ s {| view_ := Some (frame_view env (history s) frame);
                               frame_ := Some frame |} s) by reflexivity.
    rewrite (bind_run _ _ _ _ _ C).
    replace (negb (int_to_bool n)) with false
      by (unfold int_to_bool; destruct (Z.eqb_spec n 0); [contradiction|reflexivity]).
    rewrite (bind_run _ _ s1 false s2); [exact E|].
    cbn [negb].
    rewrite (bind_run _ _ s1 (Some frame) s1); [exact G|].
    unfold FrameReference_GetFrame. cbn [view_ frame_].
    unfold bind, past, ret. now rewrite A.
  - rewrite S. split; [reflexivity|split; [reflexivity|]].
    split; [rewrite H; subst s2; cbn [history];
            rewrite (app_assoc (history s)), <- H0, <- app_assoc;
            reflexivity|].
    split; [apply in_or_app; right; right; now left|].
    split.
    + intros r I. apply in_app_or in I as [I|[I|[I|I]]].
      * rewrite forallb_forall in F0. apply F0 in I. discriminate.
      * discriminate.
      * now injection I.
      * rewrite forallb_forall in F. apply F in I. discriminate.
    + rewrite forallb_app. apply andb_true_iff. split.
      * revert F0. apply forallb_weaken. intros e. unfold preparatory.
        destruct (is_failure_notice e); [|reflexivity].
        now rewrite andb_false_r.
      * cbn. revert F. apply forallb_weaken. intros e.
        rewrite andb_false_r, orb_false_r. unfold preparatory.
        destruct (is_failure_notice e); [|reflexivity].
        now rewrite andb_false_r.
Qed.

(** C10: [InitPrintSettings] installs the host's default settings as the
    settings of the session, with an empty page list and the scaling option
    of [fit_to_paper_size], and clears the ignore-CSS-margins flag, whether
    or not those settings are valid; the validity is only what it returns, and
    the settings the session had are gone when it returns failure. *)
Theorem InitPrintSettings_replaces_settings fit_to_paper_size s :
  let reply :=
    reply_GetDefaultPrintSettings env
      (history s ++ [Send PrintHostMsg_GetDefaultPrintSettings]) in
  exists s',
    InitPrintSettings env fit_to_paper_size s
      = Returned (PrintMsg_Print_Params_IsValid reply) s' /\
    print_pages_params_ (self s')
      = Some {| params :=
                  set_print_scaling_option reply
                    (if fit_to_paper_size
                     then WebPrintScalingOptionFitToPrintableArea
                     else WebPrintScalingOptionSourceSize);
                pages := [] |} /\
    ignore_css_margins_ (self s') = false /\
    prep_frame_view_ (self s') = prep_frame_view_ (self s) /\
    history s' = history s ++ [Send PrintHostMsg_GetDefaultPrintSettings].
Proof.
  intros reply. eexists. split; [apply InitPrintSettings_run|].
  repeat split.
Qed.

(** The error path of [CalculateNumberOfPages] keeps what
    [InitPrintSettings] installed. *)
Lemma CalculateNumberOfPages_invalid_settings frame node s :
  let reply :=
    reply_GetDefaultPrintSettings env
      (history s ++ [Send PrintHostMsg_GetDefaultPrintSettings]) in
  PrintMsg_Print_Params_IsValid reply = false ->
  exists s' scaling,
    CalculateNumberOfPages platform env frame node s = Returned None s' /\
    print_pages_params_ (self s')
      = Some {| params := set_print_scaling_option reply scaling;
                pages := [] |} /\
    notify_browser_of_print_failure_ (self s') = false /\
    history s' = history s ++
                 [Send PrintHostMsg_GetDefaultPrintSettings;
                  Send PrintHostMsg_ShowInvalidPrinterSettingsError].
Proof.
  intros reply V. unfold CalculateNumberOfPages.
  destruct (PrintingNodeOrPdfFrame_returns frame node s)
    as (b & s0 & E & S & _).
  assert (s0 = s) as ->.
  { unfold PrintingNodeOrPdfFrame, bind, past, ret in E.
    destruct (negb (isNull node)); now injection E. }
  rewrite (bind_run _ _ _ _ _ E).
  rewrite (bind_run _ _ _ _ _ (InitPrintSettings_run (negb b) s)).
  fold reply. rewrite V. cbn [negb].
  eexists _, _. split; [reflexivity|]. cbn. rewrite <- app_assoc.
  repeat split.
Qed.

End SessionFacts.

(** *** The session on concrete collaborators *)

(** A silent print of a document of three pages, under [OS_MACOSX]: the
    three pages are rendered in order, after one page-count notice. *)
Example silent_print_of_three_pages :
  exists s',
    Print mac_platform (steady_env letter_portrait cancelled_settings 3)
          no_other_PrintPagesNative 0%nat NullNode true false fresh
      = Returned tt s' /\
    rendered_pages (history s') = [0; 1; 2] /\
    filter is_page_count_notice (history s')
      = [Send (PrintHostMsg_DidGetPrintedPagesCount 1 3)] /\
    filter is_finish (history s') = [] /\
    prep_frame_view_ (self s') = None.
Proof.
  eexists. split; [vm_compute; reflexivity|].
  vm_compute. repeat split.
Qed.

(** Invalid default settings replace the settings of a session. *)
Example InitPrintSettings_invalid_reply :
  exists s',
    InitPrintSettings
      (steady_env (params cancelled_settings) cancelled_settings 3) false
      (with_settings {| params := letter_portrait; pages := [4] |})
      = Returned false s' /\
    print_pages_params_ (self s') = Some cancelled_settings.
Proof. eexists. split; vm_compute; reflexivity. Qed.

Lemma Print_while_preparing_witness :
  let s := preparing {| params := letter_portrait; pages := [] |} in
  prep_frame_view_ (self s) = Some a_prepare /\
  Print mac_platform (steady_env letter_portrait cancelled_settings 3)
        no_other_PrintPagesNative 0%nat NullNode true false s
    = Returned tt s.
Proof.
  split; [reflexivity|].
  apply (Print_while_preparing mac_platform
           (steady_env letter_portrait cancelled_settings 3)
           no_other_PrintPagesNative 0%nat NullNode true false
           (preparing {| params := letter_portrait; pages := [] |})
           a_prepare).
  reflexivity.
Defined.

Lemma zero_page_count_fails_witness :
  let env := steady_env letter_portrait cancelled_settings 0 in
  ends_in_FAIL_PRINT fresh
    (Print mac_platform env no_other_PrintPagesNative 0%nat NullNode true
           false fresh) /\
  ends_in_FAIL_PRINT (preparing {| params := letter_portrait; pages := [] |})
    (PrintPages mac_platform env no_other_PrintPagesNative
       (preparing {| params := letter_portrait; pages := [] |})).
Proof.
  intros env. split.
  - eapply (proj1 (zero_page_count_fails mac_platform env
                     no_other_PrintPagesNative) 0%nat NullNode true false
                  fresh);
      [reflexivity|vm_compute; reflexivity].
  - eapply (proj2 (zero_page_count_fails mac_platform env
                     no_other_PrintPagesNative)
                  (preparing {| params := letter_portrait; pages := [] |})
                  a_prepare);
      [reflexivity|vm_compute; reflexivity|reflexivity].
Defined.

Lemma rejected_settings_end_silently_witness :
  let env := steady_env letter_portrait cancelled_settings 3 in
  exists s' evs,
    Print mac_platform env no_other_PrintPagesNative 0%nat NullNode false
          true fresh = Returned tt s' /\
    prep_frame_view_ (self s') = None /\
    print_pages_params_ (self s') = None /\
    history s' = history fresh ++ evs /\
    In (DidFinishPrinting_entered OK) evs /\
    (forall r, In (DidFinishPrinting_entered r) evs -> r = OK) /\
    forallb (fun e => negb (is_failure_notice e)) evs = true.
Proof.
  intros env.
  eapply (rejected_settings_end_silently mac_platform env
            no_other_PrintPagesNative 0%nat NullNode true fresh 3);
    [reflexivity|vm_compute; reflexivity|discriminate|reflexivity|reflexivity|].
  left. reflexivity.
Defined.

(** ** More on the geometry functions *)


Lemma Size_eqb_eq a b : gfx.Size_eqb a b = true <-> a = b.
Proof.
  destruct a as [w h], b as [w' h']. unfold gfx.Size_eqb; cbn.
  rewrite andb_true_iff, !N.eqb_eq. split.
  - now intros [-> ->].
  - intros E. injection E as -> ->. auto.
Qed.

Lemma width_mkSize w h : gfx.width (gfx.mkSize w h) = Z.max 0 w.
Proof. unfold gfx.width, gfx.mkSize; cbn. lia. Qed.

Lemma height_mkSize w h : gfx.height (gfx.mkSize w h) = Z.max 0 h.
Proof. unfold gfx.height, gfx.mkSize; cbn. lia. Qed.

Lemma mkSize_width_height s : gfx.mkSize (gfx.width s) (gfx.height s) = s.
Proof.
  destruct s as [w h]. unfold gfx.mkSize, gfx.width, gfx.height; cbn.
  now rewrite !N2Z.id.
Qed.

Lemma same_settings_refl p : same_settings p p.
Proof. repeat split. Qed.

Lemma same_settings_trans p q r :
  same_settings p q -> same_settings q r -> same_settings p r.
Proof. unfold same_settings. intuition congruence. Qed.

Section GeometryMore.
Variable platform : Platform.

(** What [GetCssPrintParams] returns is built from the layout in pixels of
    the frame or, after the fallback, of no frame. *)
Lemma GetCssPrintParams_Done frame page_index pp r :
  GetCssPrintParams platform frame page_index pp = Some (Done r) ->
  exists px,
    r = css_params_of_pixels platform pp px /\ degenerate px = false /\
    (px = css_in_pixels platform frame page_index pp \/
     px = css_in_pixels platform None page_index pp).
Proof.
  unfold GetCssPrintParams. rewrite GetCssPrintParams_fuel_S.
  destruct (degenerate (css_in_pixels platform frame page_index pp)) eqn:D.
  - destruct frame; [|discriminate].
    rewrite GetCssPrintParams_fuel_S.
    destruct (degenerate (css_in_pixels platform None page_index pp)) eqn:D';
      [discriminate|].
    intros [= <-]. eauto.
  - intros [= <-]. eauto.
Qed.

Lemma css_in_pixels_no_page_style frame page_index pp :
  no_page_style frame page_index ->
  css_in_pixels platform frame page_index pp
  = css_in_pixels platform None page_index pp.
Proof. destruct frame as [f|]; [|reflexivity]. intros H. apply H. Qed.

Lemma FitPrintParamsToPage_settings_aux pp t :
  printable_area (snd (FitPrintParamsToPage pp t)) = printable_area t /\
  same_settings (snd (FitPrintParamsToPage pp t)) t.
Proof.
  unfold FitPrintParamsToPage.
  destruct (gfx.Size_eqb _ _); [repeat split|].
  destruct (_ || _); repeat split.
Qed.


(** X2.  [GetCssPrintParams] computes a geometry only: the printable area,
    the resolution, the shrink factors, the desired resolution, the document
    cookie, the selection flag, the scaling option and the background flag
    of its result are those of the settings it was given, with or without
    the fallback. *)
Theorem GetCssPrintParams_keeps_settings frame page_index pp r :
  GetCssPrintParams platform frame page_index pp = Some (Done r) ->
  printable_area r = printable_area pp /\ same_settings r pp.
Proof.
  intros H. apply GetCssPrintParams_Done in H as (px & -> & _).
  repeat split.
Qed.

(** X3.  When the style of the frame leaves the page size in pixels alone,
    the page size that [GetCssPrintParams] returns is exactly the one it was
    given, at every resolution: the function compares the size in pixels
    before and after the style and converts only a size that changed, so
    that no rounding reaches an untouched size. *)
Theorem GetCssPrintParams_keeps_page_size frame page_index pp r :
  (forall p, match frame with
             | Some f => px_page_size (pageSizeAndMarginsInPixels f page_index p)
                         = px_page_size p
             | None => True
             end) ->
  GetCssPrintParams platform frame page_index pp = Some (Done r) ->
  page_size r = page_size pp.
Proof.
  intros K H. apply GetCssPrintParams_Done in H as (px & -> & _ & P).
  unfold css_params_of_pixels. cbn [page_size].
  replace (WebSize_eqb _ _) with true; [reflexivity|].
  symmetry.
  assert (E : px_page_size px
              = px_page_size (css_in_pixels platform None page_index pp)).
  { destruct P as [-> | ->]; [|reflexivity].
    destruct frame as [f|]; [|reflexivity].
    unfold css_in_pixels. now rewrite (K _). }
  rewrite E. unfold css_in_pixels, WebSize_eqb. cbn.
  now rewrite !Z.eqb_refl.
Qed.

Lemma round_trip_72 v :
  ConvertUnit (ConvertUnit v kPointsPerInch kPixelsPerInch)
              kPixelsPerInch kPointsPerInch = v.
Proof.
  unfold ConvertUnit, kPointsPerInch, kPixelsPerInch.
  repeat match goal with |- context [0 <=? ?x] => destruct (Z.leb_spec 0 x) end;
    change (Z.quot 72 2) with 36 in *; change (Z.quot 96 2) with 48 in *;
    Z.to_euclidean_division_equations; lia.
Qed.

Lemma content_round_trip_72 c m p :
  1 <= c -> 0 <= m -> 0 <= p ->
  let w := ConvertUnit
             (ConvertUnit p kPointsPerInch kPixelsPerInch
              - ConvertUnit m kPointsPerInch kPixelsPerInch
              - ConvertUnit (p - c - m) kPointsPerInch kPixelsPerInch)
             kPixelsPerInch kPointsPerInch in
  c - 1 <= w <= c + 1.
Proof.
  intros. subst w. unfold ConvertUnit, kPointsPerInch, kPixelsPerInch.
  repeat match goal with |- context [0 <=? ?x] => destruct (Z.leb_spec 0 x) end;
    change (Z.quot 72 2) with 36 in *; change (Z.quot 96 2) with 48 in *;
    Z.to_euclidean_division_equations; lia.
Qed.

(** X4.  At the resolution of points, for valid settings and a frame with no
    style for the page, [GetCssPrintParams] succeeds and gives back the page
    size and the top and left margins exactly, and a content size within one
    unit of the given one each way: going to pixels and back loses at most
    that. *)
Theorem GetCssPrintParams_round_trip_at_points frame page_index pp :
  PrintMsg_Print_Params_IsValid pp = true ->
  GetDPI platform pp = kPointsPerInch ->
  no_page_style frame page_index ->
  exists r,
    GetCssPrintParams platform frame page_index pp = Some (Done r) /\
    page_size r = page_size pp /\
    margin_top r = margin_top pp /\ margin_left r = margin_left pp /\
    Z.abs (gfx.width (content_size r) - gfx.width (content_size pp)) <= 1 /\
    Z.abs (gfx.height (content_size r) - gfx.height (content_size pp)) <= 1.
Proof.
  intros V D N.
  destruct (GetCssPrintParams_at_points platform frame page_index pp V D)
    as [r E].
  exists r. split; [exact E|].
  apply GetCssPrintParams_Done in E as (px & -> & _ & P).
  assert (px = css_in_pixels platform None page_index pp) as ->.
  { destruct P as [-> | ->]; [now apply css_in_pixels_no_page_style|easy]. }
  apply IsValid_geometry in V.
  unfold css_params_of_pixels, css_in_pixels, new_content_width,
    new_content_height, WebSize_eqb.
  rewrite D.
  cbn [page_size content_size margin_top margin_left px_page_size
       px_margin_top px_margin_left px_margin_right px_margin_bottom
       ws_width ws_height].
  rewrite !Z.eqb_refl, !round_trip_72, width_mkSize, height_mkSize.
  pose proof (content_round_trip_72 (gfx.width (content_size pp))
                (margin_left pp) (gfx.width (page_size pp))).
  pose proof (content_round_trip_72 (gfx.height (content_size pp))
                (margin_top pp) (gfx.height (page_size pp))).
  cbv zeta in *. cbn [andb]. repeat split; lia.
Qed.

Lemma FitPrintParamsToPage_page_size pp t :
  page_size (snd (FitPrintParamsToPage pp t)) = page_size pp.
Proof.
  unfold FitPrintParamsToPage.
  destruct (gfx.Size_eqb _ _) eqn:E.
  - apply Size_eqb_eq in E. now rewrite E.
  - now destruct (_ || _).
Qed.

(** X5.  [FitPrintParamsToPage] is idempotent: what it has fitted to a page
    has the size of that page, so fitting it to the same page again changes
    nothing and reports the scale factor 1. *)
Theorem FitPrintParamsToPage_idempotent pp t :
  let fitted_once := snd (FitPrintParamsToPage pp t) in
  FitPrintParamsToPage pp fitted_once = (Double.one, fitted_once).
Proof.
  cbv zeta. unfold FitPrintParamsToPage at 1.
  rewrite FitPrintParamsToPage_page_size.
  replace (gfx.Size_eqb _ _) with true; [reflexivity|].
  symmetry. now apply Size_eqb_eq.
Qed.

(** X6.  [FitPrintParamsToPage] changes the geometry of the parameters to
    fit and nothing else: the result has the page size of the page
    parameters, and the printable area and all the settings that are not
    geometry of the parameters to fit. *)
Theorem FitPrintParamsToPage_keeps_settings pp t :
  let r := snd (FitPrintParamsToPage pp t) in
  page_size r = page_size pp /\
  printable_area r = printable_area t /\ same_settings r t.
Proof.
  cbv zeta. split; [apply FitPrintParamsToPage_page_size|].
  apply FitPrintParamsToPage_settings_aux.
Qed.

(** X7.  [EnsureOrientationMatches] does what its name says for every page
    that is not square: the result is in landscape exactly when the
    parameters of the style are. *)
Theorem EnsureOrientationMatches_ensures css p :
  gfx.width (page_size p) <> gfx.height (page_size p) ->
  landscape (EnsureOrientationMatches css p) = landscape css.
Proof.
  intros Q. rewrite EnsureOrientationMatches_swaps.
  destruct (Bool.eqb (landscape p) (landscape css)) eqn:E.
  - now apply eqb_prop in E.
  - rewrite (landscape_swapped p Q).
    destruct (landscape p), (landscape css); try discriminate; reflexivity.
Qed.

Lemma IsEmpty_flipped s : gfx.IsEmpty (flipped s) = gfx.IsEmpty s.
Proof.
  unfold gfx.IsEmpty. rewrite width_flipped, height_flipped. apply orb_comm.
Qed.

(** X8.  [EnsureOrientationMatches] keeps validity: its result passes
    [PrintMsg_Print_Params_IsValid] exactly when its argument does, rotated
    or not. *)
Theorem EnsureOrientationMatches_keeps_validity css p :
  PrintMsg_Print_Params_IsValid (EnsureOrientationMatches css p)
  = PrintMsg_Print_Params_IsValid p.
Proof.
  rewrite EnsureOrientationMatches_swaps.
  destruct (Bool.eqb _ _); [reflexivity|].
  unfold PrintMsg_Print_Params_IsValid, gfx.Rect_IsEmpty.
  cbn [swapped content_size page_size printable_area gfx.rect_size
       document_cookie desired_dpi max_shrink min_shrink dpi margin_top
       margin_left].
  now rewrite !IsEmpty_flipped.
Qed.

Lemma EnsureOrientationMatches_cases css p :
  EnsureOrientationMatches css p = p \/
  EnsureOrientationMatches css p = swapped p.
Proof.
  rewrite EnsureOrientationMatches_swaps. destruct (Bool.eqb _ _); auto.
Qed.

Lemma EnsureOrientationMatches_settings css p :
  same_settings (EnsureOrientationMatches css p) p.
Proof.
  destruct (EnsureOrientationMatches_cases css p) as [-> | ->]; repeat split.
Qed.

(** X9.  With the margins of the style ignored and no fitting to the page,
    [CalculatePrintParamsForCss] returns no scale factor, the page size of
    the style and the top and left margins of the default settings (rotated
    to match the style); the right and bottom margins of the default
    settings are kept too whenever the margins fit within the page of the
    style. *)
Theorem CalculatePrintParamsForCss_ignoring_margins frame page_index pp r sf :
  CalculatePrintParamsForCss platform frame page_index pp true false
    = Some (Done (r, sf)) ->
  exists css,
    GetCssPrintParams platform frame page_index pp = Some (Done css) /\
    let base := EnsureOrientationMatches css pp in
    sf = None /\
    page_size r = page_size css /\
    margin_top r = margin_top base /\ margin_left r = margin_left base /\
    (margin_left base + margin_right base <= gfx.width (page_size css) ->
     margin_right r = margin_right base) /\
    (margin_top base + margin_bottom base <= gfx.height (page_size css) ->
     margin_bottom r = margin_bottom base).
Proof.
  unfold CalculatePrintParamsForCss.
  destruct (GetCssPrintParams _ _ _ _) as [[css|]|]; try discriminate.
  cbn [andb]. intros [= <- <-]. exists css. split; [reflexivity|].
  cbv zeta. split; [reflexivity|]. split; [reflexivity|].
  split; [reflexivity|]. split; [reflexivity|].
  unfold margin_right, margin_bottom.
  cbn [page_size content_size margin_left margin_top set_content_size
       set_margin_left set_margin_top].
  rewrite width_mkSize, height_mkSize. split; intros; lia.
Qed.

(** X10.  With the margins of the style ignored and fitting to the page,
    the style decides the orientation and nothing else:
    [CalculatePrintParamsForCss] returns the default settings unchanged or
    rotated by a quarter turn, and no scale factor. *)
Theorem CalculatePrintParamsForCss_ignoring_style frame page_index pp r sf :
  CalculatePrintParamsForCss platform frame page_index pp true true
    = Some (Done (r, sf)) ->
  sf = None /\ (r = pp \/ r = swapped pp).
Proof.
  unfold CalculatePrintParamsForCss.
  destruct (GetCssPrintParams _ _ _ _) as [[css|]|]; try discriminate.
  cbn [andb]. intros [= <- <-]. split; [reflexivity|].
  apply EnsureOrientationMatches_cases.
Qed.

Lemma CalculatePrintParamsForCss_page_size_aux frame page_index pp icm r sf :
  CalculatePrintParamsForCss platform frame page_index pp icm true
    = Some (Done (r, sf)) ->
  page_size r = page_size pp \/ page_size r = flipped (page_size pp).
Proof.
  unfold CalculatePrintParamsForCss.
  destruct (GetCssPrintParams _ _ _ _) as [[css|]|]; try discriminate.
  assert (C : page_size (EnsureOrientationMatches css pp) = page_size pp \/
              page_size (EnsureOrientationMatches css pp)
              = flipped (page_size pp)).
  { destruct (EnsureOrientationMatches_cases css pp) as [-> | ->]; auto. }
  destruct icm; cbn [andb].
  - now intros [= <- _].
  - destruct (FitPrintParamsToPage _ _) as [f t] eqn:F.
    intros [= <- _].
    change t with (snd (f, t)). rewrite <- F, FitPrintParamsToPage_page_size.
    exact C.
Qed.

Lemma layout_closure_exists frame page_index pp icm ftp :
  PrintMsg_Print_Params_IsValid pp = true ->
  GetDPI platform pp = kPointsPerInch ->
  exists r sf,
    CalculatePrintParamsForCss platform frame page_index pp icm ftp
      = Some (Done (r, sf)) /\
    GetDPI platform r = kPointsPerInch.
Proof.
  intros V D.
  assert (exists r sf,
    CalculatePrintParamsForCss platform frame page_index pp icm ftp
      = Some (Done (r, sf))) as (r & sf & E).
  { unfold CalculatePrintParamsForCss.
    destruct (GetCssPrintParams_at_points platform frame page_index pp V D)
      as [c ->].
    destruct (icm && ftp); [eauto|].
    destruct ftp; [|eauto].
    destruct (FitPrintParamsToPage _ _); eauto. }
  exists r, sf. split; [exact E|].
  rewrite <- D. apply GetDPI_ext.
  eapply CalculatePrintParamsForCss_dpi; eassumption.
Qed.

(** X11.  When fitting to the page, the page size that
    [CalculatePrintParamsForCss] returns is that of the default settings, as
    given or rotated by a quarter turn, whatever size the style asks for;
    a scale factor is written exactly when the margins of the style are not
    ignored. *)
Theorem CalculatePrintParamsForCss_fits_the_page frame page_index pp
    ignore_css_margins r sf :
  CalculatePrintParamsForCss platform frame page_index pp ignore_css_margins
    true = Some (Done (r, sf)) ->
  (page_size r = page_size pp \/ page_size r = flipped (page_size pp)) /\
  (sf = None <-> ignore_css_margins = true).
Proof.
  intros H. split; [now apply CalculatePrintParamsForCss_page_size_aux in H|].
  revert H. unfold CalculatePrintParamsForCss.
  destruct (GetCssPrintParams _ _ _ _) as [[css|]|]; try discriminate.
  destruct ignore_css_margins; cbn [andb].
  - now intros [= _ <-].
  - destruct (FitPrintParamsToPage _ _) as [f t].
    intros [= _ <-]. split; discriminate.
Qed.

(** X12.  In all four modes [CalculatePrintParamsForCss] returns the
    resolution, shrink factors, desired resolution, document cookie,
    selection flag, scaling option and background flag of the default
    settings, and a printable area with their origin. *)
Theorem CalculatePrintParamsForCss_keeps_settings frame page_index pp
    ignore_css_margins fit_to_page r sf :
  CalculatePrintParamsForCss platform frame page_index pp ignore_css_margins
    fit_to_page = Some (Done (r, sf)) ->
  same_settings r pp /\
  gfx.rect_x (printable_area r) = gfx.rect_x (printable_area pp) /\
  gfx.rect_y (printable_area r) = gfx.rect_y (printable_area pp).
Proof.
  unfold CalculatePrintParamsForCss.
  destruct (GetCssPrintParams _ _ _ _) as [[css|]|] eqn:G; try discriminate.
  apply GetCssPrintParams_Done in G as (px & -> & _).
  set (css := css_params_of_pixels platform pp px).
  assert (A : printable_area css = printable_area pp) by reflexivity.
  assert (S : same_settings css pp) by (repeat split).
  clearbody css.
  destruct (ignore_css_margins && fit_to_page).
  - intros [= <- _].
    destruct (EnsureOrientationMatches_cases css pp) as [-> | ->];
      repeat split.
  - destruct fit_to_page.
    + destruct (FitPrintParamsToPage _ _) as [f t] eqn:F.
      intros [= <- _].
      match type of F with
      | FitPrintParamsToPage ?a ?b = _ =>
          pose proof (FitPrintParamsToPage_settings_aux a b) as [A' S'];
          assert (B : printable_area b = printable_area css /\
                      same_settings b css)
            by (destruct ignore_css_margins; repeat split)
      end.
      rewrite F in A', S'. cbn [snd] in A', S'. destruct B as [B1 B2].
      split; [eauto using same_settings_trans|].
      rewrite A', B1, A. split; reflexivity.
    + intros [= <- _].
      destruct ignore_css_margins; cbn [printable_area set_content_size
        set_margin_left set_margin_top]; rewrite ?A;
        (split; [exact S|split; reflexivity]).
Qed.

(** X13.  [ComputePageLayoutInPointsForCss] composed with
    [GetPageSizeAndContentAreaFromPageLayout]: at the resolution of points,
    for valid settings that scale to the printable area, the layout is
    computed, and the page size read back from it is the page size of the
    settings, as given or rotated by a quarter turn. *)
Theorem page_layout_in_points_fits_the_page frame page_index pp icm :
  PrintMsg_Print_Params_IsValid pp = true ->
  GetDPI platform pp = kPointsPerInch ->
  print_scaling_option pp = WebPrintScalingOptionFitToPrintableArea ->
  exists l sf,
    ComputePageLayoutInPointsForCss platform frame page_index pp icm
      = Some (Done (l, sf)) /\
    let size := fst (GetPageSizeAndContentAreaFromPageLayout l) in
    size = page_size pp \/ size = flipped (page_size pp).
Proof.
  intros V D F. unfold ComputePageLayoutInPointsForCss. rewrite F.
  cbn [WebPrintScalingOption_eqb].
  destruct (layout_closure_exists frame page_index pp icm true V D)
    as (r & sf & E & Dr).
  rewrite E. exists (CalculatePageLayoutFromPrintParams platform r), sf.
  split; [reflexivity|].
  destruct (layout_closes_at_points platform r Dr) as [W H].
  cbv zeta. unfold GetPageSizeAndContentAreaFromPageLayout. cbn [fst].
  replace (_ + _ + _) with (gfx.width (page_size r)) by lia.
  replace (_ + _ + _) with (gfx.height (page_size r)) by lia.
  rewrite mkSize_width_height.
  now apply CalculatePrintParamsForCss_page_size_aux in E.
Qed.

End GeometryMore.

(** X14.  When the desired resolution is the resolution of the device,
    [ComputeWebKitPrintParamsInDesiredDpi] converts nothing: the engine is
    given the content size, the paper size and the printable area of the
    settings as they are. *)
Theorem ComputeWebKitPrintParamsInDesiredDpi_same_dpi platform pp wp :
  0 < GetDPI platform pp ->
  desired_dpi pp = GetDPI platform pp ->
  let r := ComputeWebKitPrintParamsInDesiredDpi platform pp wp in
  printerDPI r = desired_dpi pp /\
  wr_width (printContentArea r) = gfx.width (content_size pp) /\
  wr_height (printContentArea r) = gfx.height (content_size pp) /\
  ws_width (paperSize r) = gfx.width (page_size pp) /\
  ws_height (paperSize r) = gfx.height (page_size pp) /\
  wr_x (printableArea r) = gfx.rect_x (printable_area pp) /\
  wr_y (printableArea r) = gfx.rect_y (printable_area pp) /\
  wr_width (printableArea r) = gfx.rect_width (printable_area pp) /\
  wr_height (printableArea r) = gfx.rect_height (printable_area pp).
Proof.
  intros P E. unfold ComputeWebKitPrintParamsInDesiredDpi. cbv zeta.
  cbn [printerDPI printContentArea paperSize printableArea wr_x wr_y wr_width
       wr_height ws_width ws_height].
  rewrite E, !ConvertUnit_same by exact P. repeat split.
Qed.

(** *** The facts above at concrete inputs *)

Lemma GetCssPrintParams_keeps_settings_witness :
  exists r,
    GetCssPrintParams mac_platform (Some plain_frame) 0 a4_300dpi
      = Some (Done r) /\
    printable_area r = printable_area a4_300dpi /\ same_settings r a4_300dpi.
Proof.
  eexists. split; [vm_compute; reflexivity|].
  apply (GetCssPrintParams_keeps_settings mac_platform (Some plain_frame) 0
           a4_300dpi).
  vm_compute; reflexivity.
Defined.

Lemma GetCssPrintParams_keeps_page_size_witness :
  exists r,
    GetCssPrintParams other_platform (Some plain_frame) 0 a4_300dpi
      = Some (Done r) /\
    page_size r = page_size a4_300dpi.
Proof.
  eexists. split; [vm_compute; reflexivity|].
  apply (GetCssPrintParams_keeps_page_size other_platform (Some plain_frame)
           0 a4_300dpi).
  - intros p. reflexivity.
  - vm_compute; reflexivity.
Defined.

Lemma GetCssPrintParams_round_trip_at_points_witness :
  PrintMsg_Print_Params_IsValid letter_portrait = true /\
  GetDPI mac_platform letter_portrait = kPointsPerInch /\
  no_page_style (Some plain_frame) 0 /\
  exists r,
    GetCssPrintParams mac_platform (Some plain_frame) 0 letter_portrait
      = Some (Done r) /\
    page_size r = page_size letter_portrait /\
    margin_top r = margin_top letter_portrait /\
    margin_left r = margin_left letter_portrait /\
    Z.abs (gfx.width (content_size r)
           - gfx.width (content_size letter_portrait)) <= 1 /\
    Z.abs (gfx.height (content_size r)
           - gfx.height (content_size letter_portrait)) <= 1.
Proof.
  split; [reflexivity|]. split; [reflexivity|].
  split; [intros p; reflexivity|].
  apply (GetCssPrintParams_round_trip_at_points mac_platform
           (Some plain_frame) 0 letter_portrait);
    [reflexivity|reflexivity|intros p; reflexivity].
Defined.

Lemma EnsureOrientationMatches_ensures_witness :
  gfx.width (page_size letter_portrait)
    <> gfx.height (page_size letter_portrait) /\
  landscape (EnsureOrientationMatches letter_landscape letter_portrait)
    = landscape letter_landscape.
Proof.
  split; [vm_compute; discriminate|].
  apply (EnsureOrientationMatches_ensures letter_landscape letter_portrait).
  vm_compute; discriminate.
Defined.

Lemma CalculatePrintParamsForCss_ignoring_margins_witness :
  exists r sf,
    CalculatePrintParamsForCss mac_platform (Some plain_frame) 0
      letter_portrait true false = Some (Done (r, sf)) /\
    exists css,
      GetCssPrintParams mac_platform (Some plain_frame) 0 letter_portrait
        = Some (Done css) /\
      let base := EnsureOrientationMatches css letter_portrait in
      sf = None /\
      page_size r = page_size css /\
      margin_top r = margin_top base /\ margin_left r = margin_left base /\
      (margin_left base + margin_right base <= gfx.width (page_size css) ->
       margin_right r = margin_right base) /\
      (margin_top base + margin_bottom base <= gfx.height (page_size css) ->
       margin_bottom r = margin_bottom base).
Proof.
  eexists _, _. split; [vm_compute; reflexivity|].
  apply (CalculatePrintParamsForCss_ignoring_margins mac_platform
           (Some plain_frame) 0 letter_portrait).
  vm_compute; reflexivity.
Defined.

Lemma CalculatePrintParamsForCss_ignoring_style_witness :
  exists r sf,
    CalculatePrintParamsForCss mac_platform (Some plain_frame) 0
      letter_landscape true true = Some (Done (r, sf)) /\
    sf = None /\ (r = letter_landscape \/ r = swapped letter_landscape).
Proof.
  eexists _, _. split; [vm_compute; reflexivity|].
  apply (CalculatePrintParamsForCss_ignoring_style mac_platform
           (Some plain_frame) 0 letter_landscape).
  vm_compute; reflexivity.
Defined.

Lemma CalculatePrintParamsForCss_fits_the_page_witness :
  exists r sf,
    CalculatePrintParamsForCss other_platform (Some plain_frame) 0
      a4_300dpi false true = Some (Done (r, sf)) /\
    (page_size r = page_size a4_300dpi \/
     page_size r = flipped (page_size a4_300dpi)) /\
    (sf = None <-> false = true).
Proof.
  eexists _, _. split; [vm_compute; reflexivity|].
  apply (CalculatePrintParamsForCss_fits_the_page other_platform
           (Some plain_frame) 0 a4_300dpi false).
  vm_compute; reflexivity.
Defined.

Lemma CalculatePrintParamsForCss_keeps_settings_witness :
  exists r sf,
    CalculatePrintParamsForCss other_platform (Some plain_frame) 0
      a4_300dpi false true = Some (Done (r, sf)) /\
    same_settings r a4_300dpi /\
    gfx.rect_x (printable_area r) = gfx.rect_x (printable_area a4_300dpi) /\
    gfx.rect_y (printable_area r) = gfx.rect_y (printable_area a4_300dpi).
Proof.
  eexists _, _. split; [vm_compute; reflexivity|].
  eapply (CalculatePrintParamsForCss_keeps_settings other_platform
            (Some plain_frame) 0 a4_300dpi false true).
  vm_compute; reflexivity.
Defined.

Lemma page_layout_in_points_fits_the_page_witness :
  let pp := set_print_scaling_option letter_portrait
              WebPrintScalingOptionFitToPrintableArea in
  PrintMsg_Print_Params_IsValid pp = true /\
  GetDPI mac_platform pp = kPointsPerInch /\
  exists l sf,
    ComputePageLayoutInPointsForCss mac_platform (Some plain_frame) 0 pp false
      = Some (Done (l, sf)) /\
    let size := fst (GetPageSizeAndContentAreaFromPageLayout l) in
    size = page_size pp \/ size = flipped (page_size pp).
Proof.
  intros pp. split; [reflexivity|]. split; [reflexivity|].
  apply (page_layout_in_points_fits_the_page mac_platform (Some plain_frame)
           0 pp false); reflexivity.
Defined.

Lemma ComputeWebKitPrintParamsInDesiredDpi_same_dpi_witness :
  0 < GetDPI mac_platform letter_portrait /\
  desired_dpi letter_portrait = GetDPI mac_platform letter_portrait /\
  let r := ComputeWebKitPrintParamsInDesiredDpi mac_platform letter_portrait
             WebPrintParams_default in
  printerDPI r = desired_dpi letter_portrait /\
  wr_width (printContentArea r) = gfx.width (content_size letter_portrait) /\
  wr_height (printContentArea r) = gfx.height (content_size letter_portrait) /\
  ws_width (paperSize r) = gfx.width (page_size letter_portrait) /\
  ws_height (paperSize r) = gfx.height (page_size letter_portrait) /\
  wr_x (printableArea r) = gfx.rect_x (printable_area letter_portrait) /\
  wr_y (printableArea r) = gfx.rect_y (printable_area letter_portrait) /\
  wr_width (printableArea r)
    = gfx.rect_width (printable_area letter_portrait) /\
  wr_height (printableArea r)
    = gfx.rect_height (printable_area letter_portrait).
Proof.
  split; [reflexivity|]. split; [reflexivity|].
  apply (ComputeWebKitPrintParamsInDesiredDpi_same_dpi mac_platform
           letter_portrait WebPrintParams_default); reflexivity.
Defined.

(** ** More on the session *)


Section SessionMore.

Variable platform : Platform.
Variable env : Environment.
Variable PrintPagesNative_other : option WebLocalFrame -> Z -> M bool.

(** [prep_frame_view_.reset()] returns, with the pointer null. *)
Lemma reset_prep_frame_view_run s :
  exists s' evs,
    reset_prep_frame_view env s = Returned tt s' /\
    self s' = set_prep_frame_view_ (self s) None /\
    history s' = history s ++ evs /\
    forallb preparatory evs = true /\
    (prep_frame_view_ (self s) = None -> evs = []).
Proof.
  unfold reset_prep_frame_view.
  rewrite (bind_run _ _ s (self s) s) by reflexivity.
  rewrite (bind_run _ _ s tt {| self := set_prep_frame_view_ (self s) None;
                                history := history s |}) by reflexivity.
  destruct (prep_frame_view_ (self s)) as [p|].
  - destruct (PrepareFrameAndViewForPrint_delete_returns env p
                {| self := set_prep_frame_view_ (self s) None;
                   history := history s |})
      as ([] & s' & E & S & evs & H & F).
    exists s', evs. rewrite E. repeat split; try assumption. discriminate.
  - eexists _, []. cbn. rewrite app_nil_r. repeat split.
Qed.

(** The run of [DidFinishPrinting]: the entry, the failure notice if any,
    and the events of the surface going away. *)
Lemma DidFinishPrinting_run result s :
  exists s' evs,
    DidFinishPrinting env result s = Returned tt s' /\
    self s' = idle (self s) /\
    history s' = history s ++ DidFinishPrinting_entered result
                   :: failure_notice result (self s) ++ evs /\
    forallb preparatory evs = true /\
    (prep_frame_view_ (self s) = None -> evs = []).
Proof.
  unfold DidFinishPrinting.
  set (s0 := {| self := self s;
                history := history s ++ [DidFinishPrinting_entered result] |}).
  rewrite (bind_run _ _ s tt s0) by reflexivity.
  set (s1 := {| self := self s;
                history := history s0 ++ failure_notice result (self s) |}).
  rewrite (bind_run _ _ s0 tt s1).
  2:{ subst s1. unfold failure_notice.
      destruct result; try (unfold ret; now rewrite app_nil_r).
      unfold bind, get. cbn [self s0].
      destruct (notify_browser_of_print_failure_ (self s));
        [destruct (print_pages_params_ (self s))|];
        try (unfold ret; now rewrite app_nil_r).
      reflexivity. }
  destruct (reset_prep_frame_view_run s1) as (s2 & evs & E & S & H & F & N).
  rewrite (bind_run _ _ _ _ _ E).
  eexists _, evs. split; [reflexivity|]. cbn. rewrite S, H. subst s1 s0. cbn.
  rewrite <- !app_assoc. repeat split; assumption.
Qed.

(** X15.  [DidFinishPrinting] always returns, to a controller with no
    surface, no settings and the failure notice armed again, and it tells
    the host that printing failed (with cookie [c]) in one case only: the
    result is [FAIL_PRINT], the notice was armed, and the session had
    settings, whose document cookie is [c]. *)
Theorem DidFinishPrinting_notifies_of_failure result s c :
  exists s' evs,
    DidFinishPrinting env result s = Returned tt s' /\
    prep_frame_view_ (self s') = None /\
    print_pages_params_ (self s') = None /\
    notify_browser_of_print_failure_ (self s') = true /\
    same_flags (self s) (self s') /\
    ignore_css_margins_ (self s') = ignore_css_margins_ (self s) /\
    history s' = history s ++ evs /\
    (In (Send (PrintHostMsg_PrintingFailed c)) evs <->
     result = FAIL_PRINT /\
     notify_browser_of_print_failure_ (self s) = true /\
     exists pp, print_pages_params_ (self s) = Some pp /\
                c = document_cookie (params pp)).
Proof.
  destruct (DidFinishPrinting_run result s) as (s' & evs & E & S & H & F & _).
  eexists s', _. split; [exact E|]. rewrite S.
  do 5 (split; [repeat split|]). split; [exact H|].
  split.
  - intros [I|I]; [discriminate|].
    apply in_app_or in I as [I|I].
    + unfold failure_notice in I.
      destruct result; try contradiction.
      destruct (notify_browser_of_print_failure_ (self s)); try contradiction.
      destruct (print_pages_params_ (self s)) as [pp|]; try contradiction.
      destruct I as [I|[]]. injection I as <-. eauto.
    + rewrite forallb_forall in F. apply F in I. discriminate.
  - intros (-> & N & pp & P & ->). right. apply in_or_app. left.
    unfold failure_notice. rewrite N, P. now left.
Qed.

(** X16.  [OnPrintingDone] never reports a failure to the host, whether
    printing succeeded or not: it disarms the failure notice before it
    calls [DidFinishPrinting], so that after the entry no page is rendered
    and neither a page count nor a failure is sent; the controller is left
    idle. *)
Theorem OnPrintingDone_is_silent success s :
  exists s' evs,
    OnPrintingDone env success s = Returned tt s' /\
    self s' = idle (self s) /\
    history s' = history s ++
                 DidFinishPrinting_entered (if success then OK else FAIL_PRINT)
                 :: evs /\
    forallb preparatory evs = true.
Proof.
  unfold OnPrintingDone.
  set (s0 := {| self := set_notify_browser_of_print_failure_ (self s) false;
                history := history s |}).
  rewrite (bind_run _ _ s tt s0) by reflexivity.
  destruct (DidFinishPrinting_run (if success then OK else FAIL_PRINT) s0)
    as (s' & evs & E & S & H & F & _).
  exists s', evs. split; [exact E|]. split; [rewrite S; reflexivity|].
  split; [|exact F]. rewrite H. subst s0. cbn [history self].
  unfold failure_notice. cbn [notify_browser_of_print_failure_
    set_notify_browser_of_print_failure_].
  now destruct success.
Qed.

Lemma CalculateNumberOfPages_invalid_run frame node s :
  let reply :=
    reply_GetDefaultPrintSettings env
      (history s ++ [Send PrintHostMsg_GetDefaultPrintSettings]) in
  PrintMsg_Print_Params_IsValid reply = false ->
  exists scaling,
    CalculateNumberOfPages platform env frame node s
    = Returned None
        {| self :=
             set_notify_browser_of_print_failure_
               (set_print_pages_params_
                  (set_ignore_css_margins_ (self s) false)
                  (Some {| params := set_print_scaling_option reply scaling;
                           pages := [] |}))
               false;
           history := history s ++
             [Send PrintHostMsg_GetDefaultPrintSettings;
              Send PrintHostMsg_ShowInvalidPrinterSettingsError] |}.
Proof.
  intros reply V. unfold CalculateNumberOfPages.
  destruct (PrintingNodeOrPdfFrame_returns env frame node s)
    as (b & s0 & E0 & S0 & _).
  assert (s0 = s) as ->.
  { unfold PrintingNodeOrPdfFrame, bind, past, ret in E0.
    destruct (negb (isNull node)); now injection E0. }
  rewrite (bind_run _ _ _ _ _ E0).
  rewrite (bind_run _ _ _ _ _ (InitPrintSettings_run env (negb b) s)).
  fold reply. rewrite V. cbn [negb].
  eexists. unfold bind, modify, emit, ret. cbn [self history].
  now rewrite <- app_assoc.
Qed.

(** X17.  A print request whose default settings are invalid ends at once:
    the host is asked for the settings, told to show the error for invalid
    printer settings, and the session is closed with [FAIL_PRINT_INIT];
    the engine is not touched, no failure notice is sent, and the controller
    is left idle, with the margins of the style no longer ignored. *)
Theorem Print_with_invalid_settings frame node silent print_background s :
  prep_frame_view_ (self s) = None ->
  PrintMsg_Print_Params_IsValid
    (reply_GetDefaultPrintSettings env
       (history s ++ [Send PrintHostMsg_GetDefaultPrintSettings])) = false ->
  Print platform env PrintPagesNative_other frame node silent print_background
        s
  = Returned tt
      {| self := idle (set_ignore_css_margins_ (self s) false);
         history := history s ++
           [Send PrintHostMsg_GetDefaultPrintSettings;
            Send PrintHostMsg_ShowInvalidPrinterSettingsError;
            DidFinishPrinting_entered FAIL_PRINT_INIT] |}.
Proof.
  intros P V. unfold Print.
  rewrite (bind_run _ _ s (self s) s) by reflexivity. rewrite P.
  rewrite (bind_run _ _ s {| view_ := Some (frame_view env (history s) frame);
                             frame_ := Some frame |} s) by reflexivity.
  destruct (CalculateNumberOfPages_invalid_run frame node s V) as (sc & E).
  rewrite (bind_run _ _ _ _ _ E).
  match goal with |- DidFinishPrinting _ _ ?st = _ =>
    destruct (DidFinishPrinting_run FAIL_PRINT_INIT st)
      as (s' & evs & E' & S & H' & _ & Nil)
  end.
  rewrite E'. f_equal. destruct s' as [h' hist']. cbn in S, H', Nil.
  rewrite (Nil P) in H'. rewrite S, H', <- app_assoc.
  reflexivity.
Qed.

(** X18.  When [CalculateNumberOfPages] gives a page count, the default
    settings that the host replied with are valid and have become the
    settings of the session, but for the scaling option, with an empty list
    of pages; the margins of the style are no longer ignored; and
    meanwhile no page was rendered, neither a page count nor a failure was
    sent, and [DidFinishPrinting] was not entered. *)
Theorem CalculateNumberOfPages_installs_defaults frame node s n s1 :
  CalculateNumberOfPages platform env frame node s = Returned (Some n) s1 ->
  let reply :=
    reply_GetDefaultPrintSettings env
      (history s ++ [Send PrintHostMsg_GetDefaultPrintSettings]) in
  PrintMsg_Print_Params_IsValid reply = true /\
  (exists scaling,
     self s1 =
     set_print_pages_params_ (set_ignore_css_margins_ (self s) false)
       (Some {| params := set_print_scaling_option reply scaling;
                pages := [] |})) /\
  continues preparatory s s1.
Proof.
  unfold CalculateNumberOfPages. intros H.
  apply bind_Returned in H as (b & sa & Ha & H).
  destruct (PrintingNodeOrPdfFrame_returns env frame node s)
    as (b' & sa' & Ea & Sa & Ca).
  assert (sa' = s) as ->.
  { unfold PrintingNodeOrPdfFrame, bind, past, ret in Ea.
    destruct (negb (isNull node)); now injection Ea. }
  rewrite Ea in Ha. injection Ha as -> ->.
  apply bind_Returned in H as (ok & sb & Hb & H).
  rewrite InitPrintSettings_run in Hb. injection Hb as <- <-.
  cbv zeta.
  destruct (PrintMsg_Print_Params_IsValid _) eqn:V; [|discriminate].
  cbn [negb] in H.
  apply bind_Returned in H as (h & sc & Hc & H). injection Hc as <- <-.
  cbn [self print_pages_params_ set_print_pages_params_] in H.
  apply bind_Returned in H as (pp & sc & Hc & H). injection Hc as <- <-.
  apply bind_Returned in H as (p1 & sd & Hd & H).
  apply bind_Returned in H as (p2 & se & He & H).
  apply bind_Returned in H as ([] & sf & Hf & H).
  injection H as _ <-.
  match type of Hd with
  | PrepareFrameAndViewForPrint_new _ _ ?a ?b ?c ?d ?st = _ =>
      pose proof (PrepareFrameAndViewForPrint_new_always platform env a b c d
                    st) as Pd
  end.
  rewrite Hd in Pd.
  pose proof (StartPrinting_always env p1 sd) as Pe. rewrite He in Pe.
  destruct (PrepareFrameAndViewForPrint_delete_returns env p2 se)
    as ([] & sf' & Ef & Pf).
  rewrite Ef in Hf. injection Hf as ->.
  pose proof (prepares_trans _ _ _ (prepares_trans _ _ _ Pd Pe) Pf) as [S C].
  cbn [self history] in S, C.
  split; [reflexivity|]. split; [rewrite S; eauto|].
  eapply continues_trans; [|exact C].
  exists [Send PrintHostMsg_GetDefaultPrintSettings]. auto.
Qed.

(** X19.  A silent print request whose frame has left its view by the time
    the page count is known fails: nothing is rendered, the session is
    closed with [FAIL_PRINT], and the host is told that printing the
    document of the session failed. *)
Theorem Print_of_detached_frame frame node print_background s n s1 pp :
  prep_frame_view_ (self s) = None ->
  CalculateNumberOfPages platform env frame node s = Returned (Some n) s1 ->
  n <> 0 ->
  print_pages_params_ (self s1) = Some pp ->
  notify_browser_of_print_failure_ (self s1) = true ->
  view_has_frame env (history s1) (frame_view env (history s) frame) frame
    = false ->
  Print platform env PrintPagesNative_other frame node true print_background s
  = Returned tt
      {| self := idle (self s1);
         history := history s1 ++
           [DidFinishPrinting_entered FAIL_PRINT;
            Send (PrintHostMsg_PrintingFailed (document_cookie (params pp)))]
      |}.
Proof.
  intros P C N PP NF A.
  pose proof (CalculateNumberOfPages_returned _ _ _ _ _ _ _ C) as (P1 & _).
  unfold Print. rewrite (bind_run _ _ s (self s) s) by reflexivity.
  rewrite P.
  rewrite (bind_run _ _ s {| view_ := Some (frame_view env (history s) frame);
                             frame_ := Some frame |} s) by reflexivity.
  rewrite (bind_run _ _ _ _ _ C).
  replace (negb (int_to_bool n)) with false
    by (unfold int_to_bool; destruct (Z.eqb_spec n 0);
        [contradiction|reflexivity]).
  cbn [negb]. rewrite (bind_run _ _ s1 true s1) by reflexivity.
  cbn [negb]. rewrite (bind_run _ _ s1 (self s1) s1) by reflexivity.
  rewrite PP. rewrite (bind_run _ _ s1 pp s1) by reflexivity.
  set (s2 := {| self := set_print_pages_params_ (self s1)
                  (Some {| params := set_should_print_backgrounds (params pp)
                                       print_background;
                           pages := pages pp |});
                history := history s1 |}).
  rewrite (bind_run _ _ s1 tt s2) by reflexivity.
  rewrite (bind_run _ _ s2 None s2).
  2:{ unfold FrameReference_GetFrame. cbn [view_ frame_].
      unfold bind, past, ret. cbn [history s2]. now rewrite A. }
  rewrite (bind_run _ _ s2 false s2) by reflexivity.
  cbn [negb].
  destruct (DidFinishPrinting_run FAIL_PRINT s2)
    as (s' & evs & E' & S & H' & _ & Nil).
  rewrite E'. f_equal. destruct s' as [h' hist']. cbn in S, H', Nil.
  rewrite P1, P in Nil. rewrite (Nil eq_refl) in H'.
  rewrite S, H'. unfold failure_notice. cbn. rewrite NF. reflexivity.
Qed.


Lemma print_all_pages_run n i pp frame s :
  print_all_pages n i pp frame s =
  Returned tt
    {| self := self s;
       history := history s ++ render_events pp frame (pages_from n i) |}.
Proof.
  revert i s. induction n as [|n IH]; intros i s; cbn.
  - unfold ret. rewrite app_nil_r. now destruct s.
  - unfold bind, emit. rewrite IH. cbn. now rewrite <- app_assoc.
Qed.

Lemma In_pages_from n i p :
  In p (pages_from n i) <-> i <= p < i + Z.of_nat n.
Proof.
  revert i. induction n as [|n IH]; intros i; cbn [pages_from In].
  - lia.
  - rewrite IH. lia.
Qed.

(** X21.  With an empty list of requested pages [PrintPagesNative] renders
    every page of the document once, in increasing order: the pages 0 to
    [page_count - 1], and none when the page count is not positive. *)
Theorem PrintPagesNative_mac_all_pages frame page_count s pp :
  print_pages_params_ (self s) = Some pp ->
  pages pp = [] ->
  exists evs,
    PrintPagesNative_mac frame page_count s
      = Returned true {| self := self s; history := history s ++ evs |} /\
    rendered_pages evs = pages_from (Z.to_nat page_count) 0 /\
    (forall p, In p (rendered_pages evs) <-> 0 <= p < page_count) /\
    StronglySorted Z.lt (rendered_pages evs).
Proof.
  intros P E.
  exists (render_events (params pp) frame (pages_from (Z.to_nat page_count) 0)).
  rewrite rendered_pages_render_events.
  split; [|split; [reflexivity|split]].
  - unfold PrintPagesNative_mac, bind, get. rewrite P. cbn [deref ret].
    rewrite E, print_all_pages_run. reflexivity.
  - intros p. rewrite In_pages_from. lia.
  - generalize 0. induction (Z.to_nat page_count) as [|k IH]; intros i; cbn.
    + constructor.
    + constructor; [apply IH|].
      apply Forall_forall. intros p I. apply In_pages_from in I. lia.
Qed.

Lemma Forall_take_while {A} (f : A -> bool) l :
  Forall (fun x => f x = true) (take_while f l).
Proof.
  induction l as [|x l IH]; cbn; [constructor|].
  destruct (f x) eqn:E; constructor; assumption.
Qed.

(** X22.  Whatever pages were requested, [PrintPagesNative] only renders,
    changes nothing of the controller, and never renders a page at or
    beyond the page count. *)
Theorem PrintPagesNative_mac_stays_below_page_count frame page_count s pp :
  print_pages_params_ (self s) = Some pp ->
  exists evs,
    PrintPagesNative_mac frame page_count s
      = Returned true {| self := self s; history := history s ++ evs |} /\
    forallb is_rendering evs = true /\
    Forall (fun p => p < page_count) (rendered_pages evs).
Proof.
  intros P.
  assert (R : forall l, forallb is_rendering (render_events (params pp) frame l)
                        = true)
    by (induction l; cbn; auto).
  destruct (pages pp) as [|page rest] eqn:E.
  - exists (render_events (params pp) frame
              (pages_from (Z.to_nat page_count) 0)).
    rewrite rendered_pages_render_events. split; [|split; [apply R|]].
    + unfold PrintPagesNative_mac, bind, get. rewrite P. cbn [deref ret].
      rewrite E, print_all_pages_run. reflexivity.
    + apply Forall_forall. intros p I. apply In_pages_from in I. lia.
  - exists (render_events (params pp) frame
              (take_while (fun n => n <? page_count) (pages pp))).
    rewrite rendered_pages_render_events. split; [|split; [apply R|]].
    + unfold PrintPagesNative_mac, bind, get. rewrite P. cbn [deref ret].
      rewrite E, print_requested_pages_run. reflexivity.
    + eapply Forall_impl; [|apply Forall_take_while].
      intros p. cbn. lia.
Qed.

(** X23.  [StartPrinting] followed by [FinishPrinting] on a surface that
    does not own its view leaves the controller as it was and the view as
    it found it: the layout is begun and ended once, background printing is
    switched off again, and the view gets back the size and the scroll
    offset it had before; the reference to the frame is dropped. *)
Theorem StartPrinting_FinishPrinting_restores p s v f :
  view_ (prep_frame_ p) = Some v ->
  frame_ (prep_frame_ p) = Some f ->
  owns_web_view_ p = false ->
  (forall h, view_has_frame env h v f = true) ->
  (forall h, frame_view env h f = v) ->
  (forall h, view_has_mainFrame env h v = true) ->
  exists p1 s1 p2 s2 layout_size,
    StartPrinting env p s = Returned p1 s1 /\
    FinishPrinting env p1 s1 = Returned p2 s2 /\
    self s2 = self s /\
    history s2 = history s ++
      [resize v layout_size;
       setShouldPrintBackgrounds v (should_print_backgrounds_ p);
       printBegin f (web_print_params_ p) (node_to_print_ p);
       printEnd f;
       setShouldPrintBackgrounds v false;
       resize v (view_size env (history s) v);
       setScrollOffset v (view_scrollOffset env (history s) v)] /\
    is_printing_started_ p1 = true /\
    is_printing_started_ p2 = false /\
    frame_ (prep_frame_ p2) = None.
Proof.
  intros V F O A W MF.
  destruct p as [[pv pf] node owns wp pvs pso cnt rdy bg sel started].
  cbn in V, F, O. subst pv pf owns.
  eexists _, _, _, _, _. split.
  { unfold StartPrinting, ResizeForPrinting, Prepare_frame,
      FrameReference_GetFrame, bind, past, ret, emit, deref.
    repeat (progress
              (cbn -[Double.to_int Double.of_int PrimFloat.mul gfx.mkSize
                     gfx.width gfx.height];
               rewrite ?A, ?W, ?MF)).
    reflexivity. }
  split.
  { unfold FinishPrinting, RestoreSize, Prepare_frame,
      FrameReference_GetFrame, FrameReference_Reset, bind, past, ret, emit,
      deref.
    repeat (progress
              (cbn -[Double.to_int Double.of_int PrimFloat.mul gfx.mkSize
                     gfx.width gfx.height];
               rewrite ?A, ?W, ?MF)).
    reflexivity. }
  cbn -[Double.to_int Double.of_int PrimFloat.mul gfx.mkSize gfx.width
        gfx.height].
  rewrite <- !app_assoc. repeat split.
Qed.

(** X24.  [FinishPrinting] is idempotent: called again on what it returned
    it does nothing, so that the destructor after an explicit call touches
    neither the engine nor the view. *)
Theorem FinishPrinting_idempotent p s p' s' :
  FinishPrinting env p s = Returned p' s' ->
  FinishPrinting env p' s' = Returned p' s'.
Proof.
  unfold FinishPrinting at 1. intros H.
  apply bind_Returned in H as (f & s0 & _ & H).
  apply bind_Returned in H as (q & s1 & _ & H).
  apply bind_Returned in H as (r & s2 & R & H).
  injection R as <- <-. injection H as <- <-.
  destruct s1 as [h hist]. reflexivity.
Qed.

Lemma OnFramePreparedForPrintPages_releases s s' :
  OnFramePreparedForPrintPages platform env PrintPagesNative_other s
    = Returned tt s' ->
  prep_frame_view_ (self s') = None.
Proof.
  unfold OnFramePreparedForPrintPages, FinishFramePrinting. intros H.
  apply bind_Returned in H as ([] & s1 & _ & H).
  destruct (reset_prep_frame_view_run s1) as (s2 & evs & E & S & _).
  rewrite E in H. injection H as <-. now rewrite S.
Qed.

(** X25.  [OnFramePreparedForPrintPages] is [PrintPages] and then the
    release of the surface: whenever [PrintPages] returns, so does it, with
    no surface left, and to what [PrintPages] did it adds no rendering, no
    page count or failure sent and no entry into [DidFinishPrinting]. *)
Theorem OnFramePreparedForPrintPages_frees_the_surface s s1 :
  PrintPages platform env PrintPagesNative_other s = Returned tt s1 ->
  exists s' evs,
    OnFramePreparedForPrintPages platform env PrintPagesNative_other s
      = Returned tt s' /\
    self s' = set_prep_frame_view_ (self s1) None /\
    history s' = history s1 ++ evs /\
    forallb preparatory evs = true.
Proof.
  intros P. unfold OnFramePreparedForPrintPages, FinishFramePrinting.
  rewrite (bind_run _ _ _ _ _ P).
  destruct (reset_prep_frame_view_run s1) as (s2 & evs & E & S & H & F & _).
  eauto 10.
Qed.


Lemma PrintPagesNative_mac_run frame page_count s pp :
  print_pages_params_ (self s) = Some pp ->
  PrintPagesNative_mac frame page_count s
  = Returned true
      {| self := self s;
         history := history s ++
           render_events (params pp) frame (pages_to_render page_count pp) |}.
Proof.
  intros P. unfold PrintPagesNative_mac, pages_to_render, bind, get.
  rewrite P. cbn [deref ret].
  destruct (pages pp) as [|page rest].
  - now rewrite print_all_pages_run.
  - now rewrite print_requested_pages_run.
Qed.

Lemma pages_to_render_below page_count pp :
  Forall (fun p => p < page_count) (pages_to_render page_count pp).
Proof.
  unfold pages_to_render. destruct (pages pp) as [|page rest].
  - apply Forall_forall. intros p I. apply In_pages_from in I. lia.
  - eapply Forall_impl; [|apply Forall_take_while]. intros p. cbn. lia.
Qed.

Lemma is_rendering_render_events pp frame l :
  forallb is_rendering (render_events pp frame l) = true.
Proof. induction l; cbn; auto. Qed.

(** X26.  [PrintPages] with a surface whose layout has pages, under
    [OS_MACOSX]: after the layout the host is told the number of pages
    (unless on Chrome OS or Android) and then the pages are rendered, all
    of them or the requested ones below the page count, and nothing else
    happens; the surface is kept, for the caller to release. *)
Theorem PrintPages_announces_then_renders s p p' s1 pp :
  OS_MACOSX platform = true ->
  prep_frame_view_ (self s) = Some p ->
  print_pages_params_ (self s) = Some pp ->
  StartPrinting env p s = Returned p' s1 ->
  GetExpectedPageCount p' <> 0 ->
  exists frame,
    PrintPages platform env PrintPagesNative_other s
    = Returned tt
        {| self := set_prep_frame_view_ (self s) (Some p');
           history := history s1 ++
             (if negb (OS_CHROMEOS platform) && negb (OS_ANDROID platform)
              then [Send (PrintHostMsg_DidGetPrintedPagesCount
                            (document_cookie (params pp))
                            (GetExpectedPageCount p'))]
              else []) ++
             render_events (params pp) frame
               (pages_to_render (GetExpectedPageCount p') pp) |}.
Proof.
  intros Mac P PP S N.
  pose proof (StartPrinting_always env p s) as A. rewrite S in A.
  destruct A as [Se _].
  unfold PrintPages. rewrite (bind_run _ _ s (self s) s) by reflexivity.
  rewrite P, (bind_run _ _ _ _ _ S).
  set (s2 := {| self := set_prep_frame_view_ (self s1) (Some p');
                history := history s1 |}).
  rewrite (bind_run _ _ s1 tt s2) by reflexivity.
  replace (negb (int_to_bool (GetExpectedPageCount p'))) with false
    by (unfold int_to_bool; destruct (Z.eqb_spec (GetExpectedPageCount p') 0);
        [contradiction|reflexivity]).
  rewrite (bind_run _ _ s2 (self s2) s2) by reflexivity.
  assert (PP2 : print_pages_params_ (self s2) = Some pp)
    by (subst s2; cbn; now rewrite Se).
  rewrite PP2. rewrite (bind_run _ _ s2 pp s2) by reflexivity.
  set (notice := if negb (OS_CHROMEOS platform) && negb (OS_ANDROID platform)
                 then [Send (PrintHostMsg_DidGetPrintedPagesCount
                               (document_cookie (params pp))
                               (GetExpectedPageCount p'))]
                 else []).
  set (s3 := {| self := self s2; history := history s2 ++ notice |}).
  rewrite (bind_run _ _ s2 tt s3).
  2:{ subst s3 notice. destruct (negb _ && negb _); [reflexivity|].
      unfold ret. rewrite app_nil_r. now destruct s2. }
  destruct (FrameReference_GetFrame_returns env (prep_frame_ p') s3)
    as (frame & s3' & G & Sg & ev & Hg & _).
  assert (s3' = s3) as ->.
  { unfold FrameReference_GetFrame, bind, past, ret in G.
    destruct (view_ (prep_frame_ p')), (frame_ (prep_frame_ p'));
      now injection G. }
  unfold Prepare_frame. rewrite (bind_run _ _ _ _ _ G).
  unfold PrintPagesNative. rewrite Mac.
  rewrite (bind_run _ _ _ _ _
             (PrintPagesNative_mac_run frame (GetExpectedPageCount p') s3 pp
                PP2)).
  cbn [negb]. exists frame. unfold ret. subst s3 s2. cbn [self history].
  now rewrite Se, <- app_assoc.
Qed.

Lemma keeps_flags_refl s : keeps_flags s s.
Proof. repeat split. Qed.

Lemma keeps_flags_trans s1 s2 s3 :
  keeps_flags s1 s2 -> keeps_flags s2 s3 -> keeps_flags s1 s3.
Proof. unfold keeps_flags, same_flags. intuition congruence. Qed.

Lemma prepares_keeps_flags s s' : prepares s s' -> keeps_flags s s'.
Proof. intros [E _]. unfold keeps_flags. rewrite E. repeat split. Qed.

Lemma always_weaken {A} (R Q : State -> State -> Prop) (m : M A) :
  (forall s s', R s s' -> Q s s') -> always R m -> always Q m.
Proof. intros I H s. specialize (H s). destruct (m s); auto. Qed.

Lemma always_emit_flags e : always keeps_flags (emit e).
Proof. intros s. repeat split. Qed.

Lemma always_modify_flags f :
  (forall h, same_flags h (f h)) -> always keeps_flags (modify f).
Proof. intros H s. apply H. Qed.

End SessionMore.

Ltac step_flags :=
  repeat first
    [ apply always_ret; [apply keeps_flags_refl]
    | apply always_abort; [apply keeps_flags_refl]
    | apply always_get; [apply keeps_flags_refl]
    | apply always_past; [apply keeps_flags_refl]
    | apply always_deref; [apply keeps_flags_refl]
    | apply always_lift_checked; [apply keeps_flags_refl]
    | apply always_emit_flags
    | apply always_modify_flags; intros; repeat split
    | apply always_bind; [apply keeps_flags_trans| |intros]
    | match goal with
      | |- always _ (if ?b then _ else _) => destruct b
      | |- always _ (match ?x with _ => _ end) => destruct x
      end ].

Section SessionFlags.

Variable platform : Platform.
Variable env : Environment.
Variable PrintPagesNative_other : option WebLocalFrame -> Z -> M bool.
Hypothesis other_keeps_flags :
  forall frame page_count,
    always keeps_flags (PrintPagesNative_other frame page_count).

Lemma CopySelection_always p : always prepares (CopySelection env p).
Proof.
  unfold CopySelection, Prepare_frame.
  apply always_bind; [apply prepares_trans|apply ResizeForPrinting_always|intros].
  apply always_bind; [apply prepares_trans|apply returns_always, FrameReference_GetFrame_returns; apply prepares_refl|intros].
  apply always_bind; [apply prepares_trans|step_always|intros].
  apply always_bind; [apply prepares_trans|step_always|intros].
  cbv zeta.
  apply always_bind; [apply prepares_trans|apply returns_always, RestoreSize_returns; apply prepares_refl|intros].
  apply always_bind; [apply prepares_trans|step_always|intros].
  apply always_bind; [apply prepares_trans|step_always|intros].
  apply always_bind; [apply prepares_trans|step_always|intros].
  apply always_bind; [apply prepares_trans|step_always|intros].
  apply always_bind; [apply prepares_trans|apply returns_always, FrameReference_Reset_returns; apply prepares_refl|intros].
  apply always_bind; [apply prepares_trans|apply returns_always, FrameReference_GetFrame_returns; apply prepares_refl|intros].
  step_always.
Qed.

Lemma reset_prep_frame_view_flags : always keeps_flags (reset_prep_frame_view env).
Proof.
  unfold reset_prep_frame_view.
  apply always_bind; [apply keeps_flags_trans|step_flags|intros].
  apply always_bind; [apply keeps_flags_trans|step_flags|intros].
  destruct (prep_frame_view_ a); [|step_flags].
  apply (always_weaken prepares keeps_flags); [apply prepares_keeps_flags|].
  apply returns_always, PrepareFrameAndViewForPrint_delete_returns.
Qed.

Lemma DidFinishPrinting_flags result :
  always keeps_flags (DidFinishPrinting env result).
Proof.
  unfold DidFinishPrinting.
  apply always_bind; [apply keeps_flags_trans|step_flags|intros].
  apply always_bind; [apply keeps_flags_trans|step_flags|intros].
  apply always_bind; [apply keeps_flags_trans|apply reset_prep_frame_view_flags|intros].
  step_flags.
Qed.

Lemma print_all_pages_flags n i pp frame :
  always keeps_flags (print_all_pages n i pp frame).
Proof. revert i. induction n; intros i; cbn; step_flags. apply IHn. Qed.

Lemma print_requested_pages_flags l c pp frame :
  always keeps_flags (print_requested_pages l c pp frame).
Proof. induction l; cbn; step_flags. apply IHl. Qed.

Lemma PrintPagesNative_flags frame c :
  always keeps_flags
    (PrintPagesNative platform PrintPagesNative_other frame c).
Proof.
  unfold PrintPagesNative, PrintPagesNative_mac.
  destruct (OS_MACOSX platform); [|apply other_keeps_flags].
  apply always_bind; [apply keeps_flags_trans|step_flags|intros].
  apply always_bind; [apply keeps_flags_trans|step_flags|intros].
  apply always_bind; [apply keeps_flags_trans| |intros; step_flags].
  destruct (pages a0);
    [apply print_all_pages_flags|apply print_requested_pages_flags].
Qed.

Lemma PrintPages_flags :
  always keeps_flags (PrintPages platform env PrintPagesNative_other).
Proof.
  unfold PrintPages, Prepare_frame.
  apply always_bind; [apply keeps_flags_trans|step_flags|intros].
  destruct (prep_frame_view_ a); [|step_flags].
  apply always_bind; [apply keeps_flags_trans| |intros].
  { apply (always_weaken prepares keeps_flags);
      [apply prepares_keeps_flags|apply StartPrinting_always]. }
  apply always_bind; [apply keeps_flags_trans|step_flags|intros].
  cbv zeta. destruct (negb _); [apply DidFinishPrinting_flags|].
  apply always_bind; [apply keeps_flags_trans|step_flags|intros].
  apply always_bind; [apply keeps_flags_trans|step_flags|intros].
  apply always_bind; [apply keeps_flags_trans|step_flags|intros].
  apply always_bind; [apply keeps_flags_trans| |intros].
  { apply (always_weaken prepares keeps_flags);
      [apply prepares_keeps_flags|].
    apply returns_always, FrameReference_GetFrame_returns. }
  apply always_bind; [apply keeps_flags_trans|apply PrintPagesNative_flags|intros].
  destruct (negb _); [apply DidFinishPrinting_flags|step_flags].
Qed.

Lemma OnFramePreparedForPrintPages_flags :
  always keeps_flags
    (OnFramePreparedForPrintPages platform env PrintPagesNative_other).
Proof.
  unfold OnFramePreparedForPrintPages, FinishFramePrinting.
  apply always_bind; [apply keeps_flags_trans|apply PrintPages_flags|intros].
  apply reset_prep_frame_view_flags.
Qed.

Lemma CopySelectionIfNeeded_flags c :
  always keeps_flags
    (CopySelectionIfNeeded platform env PrintPagesNative_other c).
Proof.
  unfold CopySelectionIfNeeded, CallOnReady.
  apply always_bind; [apply keeps_flags_trans|step_flags|intros].
  apply always_bind; [apply keeps_flags_trans|step_flags|intros].
  cbv zeta.
  apply always_bind; [apply keeps_flags_trans|step_flags|intros].
  destruct (should_print_selection_only_ _).
  - apply always_bind; [apply keeps_flags_trans| |intros; step_flags].
    apply (always_weaken prepares keeps_flags);
      [apply prepares_keeps_flags|apply CopySelection_always].
  - apply always_bind; [apply keeps_flags_trans|step_flags|intros].
    apply always_bind; [apply keeps_flags_trans|step_flags|intros].
    apply always_bind; [apply keeps_flags_trans|step_flags|intros].
    destruct a4. apply OnFramePreparedForPrintPages_flags.
Qed.

Lemma CalculateNumberOfPages_flags frame node :
  always keeps_flags (CalculateNumberOfPages platform env frame node).
Proof.
  unfold CalculateNumberOfPages, InitPrintSettings, SetPrintPagesParams.
  apply always_bind; [apply keeps_flags_trans| |intros].
  { apply (always_weaken prepares keeps_flags); [apply prepares_keeps_flags|].
    apply returns_always, PrintingNodeOrPdfFrame_returns. }
  cbv zeta.
  apply always_bind; [apply keeps_flags_trans|step_flags|intros].
  destruct (negb a0); [step_flags|].
  apply always_bind; [apply keeps_flags_trans|step_flags|intros].
  apply always_bind; [apply keeps_flags_trans|step_flags|intros].
  apply always_bind; [apply keeps_flags_trans| |intros].
  { apply (always_weaken prepares keeps_flags); [apply prepares_keeps_flags|].
    apply PrepareFrameAndViewForPrint_new_always. }
  apply always_bind; [apply keeps_flags_trans| |intros].
  { apply (always_weaken prepares keeps_flags); [apply prepares_keeps_flags|].
    apply StartPrinting_always. }
  apply always_bind; [apply keeps_flags_trans| |intros; step_flags].
  apply (always_weaken prepares keeps_flags); [apply prepares_keeps_flags|].
  apply returns_always, PrepareFrameAndViewForPrint_delete_returns.
Qed.

Lemma GetPrintSettingsFromUser_flags frame node n :
  always keeps_flags (GetPrintSettingsFromUser env frame node n).
Proof.
  unfold GetPrintSettingsFromUser, SetPrintPagesParams, PrintingNodeOrPdfFrame,
    GetMarginsForPdf.
  cbv zeta. step_flags.
Qed.

Lemma RenderPagesForPrint_flags frame node :
  always keeps_flags
    (RenderPagesForPrint platform env PrintPagesNative_other frame node).
Proof.
  unfold RenderPagesForPrint.
  apply always_bind; [apply keeps_flags_trans|step_flags|intros].
  destruct frame; [|step_flags].
  destruct (prep_frame_view_ a); [step_flags|].
  apply always_bind; [apply keeps_flags_trans|step_flags|intros].
  apply always_bind; [apply keeps_flags_trans| |intros].
  { apply (always_weaken prepares keeps_flags); [apply prepares_keeps_flags|].
    apply PrepareFrameAndViewForPrint_new_always. }
  apply always_bind; [apply keeps_flags_trans|step_flags|intros].
  apply always_bind; [apply keeps_flags_trans|apply CopySelectionIfNeeded_flags|intros].
  step_flags.
Qed.

(** X27.  A print request never changes the seven flags of the controller
    that the file only initialises, however it ends, provided the
    platform's [PrintPagesNative] does not. *)
Theorem Print_keeps_flags frame node silent print_background :
  always keeps_flags
    (Print platform env PrintPagesNative_other frame node silent
           print_background).
Proof.
  unfold Print, SetPrintPagesParams.
  apply always_bind; [apply keeps_flags_trans|step_flags|intros].
  destruct (prep_frame_view_ a); [step_flags|].
  apply always_bind; [apply keeps_flags_trans| |intros].
  { apply (always_weaken prepares keeps_flags); [apply prepares_keeps_flags|].
    apply returns_always, FrameReference_Reset_returns. }
  apply always_bind; [apply keeps_flags_trans|apply CalculateNumberOfPages_flags|intros].
  destruct a1 as [n|]; [|apply DidFinishPrinting_flags].
  destruct (negb (int_to_bool n)); [apply DidFinishPrinting_flags|].
  apply always_bind; [apply keeps_flags_trans| |intros].
  { destruct (negb silent); [|step_flags].
    apply always_bind; [apply keeps_flags_trans| |intros].
    - apply (always_weaken prepares keeps_flags); [apply prepares_keeps_flags|].
      apply returns_always, FrameReference_GetFrame_returns.
    - apply GetPrintSettingsFromUser_flags. }
  destruct (negb a1); [apply DidFinishPrinting_flags|].
  apply always_bind; [apply keeps_flags_trans|step_flags|intros].
  apply always_bind; [apply keeps_flags_trans|step_flags|intros].
  apply always_bind; [apply keeps_flags_trans|step_flags|intros].
  apply always_bind; [apply keeps_flags_trans| |intros].
  { apply (always_weaken prepares keeps_flags); [apply prepares_keeps_flags|].
    apply returns_always, FrameReference_GetFrame_returns. }
  apply always_bind; [apply keeps_flags_trans|apply RenderPagesForPrint_flags|intros].
  destruct (negb a6); [apply DidFinishPrinting_flags|step_flags].
Qed.

End SessionFlags.

Section SessionSurface.

Variable platform : Platform.
Variable env : Environment.
Variable PrintPagesNative_other : option WebLocalFrame -> Z -> M bool.

Lemma ResizeForPrinting_selection p s p' s' :
  ResizeForPrinting env p s = Returned p' s' ->
  should_print_selection_only_ p' = should_print_selection_only_ p.
Proof.
  unfold ResizeForPrinting. cbv zeta. intros H.
  apply bind_Returned in H as (f & s0 & _ & H).
  destruct f as [f|]; [|now injection H as <- _].
  apply bind_Returned in H as (v & s1 & _ & H).
  apply bind_Returned in H as (h & s2 & _ & H).
  apply bind_Returned in H as ([] & s3 & _ & H).
  now injection H as <- _.
Qed.

Lemma CopySelection_owns p s p' s' :
  CopySelection env p s = Returned p' s' ->
  owns_web_view_ p' = true /\
  should_print_selection_only_ p' = should_print_selection_only_ p.
Proof.
  unfold CopySelection. intros H.
  apply bind_Returned in H as (p1 & s1 & R & H).
  apply ResizeForPrinting_selection in R.
  apply bind_Returned in H as (f & s2 & _ & H).
  apply bind_Returned in H as (fr & s3 & _ & H).
  apply bind_Returned in H as (h & s4 & _ & H). cbv zeta in H.
  apply bind_Returned in H as ([] & s5 & _ & H).
  apply bind_Returned in H as (h5 & s6 & _ & H).
  apply bind_Returned in H as ([] & s7 & _ & H).
  apply bind_Returned in H as (h7 & s8 & _ & H).
  apply bind_Returned in H as ([] & s9 & _ & H).
  apply bind_Returned in H as (ref & s10 & _ & H).
  apply bind_Returned in H as (f' & s11 & _ & H).
  apply bind_Returned in H as (fr' & s12 & _ & H).
  apply bind_Returned in H as ([] & s13 & _ & H).
  injection H as <- _. split; [reflexivity|exact R].
Qed.

Lemma CopySelectionIfNeeded_surface c s s' :
  CopySelectionIfNeeded platform env PrintPagesNative_other c s
    = Returned tt s' ->
  no_surface_but_a_copy (self s').
Proof.
  unfold CopySelectionIfNeeded, CallOnReady. intros H.
  apply bind_Returned in H as (h & s0 & _ & H).
  apply bind_Returned in H as (p & s1 & _ & H). cbv zeta in H.
  apply bind_Returned in H as ([] & s2 & _ & H).
  cbn [should_print_selection_only_ set_on_ready_] in H.
  destruct (should_print_selection_only_ p) eqn:Sel.
  - apply bind_Returned in H as (p' & s3 & C & H).
    apply CopySelection_owns in C as [O S].
    injection H as <-. unfold no_surface_but_a_copy. cbn.
    split; [now rewrite S|exact O].
  - apply bind_Returned in H as (h' & s3 & _ & H).
    apply bind_Returned in H as (q & s4 & _ & H).
    apply bind_Returned in H as ([] & s5 & _ & H).
    apply OnFramePreparedForPrintPages_releases in H.
    unfold no_surface_but_a_copy. now rewrite H.
Qed.

Lemma DidFinishPrinting_surface result s s' :
  DidFinishPrinting env result s = Returned tt s' ->
  no_surface_but_a_copy (self s').
Proof.
  destruct (DidFinishPrinting_run env result s) as (s2 & evs & E & S & _).
  rewrite E. intros [= <-]. unfold no_surface_but_a_copy. now rewrite S.
Qed.

(** X28.  A print request that returns leaves no surface behind, except the
    copy of a selection that is still loading: the surface the session
    holds afterwards, if any, belongs to a selection-only session and owns
    its view. *)
Theorem Print_leaves_no_surface_but_a_copy frame node silent print_background
    s s' :
  no_surface_but_a_copy (self s) ->
  Print platform env PrintPagesNative_other frame node silent print_background
        s = Returned tt s' ->
  no_surface_but_a_copy (self s').
Proof.
  intros I. unfold Print. intros H.
  apply bind_Returned in H as (h & s0 & G & H). injection G as <- <-.
  destruct (prep_frame_view_ (self s)) eqn:P.
  { injection H as <-. exact I. }
  apply bind_Returned in H as (ref & s1 & _ & H).
  apply bind_Returned in H as (n & s2 & _ & H).
  destruct n as [n|]; [|now apply DidFinishPrinting_surface in H].
  destruct (negb (int_to_bool n)); [now apply DidFinishPrinting_surface in H|].
  apply bind_Returned in H as (proceed & s3 & _ & H).
  destruct (negb proceed); [now apply DidFinishPrinting_surface in H|].
  apply bind_Returned in H as (h4 & s4 & _ & H).
  apply bind_Returned in H as (pp & s5 & _ & H).
  apply bind_Returned in H as ([] & s6 & _ & H).
  apply bind_Returned in H as (f & s7 & _ & H).
  apply bind_Returned in H as (ok & s8 & R & H).
  destruct (negb ok) eqn:B; [now apply DidFinishPrinting_surface in H|].
  injection H as <-. destruct ok; [|discriminate].
  unfold RenderPagesForPrint in R.
  apply bind_Returned in R as (h7 & s9 & _ & R).
  destruct f as [f|]; [|discriminate].
  destruct (prep_frame_view_ h7); [discriminate|].
  apply bind_Returned in R as (pp' & s10 & _ & R).
  apply bind_Returned in R as (p & s11 & _ & R).
  apply bind_Returned in R as ([] & s12 & _ & R).
  apply bind_Returned in R as ([] & s13 & C & R).
  injection R as <-. now apply CopySelectionIfNeeded_surface in C.
Qed.

End SessionSurface.

(** *** The facts above at concrete inputs *)

Lemma Print_with_invalid_settings_witness :
  let env := steady_env (params cancelled_settings) cancelled_settings 3 in
  Print mac_platform env no_other_PrintPagesNative 0%nat NullNode false false
        fresh
  = Returned tt
      {| self := idle (set_ignore_css_margins_ (self fresh) false);
         history := history fresh ++
           [Send PrintHostMsg_GetDefaultPrintSettings;
            Send PrintHostMsg_ShowInvalidPrinterSettingsError;
            DidFinishPrinting_entered FAIL_PRINT_INIT] |}.
Proof.
  intros env.
  apply (Print_with_invalid_settings mac_platform env
           no_other_PrintPagesNative 0%nat NullNode false false fresh);
    reflexivity.
Defined.

Lemma CalculateNumberOfPages_installs_defaults_witness :
  let env := steady_env letter_portrait cancelled_settings 3 in
  exists n s1,
    CalculateNumberOfPages mac_platform env 0%nat NullNode fresh
      = Returned (Some n) s1 /\
    let reply :=
      reply_GetDefaultPrintSettings env
        (history fresh ++ [Send PrintHostMsg_GetDefaultPrintSettings]) in
    PrintMsg_Print_Params_IsValid reply = true /\
    (exists scaling,
       self s1 =
       set_print_pages_params_ (set_ignore_css_margins_ (self fresh) false)
         (Some {| params := set_print_scaling_option reply scaling;
                  pages := [] |})) /\
    continues preparatory fresh s1.
Proof.
  intros env. eexists _, _. split; [vm_compute; reflexivity|].
  eapply (CalculateNumberOfPages_installs_defaults mac_platform env 0%nat
            NullNode fresh).
  vm_compute; reflexivity.
Defined.

Lemma Print_of_detached_frame_witness :
  let env := detaching_env letter_portrait 3 in
  exists n s1 pp,
    CalculateNumberOfPages mac_platform env 0%nat NullNode fresh
      = Returned (Some n) s1 /\
    print_pages_params_ (self s1) = Some pp /\
    view_has_frame env (history s1) (frame_view env (history fresh) 0%nat)
      0%nat = false /\
    Print mac_platform env no_other_PrintPagesNative 0%nat NullNode true false
          fresh
    = Returned tt
        {| self := idle (self s1);
           history := history s1 ++
             [DidFinishPrinting_entered FAIL_PRINT;
              Send (PrintHostMsg_PrintingFailed
                      (document_cookie (params pp)))] |}.
Proof.
  intros env. eexists _, _, _. split; [vm_compute; reflexivity|].
  split; [vm_compute; reflexivity|]. split; [vm_compute; reflexivity|].
  eapply (Print_of_detached_frame mac_platform env no_other_PrintPagesNative
            0%nat NullNode false fresh);
    [ reflexivity | vm_compute; reflexivity | discriminate
    | vm_compute; reflexivity | vm_compute; reflexivity
    | vm_compute; reflexivity ].
Defined.


Lemma PrintPagesNative_mac_all_pages_witness :
  let pp := {| params := letter_portrait; pages := [] |} in
  let s := with_settings pp in
  exists evs,
    PrintPagesNative_mac (Some 0%nat) 3 s
      = Returned true {| self := self s; history := history s ++ evs |} /\
    rendered_pages evs = pages_from (Z.to_nat 3) 0 /\
    (forall p, In p (rendered_pages evs) <-> 0 <= p < 3) /\
    StronglySorted Z.lt (rendered_pages evs).
Proof.
  intros pp s.
  apply (PrintPagesNative_mac_all_pages (Some 0%nat) 3 s pp); reflexivity.
Defined.

Lemma PrintPagesNative_mac_stays_below_page_count_witness :
  let pp := {| params := letter_portrait; pages := [0; 2; 7; 1] |} in
  let s := with_settings pp in
  exists evs,
    PrintPagesNative_mac (Some 0%nat) 3 s
      = Returned true {| self := self s; history := history s ++ evs |} /\
    forallb is_rendering evs = true /\
    Forall (fun p => p < 3) (rendered_pages evs).
Proof.
  intros pp s.
  apply (PrintPagesNative_mac_stays_below_page_count (Some 0%nat) 3 s pp).
  reflexivity.
Defined.

Lemma StartPrinting_FinishPrinting_restores_witness :
  let env := steady_env letter_portrait cancelled_settings 3 in
  exists p1 s1 p2 s2 layout_size,
    StartPrinting env a_prepare fresh = Returned p1 s1 /\
    FinishPrinting env p1 s1 = Returned p2 s2 /\
    self s2 = self fresh /\
    history s2 = history fresh ++
      [resize 0%nat layout_size;
       setShouldPrintBackgrounds 0%nat (should_print_backgrounds_ a_prepare);
       printBegin 0%nat (web_print_params_ a_prepare)
                  (node_to_print_ a_prepare);
       printEnd 0%nat;
       setShouldPrintBackgrounds 0%nat false;
       resize 0%nat (view_size env (history fresh) 0%nat);
       setScrollOffset 0%nat (view_scrollOffset env (history fresh) 0%nat)] /\
    is_printing_started_ p1 = true /\
    is_printing_started_ p2 = false /\
    frame_ (prep_frame_ p2) = None.
Proof.
  intros env.
  apply (StartPrinting_FinishPrinting_restores env a_prepare fresh 0%nat
           0%nat);
    first [reflexivity | intros h; reflexivity].
Defined.

Lemma FinishPrinting_idempotent_witness :
  let env := steady_env letter_portrait cancelled_settings 3 in
  exists p1 s1 p2 s2,
    StartPrinting env a_prepare fresh = Returned p1 s1 /\
    FinishPrinting env p1 s1 = Returned p2 s2 /\
    FinishPrinting env p2 s2 = Returned p2 s2.
Proof.
  intros env. eexists _, _, _, _. split; [vm_compute; reflexivity|].
  match goal with
  | |- ?A /\ _ => assert (H : A) by (vm_compute; reflexivity)
  end.
  split; [exact H|].
  exact (FinishPrinting_idempotent env _ _ _ _ H).
Defined.

Lemma OnFramePreparedForPrintPages_frees_the_surface_witness :
  let env := steady_env letter_portrait cancelled_settings 3 in
  let s := preparing {| params := letter_portrait; pages := [] |} in
  exists s1,
    PrintPages mac_platform env no_other_PrintPagesNative s = Returned tt s1 /\
    exists s' evs,
      OnFramePreparedForPrintPages mac_platform env no_other_PrintPagesNative
        s = Returned tt s' /\
      self s' = set_prep_frame_view_ (self s1) None /\
      history s' = history s1 ++ evs /\
      forallb preparatory evs = true.
Proof.
  intros env s. eexists. split; [vm_compute; reflexivity|].
  apply (OnFramePreparedForPrintPages_frees_the_surface mac_platform env
           no_other_PrintPagesNative s).
  vm_compute; reflexivity.
Defined.


Lemma PrintPages_announces_then_renders_witness :
  let env := steady_env letter_portrait cancelled_settings 3 in
  let pp := {| params := letter_portrait; pages := [2; 0; 5; 1] |} in
  let s := preparing pp in
  exists p' s1,
    StartPrinting env a_prepare s = Returned p' s1 /\
    GetExpectedPageCount p' <> 0 /\
    exists frame,
      PrintPages mac_platform env no_other_PrintPagesNative s
      = Returned tt
          {| self := set_prep_frame_view_ (self s) (Some p');
             history := history s1 ++
               (if negb (OS_CHROMEOS mac_platform)
                   && negb (OS_ANDROID mac_platform)
                then [Send (PrintHostMsg_DidGetPrintedPagesCount
                              (document_cookie (params pp))
                              (GetExpectedPageCount p'))]
                else []) ++
               render_events (params pp) frame
                 (pages_to_render (GetExpectedPageCount p') pp) |}.
Proof.
  intros env pp s. eexists _, _. split; [vm_compute; reflexivity|].
  split; [vm_compute; discriminate|].
  apply (PrintPages_announces_then_renders mac_platform env
           no_other_PrintPagesNative s a_prepare);
    [ reflexivity | reflexivity | reflexivity | vm_compute; reflexivity
    | vm_compute; discriminate ].
Defined.

Lemma Print_keeps_flags_witness :
  let env := steady_env letter_portrait cancelled_settings 3 in
  (forall frame page_count,
     always keeps_flags (no_other_PrintPagesNative frame page_count)) /\
  always keeps_flags
    (Print other_platform env no_other_PrintPagesNative 0%nat NullNode true
           false).
Proof.
  intros env.
  assert (K : forall frame page_count,
            always keeps_flags (no_other_PrintPagesNative frame page_count)).
  { intros frame page_count s. repeat split. }
  split; [exact K|].
  apply (Print_keeps_flags other_platform env no_other_PrintPagesNative K).
Defined.

Lemma Print_leaves_no_surface_but_a_copy_witness :
  let env := steady_env letter_portrait cancelled_settings 3 in
  no_surface_but_a_copy (self fresh) /\
  exists s',
    Print mac_platform env no_other_PrintPagesNative 0%nat NullNode true false
          fresh = Returned tt s' /\
    no_surface_but_a_copy (self s').
Proof.
  intros env. split; [exact I|].
  eexists. split; [vm_compute; reflexivity|].
  apply (Print_leaves_no_surface_but_a_copy mac_platform env
           no_other_PrintPagesNative 0%nat NullNode true false fresh);
    [exact I | vm_compute; reflexivity].
Defined.
